(** * The request pipeline of backend/server.js

    A shallow embedding of the Express application assembled in
    [src/backend/server.js]: the middleware chain registered with
    [app.use], the page routes registered with [app.get], the health
    check, and the two trailing fallback handlers.

    The application object is an ordered stack of layers.  Express walks
    the stack once per request; a layer whose path and method match is
    invoked and either ends the response, calls [next()] or calls
    [next(err)].  The embedding keeps that structure: [app] is the list of
    registered layers in source order and [walk] is the dispatcher.

    server.js is a composition root.  What it composes comes from the
    packages it requires (express with serve-static and send, helmet,
    express-rate-limit, morgan, cors, body-parser) and from the route
    modules of the repository.  The packages are embedded by the control
    flow they have for the options server.js passes to them (Express 4
    and the packages of its generation); what they compute from data this
    file does not hold (the route modules, the file system and the
    validators of its files, compression, character sets, the grammar of
    a Content-Type value, the environment, the clock) is a parameter:
    [World], and the [now] of each request. *)

From Stdlib Require Import ZArith Lia Ascii String List Bool.
From stdpp Require Import gmap strings list.

Local Open Scope string_scope.
Local Open Scope Z_scope.
Local Open Scope list_scope.

(** ** Text helpers *)

Module Text.

(** ASCII lower-casing of one character, as the [i] flag of the route
    regular expressions compares letters. *)
Definition lower_ascii (c : ascii) : ascii :=
  let n := N_of_ascii c in
  if ((65 <=? n) && (n <=? 90))%N then ascii_of_N (n + 32) else c.

Fixpoint lower (s : string) : string :=
  match s with
  | EmptyString => EmptyString
  | String c r => String (lower_ascii c) (lower r)
  end.

Definition upper_ascii (c : ascii) : ascii :=
  let n := N_of_ascii c in
  if ((97 <=? n) && (n <=? 122))%N then ascii_of_N (n - 32) else c.

Fixpoint upper (s : string) : string :=
  match s with
  | EmptyString => EmptyString
  | String c r => String (upper_ascii c) (upper r)
  end.

Fixpoint ends_with_slash (s : string) : bool :=
  match s with
  | EmptyString => false
  | String c EmptyString => Ascii.eqb c "/"
  | String _ r => ends_with_slash r
  end.

(** Drops one trailing slash, if there is one. *)
Fixpoint chop_slash (s : string) : string :=
  match s with
  | EmptyString => EmptyString
  | String c EmptyString => if Ascii.eqb c "/" then EmptyString else s
  | String c r => String c (chop_slash r)
  end.

(** [starts_at_boundary p s]: [s] is [p] itself or [p] followed by a
    slash and anything. *)
Fixpoint starts_at_boundary (p s : string) : bool :=
  match p, s with
  | EmptyString, EmptyString => true
  | EmptyString, String c _ => Ascii.eqb c "/"
  | String _ _, EmptyString => false
  | String a p', String b s' => Ascii.eqb a b && starts_at_boundary p' s'
  end.

Fixpoint starts_with (p s : string) : bool :=
  match p, s with
  | EmptyString, _ => true
  | String _ _, EmptyString => false
  | String a p', String b s' => Ascii.eqb a b && starts_with p' s'
  end.

(** The text before the first occurrence of [sep]. *)
Fixpoint before (sep : ascii) (s : string) : string :=
  match s with
  | EmptyString => EmptyString
  | String c r => if Ascii.eqb c sep then EmptyString else String c (before sep r)
  end.

(** The text after the first occurrence of [sep], if there is one. *)
Fixpoint after (sep : ascii) (s : string) : option string :=
  match s with
  | EmptyString => None
  | String c r => if Ascii.eqb c sep then Some r else after sep r
  end.

Fixpoint trim_start (s : string) : string :=
  match s with
  | String c r => if Ascii.eqb c " " then trim_start r else s
  | EmptyString => EmptyString
  end.

Fixpoint trim_end (s : string) : string :=
  match s with
  | EmptyString => EmptyString
  | String c r =>
      match trim_end r with
      | EmptyString => if Ascii.eqb c " " then EmptyString else String c EmptyString
      | r' => String c r'
      end
  end.

Definition trim (s : string) : string := trim_end (trim_start s).

Fixpoint contains (c : ascii) (s : string) : bool :=
  match s with
  | EmptyString => false
  | String a r => Ascii.eqb a c || contains c r
  end.

(** [s.split(sep)], for any set of separators: the pieces between them,
    empty pieces included. *)
Fixpoint split_by (is_sep : ascii -> bool) (s : string) : list string :=
  match s with
  | EmptyString => [EmptyString]
  | String c r =>
      if is_sep c then EmptyString :: split_by is_sep r
      else match split_by is_sep r with
           | [] => [String c EmptyString]
           | piece :: pieces => String c piece :: pieces
           end
  end.

Definition split (sep : ascii) (s : string) : list string := split_by (Ascii.eqb sep) s.

(** [pieces.join(sep)] *)
Fixpoint join (sep : string) (pieces : list string) : string :=
  match pieces with
  | [] => EmptyString
  | [p] => p
  | p :: rest => p +:+ sep +:+ join sep rest
  end.

(** A run of slashes at the start becomes one slash. *)
Fixpoint drop_slashes (s : string) : string :=
  match s with
  | String c r => if Ascii.eqb c "/" then drop_slashes r else s
  | EmptyString => EmptyString
  end.

Definition collapse_leading_slashes (s : string) : string :=
  match s with
  | String a (String b r) =>
      if Ascii.eqb a "/" && Ascii.eqb b "/" then String "/" (drop_slashes r) else s
  | _ => s
  end.

(** The double quote, for the messages that quote a name. *)
Definition quoted (s : string) : string :=
  String "034" EmptyString +:+ s +:+ String "034" EmptyString.

End Text.

(** ** [decodeURIComponent]

    Strings are sequences of bytes, text in UTF-8.  An escape [%XX]
    stands for one byte; a byte of 128 or more must open a well-formed
    UTF-8 sequence whose other bytes are escapes too; anything else makes
    the function throw ([None]). *)

Module URI.

Definition hex (c : ascii) : option N :=
  let n := N_of_ascii c in
  if ((48 <=? n) && (n <=? 57))%N then Some (n - 48)%N
  else if ((65 <=? n) && (n <=? 70))%N then Some (n - 55)%N
  else if ((97 <=? n) && (n <=? 102))%N then Some (n - 87)%N
  else None.

(** The text, escape by escape: [(true, b)] for an escaped byte,
    [(false, c)] for a character that stands for itself. *)
Fixpoint octets (s : string) : option (list (bool * ascii)) :=
  match s with
  | EmptyString => Some []
  | String c r =>
      if Ascii.eqb c "%" then
        match r with
        | String a (String b r') =>
            match hex a, hex b, octets r' with
            | Some x, Some y, Some rest => Some ((true, ascii_of_N (16 * x + y)) :: rest)
            | _, _, _ => None
            end
        | _ => None
        end
      else
        match octets r with
        | Some rest => Some ((false, c) :: rest)
        | None => None
        end
  end.

(** The number of leading one bits of a byte. *)
Definition leading_ones (b : N) : nat :=
  if (b <? 128)%N then 0
  else if (b <? 192)%N then 1
  else if (b <? 224)%N then 2
  else if (b <? 240)%N then 3
  else if (b <? 248)%N then 4
  else 5.

Definition between (lo hi b : N) : bool := ((lo <=? b) && (b <=? hi))%N.

(** The well-formed UTF-8 sequences of two, three and four bytes: no
    overlong forms, no surrogates, nothing above U+10FFFF. *)
Definition well_formed (bytes : list N) : bool :=
  match bytes with
  | [a; b] => between 194 223 a && between 128 191 b
  | [a; b; c] =>
      ((N.eqb a 224 && between 160 191 b)
       || (between 225 236 a && between 128 191 b)
       || (N.eqb a 237 && between 128 159 b)
       || (between 238 239 a && between 128 191 b))
      && between 128 191 c
  | [a; b; c; d] =>
      ((N.eqb a 240 && between 144 191 b)
       || (between 241 243 a && between 128 191 b)
       || (N.eqb a 244 && between 128 143 b))
      && between 128 191 c && between 128 191 d
  | _ => false
  end.

Fixpoint text_of (bytes : list N) : string :=
  match bytes with
  | [] => EmptyString
  | b :: rest => String (ascii_of_N b) (text_of rest)
  end.

(** [assemble pending need ts]: [pending] holds the bytes of a sequence
    that still lacks [need] bytes. *)
Fixpoint assemble (pending : list N) (need : nat) (ts : list (bool * ascii))
  : option string :=
  match ts with
  | [] => match need with
          | O => Some EmptyString
          | S _ => None
          end
  | (escaped, c) :: rest =>
      match need with
      | O =>
          if escaped then
            match leading_ones (N_of_ascii c) with
            | 0%nat => option_map (String c) (assemble [] 0 rest)
            | 2%nat => assemble [N_of_ascii c] 1 rest
            | 3%nat => assemble [N_of_ascii c] 2 rest
            | 4%nat => assemble [N_of_ascii c] 3 rest
            | _ => None
            end
          else option_map (String c) (assemble [] 0 rest)
      | S more =>
          if escaped then
            let bytes := pending ++ [N_of_ascii c] in
            match more with
            | O => if well_formed bytes
                   then option_map (String.append (text_of bytes)) (assemble [] 0 rest)
                   else None
            | S _ => assemble bytes more rest
            end
          else None
      end
  end.

Definition decodeURIComponent (s : string) : option string :=
  match octets s with
  | Some ts => assemble [] 0 ts
  | None => None
  end.

End URI.

(** ** [path.normalize] and [path.join] of Node, POSIX flavour *)

Module Posix.

(** The segments that remain once empty segments and single dots are
    dropped and each double dot has removed the segment before it; a
    double dot with nothing before it stays when [above] allows it.
    [kept] is the result so far, last segment first. *)
Fixpoint segments (above : bool) (kept : list string) (segs : list string)
  : list string :=
  match segs with
  | [] => rev kept
  | seg :: rest =>
      if String.eqb seg EmptyString || String.eqb seg "." then segments above kept rest
      else if String.eqb seg ".." then
        match kept with
        | top :: below =>
            if String.eqb top ".."
            then segments above (if above then ".." :: kept else kept) rest
            else segments above below rest
        | [] => segments above (if above then [".."] else []) rest
        end
      else segments above (seg :: kept) rest
  end.

Definition normalize (p : string) : string :=
  match p with
  | EmptyString => "."
  | String c _ =>
      let absolute := Ascii.eqb c "/" in
      let trailing := Text.ends_with_slash p in
      match Text.join "/" (segments (negb absolute) [] (Text.split "/" p)) with
      | EmptyString => if absolute then "/" else if trailing then "./" else "."
      | kept =>
          (if absolute then "/" else EmptyString) +:+ kept
            +:+ (if trailing then "/" else EmptyString)
      end
  end.

(** [path.join(dir, ...names)] for a directory that is absolute and
    normalised already, as [__dirname] is, and names without dots or
    slashes. *)
Fixpoint join (parts : list string) : string :=
  match parts with
  | [] => EmptyString
  | [p] => p
  | p :: rest => p +:+ "/" +:+ join rest
  end.

End Posix.

(** ** JSON values, requests and responses *)

#[local] Unset Elimination Schemes.
Inductive Json : Type :=
| JNull
| JBool (b : bool)
| JNumber (n : Z)
| JString (s : string)
| JArray (items : list Json)
| JObject (fields : list (string * Json)).
#[local] Set Elimination Schemes.

Definition Header : Type := string * string.

(** What [req] exposes to the layers: [req.method] (upper case, as Node
    delivers it), [req.path] (as sent: neither decoded nor normalised),
    the header table (names in lower case, one entry per name, as Node
    delivers them), the body as it arrives, complete, when the request
    announces one with Content-Length or Transfer-Encoding, and
    [req.ip]. *)
Record Request : Type := mkRequest {
  method : string;
  path : string;
  req_headers : list Header;
  raw_body : option string;
  ip : string
}.

Fixpoint assoc (k : string) (l : list Header) : option string :=
  match l with
  | [] => None
  | (k', v) :: r => if String.eqb k k' then Some v else assoc k r
  end.

Definition header (req : Request) (name : string) : option string :=
  assoc name (req_headers req).

Inductive Body : Type :=
| NoContent
| JsonBody (j : Json)
| TextBody (t : string)
| RedirectNotice (url : string)
| Document (file : string) (content : string).

(** A response: the status, the headers the layers of the stack set (not
    the ones Express, send and Node add while sending, such as
    Content-Length, ETag and Date), and the body. *)
Record Response : Type := mkResponse {
  status : Z;
  res_headers : list Header;
  body : Body
}.

(** An error passed to [next(err)] or thrown by a handler: [err.message]
    and the [err.status] some middleware attaches. *)
Record Error : Type := mkError {
  err_message : string;
  err_status : option Z
}.

(** ** The surroundings of the process *)

Inductive FsEntry : Type :=
| Absent
| Directory
| File (content : string).

(** The route groups required on lines 11-18.  Their modules are not part
    of this file; each is an Express router that may answer, pass the
    request on, or fail. *)
Inductive ApiGroup : Type :=
| authRoutes | orderRoutes | productRoutes | userRoutes
| adminRoutes | apkRoutes | creditCardRoutes | syncRoutes.

Inductive GroupOutcome : Type :=
| Answers (r : Response)
| PassesOn
| Fails (e : Error).

(** One entry of the limiter's store: the hits counted in the client's
    current window and the time at which that window ends. *)
Record Window : Type := mkWindow {
  totalHits : Z;
  resetTime : Z
}.

(** What send makes of a file once it has found it: the whole file, a
    byte range of it, nothing because the client's copy is current, or a
    refusal (412 for a failed precondition, 416 for a range outside the
    file). *)
Inductive Transfer : Type :=
| Whole
| Partial (part : string)
| NotModified
| PreconditionFailed
| RangeNotSatisfiable.

(** What becomes of a compressed body: the bytes it inflates to, a
    failure of the stream with its message once [read] bytes have come
    out, or an encoding the installed body-parser does not know. *)
Inductive Inflation : Type :=
| Inflated (bytes : string)
| Corrupt (read : Z) (msg : string)
| Unsupported.

(** Everything the pipeline reads but does not define:
    - [NODE_ENV]: [process.env.NODE_ENV], absent when unset;
    - [dirname]: [__dirname], the directory of server.js: absolute,
      normalised, without a trailing slash;
    - [fs]: the file system, by absolute path;
    - [group]: the routers behind the eight mounted prefixes;
    - [JSON_parse]: body-parser's strict [JSON.parse] on a text that is
      not empty, giving the value or the message of the SyntaxError;
    - [form_parse]: the query-string parser behind [urlencoded] with
      [extended: true], on a text that is not empty, giving the value or
      the error it throws (400, or 413 for too many parameters);
    - [helmet_headers]: the headers the installed helmet sets when
      [contentSecurityPolicy] is off;
    - [rate_headers]: the informational headers the installed limiter
      derives from a client's count and the end of its window;
    - [parse_media_type]: the media type that type-is reads from a
      Content-Type value, in lower case and without parameters; none
      when the value is malformed;
    - [parse_charset]: the charset parameter that body-parser reads from
      a Content-Type value, if it finds one;
    - [inflate]: zlib on a body, by the lower-cased name of its
      Content-Encoding (never asked about [identity]);
    - [iconv]: the decoder iconv-lite has for a character set, from
      bytes to text, if it has one;
    - [negotiate]: what send decides for a request that carries a
      validator or a range (If-Match, If-Unmodified-Since,
      If-None-Match, If-Modified-Since, Range with If-Range) from the
      size and the modification time of the file at a path;
    - [if_none_match]: whether the If-None-Match of a request (read with
      its other cache headers, as the installed fresh reads them)
      matches the ETag Express computes for a body;
    - [validations]: what the self-checks of the installed limiter print
      for a request, given the store as the request finds it (nothing in
      versions without such checks). *)
Record World : Type := mkWorld {
  NODE_ENV : option string;
  dirname : string;
  fs : string -> FsEntry;
  group : ApiGroup -> Request -> GroupOutcome;
  JSON_parse : string -> Json + string;
  form_parse : string -> Json + Error;
  helmet_headers : list Header;
  rate_headers : Window -> list Header;
  parse_media_type : string -> option string;
  parse_charset : string -> option string;
  inflate : string -> string -> Inflation;
  iconv : string -> option (string -> string);
  negotiate : Request -> string -> Transfer;
  if_none_match : Request -> Body -> bool;
  validations : gmap string Window -> Request -> list string
}.
(** ** [new Date().toISOString()]

    The time value is the number of milliseconds since the epoch, UTC.
    The calendar date comes from the day number by the usual era / year of
    era / day of year decomposition of the proleptic Gregorian calendar;
    the text is [YYYY-MM-DDTHH:mm:ss.sssZ], with a sign and six digits for
    years outside 0..9999. *)

Module JSDate.

Definition msPerDay : Z := 86400000.

Definition Day (t : Z) : Z := t / msPerDay.
Definition TimeWithinDay (t : Z) : Z := t mod msPerDay.

Definition HourFromTime (t : Z) : Z := TimeWithinDay t / 3600000.
Definition MinFromTime (t : Z) : Z := (TimeWithinDay t / 60000) mod 60.
Definition SecFromTime (t : Z) : Z := (TimeWithinDay t / 1000) mod 60.
Definition msFromTime (t : Z) : Z := TimeWithinDay t mod 1000.

(** The calendar works in eras of 400 years (146097 days) and in years
    that begin on the first of March, so that the leap day is the last
    day of its year. *)
Definition year_of_era (doe : Z) : Z :=
  (doe - doe / 1460 + doe / 36524 - doe / 146096) / 365.
Definition days_before_year (yoe : Z) : Z := 365 * yoe + yoe / 4 - yoe / 100.
Definition month_index (doy : Z) : Z := (5 * doy + 2) / 153.
Definition days_before_month (mp : Z) : Z := (153 * mp + 2) / 5.

(** Year, month (1..12) and day of month (1..31) of a day number. *)
Definition civil (day : Z) : Z * Z * Z :=
  let z := day + 719468 in
  let era := z / 146097 in
  let doe := z mod 146097 in
  let yoe := year_of_era doe in
  let doy := doe - days_before_year yoe in
  let mp := month_index doy in
  let d := doy - days_before_month mp + 1 in
  let m := if mp <? 10 then mp + 3 else mp - 9 in
  let y := yoe + era * 400 in
  (if m <=? 2 then y + 1 else y, m, d).

Definition digit (n : Z) : ascii := ascii_of_N (48 + Z.to_N (n mod 10)).

(** [pad k n]: the last [k] decimal digits of [n], most significant
    first. *)
Fixpoint pad (k : nat) (n : Z) : string :=
  match k with
  | O => EmptyString
  | S k' => pad k' (n / 10) +:+ String (digit n) EmptyString
  end.

Definition year_text (y : Z) : string :=
  if (0 <=? y) && (y <=? 9999) then pad 4 y
  else if y <? 0 then "-" +:+ pad 6 (- y)
  else "+" +:+ pad 6 y.

Definition toISOString (t : Z) : string :=
  let '(y, m, d) := civil (Day t) in
  year_text y +:+ "-" +:+ pad 2 m +:+ "-" +:+ pad 2 d +:+ "T"
    +:+ pad 2 (HourFromTime t) +:+ ":" +:+ pad 2 (MinFromTime t) +:+ ":"
    +:+ pad 2 (SecFromTime t) +:+ "." +:+ pad 3 (msFromTime t) +:+ "Z".

End JSDate.

(** ** Server state and the per-request context *)

(** What outlives a request: the limiter's store, the access log morgan
    writes and what [console.error] printed. *)
Record Server : Type := mkServer {
  store : gmap string Window;
  access_log : list (string * string * Z);
  console : list string
}.

Definition fresh_server : Server := mkServer ∅ [] [].

(** What the layers of one request share: the store, the console, the
    headers already set on [res], [req.body] once a decoder has filled
    it, and whether morgan is watching the response. *)
Record Ctx : Type := mkCtx {
  hits : gmap string Window;
  printed : list string;
  sent : list Header;
  req_body : option Json;
  watched : bool
}.

Definition set_headers (hs : list Header) (c : Ctx) : Ctx :=
  mkCtx (hits c) (printed c) (sent c ++ hs) (req_body c) (watched c).

Definition set_hits (m : gmap string Window) (c : Ctx) : Ctx :=
  mkCtx m (printed c) (sent c) (req_body c) (watched c).

Definition set_body (j : Json) (c : Ctx) : Ctx :=
  mkCtx (hits c) (printed c) (sent c) (Some j) (watched c).

Definition set_watched (c : Ctx) : Ctx :=
  mkCtx (hits c) (printed c) (sent c) (req_body c) true.

Definition print (line : string) (c : Ctx) : Ctx :=
  mkCtx (hits c) (printed c ++ [line]) (sent c) (req_body c) (watched c).

Definition print_all (lines : list string) (c : Ctx) : Ctx :=
  mkCtx (hits c) (printed c ++ lines) (sent c) (req_body c) (watched c).

(** How a layer leaves: it ends the response, calls [next()], or calls
    [next(err)] (a throw inside a handler is the same to Express). *)
Inductive Outcome : Type :=
| Ends (r : Response)
| Next
| NextErr (e : Error).

Definition is_get_or_head (req : Request) : bool :=
  String.eqb (method req) "GET" || String.eqb (method req) "HEAD".

(** ** Response helpers of Express *)

Definition json_type : Header := ("Content-Type", "application/json; charset=utf-8").

(** [req.fresh], as [res.send] asks it: only for GET and HEAD, only for
    a status of the 2xx range or 304, and, no layer of this file setting
    Last-Modified, only on a request with If-None-Match. *)
Definition cachable (code : Z) : bool :=
  ((200 <=? code) && (code <? 300)) || (code =? 304).

Definition fresh (W : World) (req : Request) (r : Response) : bool :=
  cachable (status r)
  && is_get_or_head req
  && match header req "if-none-match" with
     | Some _ => if_none_match W req (body r)
     | None => false
     end.

(** [res.send(body)]: a response the client holds already goes out as
    304 without content. *)
Definition res_send (W : World) (req : Request) (r : Response) : Response :=
  if fresh W req r then mkResponse 304 [] NoContent else r.

(** [res.status(code).json(obj)] *)
Definition res_json (W : World) (req : Request) (code : Z) (obj : Json) : Response :=
  res_send W req (mkResponse code [json_type] (JsonBody obj)).

(** [res.redirect(url)]: status 302, a Location header and a short notice
    naming the target (plain text or HTML, as the client prefers); no
    [res.send] is involved. *)
Definition res_redirect (url : string) : Response :=
  mkResponse 302 [("Location", url)] (RedirectNotice url).

(** ** send: a file on its way to the client *)

Module send.

(** The request headers that make a transfer conditional or partial. *)
Definition validators : list string :=
  ["if-match"; "if-unmodified-since"; "if-none-match"; "if-modified-since"; "range"].

Definition unconditional (req : Request) : bool :=
  forallb (fun name => match header req name with
                       | Some _ => false
                       | None => true
                       end) validators.

Definition transfer (W : World) (req : Request) (file : string) : Transfer :=
  if unconditional req then Whole else negotiate W req file.

Definition precondition_failed : Error := mkError "Precondition Failed" (Some 412).
Definition range_not_satisfiable : Error := mkError "Range Not Satisfiable" (Some 416).

(** [SendStream.prototype.send], for a file that exists: the file with
    status 200, a part of it with 206, 304 without content, or an error
    event (which both callers below hand to [next(err)]). *)
Definition send (W : World) (req : Request) (file content : string) : Outcome :=
  match transfer W req file with
  | Whole => Ends (mkResponse 200 [] (Document file content))
  | Partial part => Ends (mkResponse 206 [] (Document file part))
  | NotModified => Ends (mkResponse 304 [] NoContent)
  | PreconditionFailed => NextErr precondition_failed
  | RangeNotSatisfiable => NextErr range_not_satisfiable
  end.

(** A path whose normal form still climbs: some piece between slashes
    or backslashes is a double dot. *)
Definition malicious (p : string) : bool :=
  existsb (String.eqb "..")
          (Text.split_by (fun c => Ascii.eqb c "/" || Ascii.eqb c "\") p).

Definition is_dotfile (part : string) : bool :=
  match part with
  | String c (String _ _) => Ascii.eqb c "."
  | _ => false
  end.

Definition containsDotFile (parts : list string) : bool := existsb is_dotfile parts.

Definition starts_with_dot (part : string) : bool :=
  match part with
  | String c _ => Ascii.eqb c "."
  | EmptyString => false
  end.

(** With no [dotfiles] option send ignores a path only when its last
    part is a dotfile. *)
Definition ignored (parts : list string) : bool :=
  containsDotFile parts
  && match last parts with
     | Some part => starts_with_dot part
     | None => false
     end.

(** [SendStream.prototype.pipe] up to the file it goes for: the request
    path is decoded and normalised below the root; a path that does not
    decode, holds a NUL byte (400), climbs out of the root (403) or ends
    in a dotfile (404) names nothing. *)
Definition resolve (p : string) : option string :=
  match URI.decodeURIComponent p with
  | None => None
  | Some decoded =>
      if Text.contains "000" decoded then None
      else
        let rel := match decoded with
                   | EmptyString => EmptyString
                   | _ => Posix.normalize ("./" +:+ decoded)
                   end in
        if malicious rel then None
        else if ignored (Text.split "/" rel) then None
        else Some rel
  end.

(** [join(root, rel)] for a normalised [rel] that does not climb. *)
Definition below (root rel : string) : string :=
  if String.eqb rel EmptyString || String.eqb rel "." then root
  else if String.eqb rel "./" then root +:+ "/"
  else root +:+ String "/" rel.

(** [join(dir, 'index.html')] for the [index] option, by the path of the
    directory below the root. *)
Definition index_below (root rel : string) : string :=
  if String.eqb rel EmptyString || String.eqb rel "." || String.eqb rel "./"
  then root +:+ "/index.html"
  else if Text.ends_with_slash rel then root +:+ String "/" (rel +:+ "index.html")
  else root +:+ String "/" (rel +:+ "/index.html").

(** The file a request path stands for: the index of a directory when
    the path, as sent, ends with a slash. *)
Definition lookup (root p : string) : option string :=
  match resolve p with
  | None => None
  | Some rel =>
      Some (if Text.ends_with_slash p then index_below root rel else below root rel)
  end.

End send.

(** [res.sendFile(file)] for an absolute path without dots: the file as
    send transfers it; a directory passes the request on; a missing file
    is an error with status 404. *)
Definition res_sendFile (W : World) (req : Request) (file : string) : Outcome :=
  match fs W file with
  | File content => send.send W req file content
  | Directory => Next
  | Absent =>
      NextErr (mkError ("ENOENT: no such file or directory, stat '" +:+ file +:+ "'")
                       (Some 404))
  end.

(** ** The middleware of lines 30-55 *)

(** [helmet({contentSecurityPolicy: false})]: sets its headers, passes
    every request on. *)
Definition helmet (W : World) (req : Request) (c : Ctx) : Ctx * Outcome :=
  (set_headers (helmet_headers W) c, Next).

(** [rateLimit({windowMs, max})] of express-rate-limit with the options
    of lines 35-38 and, for the rest, the package's defaults: the memory
    store, keyed by [req.ip], status 429.  A client's window opens with
    its first request and lasts [windowMs]; a request that arrives once
    the window has ended opens a new one.  The request is counted first
    and turned away when the count exceeds [max].  Whatever the
    package's self-checks have to say about the request goes to the
    console. *)
Module limiter.

Definition windowMs : Z := 15 * 60 * 1000.
Definition max : Z := 100.

(** [store.increment(key)]: the client's window after this request. *)
Definition increment (now : Z) (key : string) (m : gmap string Window)
  : gmap string Window * Window :=
  let w := match m !! key with
           | Some w =>
               if resetTime w <=? now
               then mkWindow 1 (now + windowMs)
               else mkWindow (totalHits w + 1) (resetTime w)
           | None => mkWindow 1 (now + windowMs)
           end in
  (<[key := w]> m, w).

(** [res.status(429).send(message)]; 429 is no status [res.send] would
    turn into 304. *)
Definition too_many : Response :=
  mkResponse 429 [] (TextBody "Too many requests, please try again later.").

Definition handle (W : World) (now : Z) (req : Request) (c : Ctx) : Ctx * Outcome :=
  let '(m, w) := increment now (ip req) (hits c) in
  (set_headers (rate_headers W w)
     (set_hits m (print_all (validations W (hits c) req) c)),
   if max <? totalHits w then Ends too_many else Next).

End limiter.

(** [morgan('combined')]: attaches itself to the response and passes the
    request on; the line is written when the response is finished. *)
Definition morgan (req : Request) (c : Ctx) : Ctx * Outcome :=
  (set_watched c, Next).

(** [cors({origin: [...], credentials: true})] of the cors package with
    the options of lines 45-48 and, for the rest, the package's defaults
    ([methods], [preflightContinue: false], [optionsSuccessStatus: 204]).
    The functions are the package's own, specialised to these options: an
    origin is allowed when it is [===] to an entry of the list. *)
Module cors.

Definition origin : list string :=
  ["http://localhost:3000"; "http://127.0.0.1:3000";
   "http://localhost:8000"; "http://127.0.0.1:8000"].

Definition credentials : bool := true.

Definition isOriginAllowed (requestOrigin : option string) : bool :=
  match requestOrigin with
  | Some o => existsb (String.eqb o) origin
  | None => false
  end.

(** The request's origin is reflected when it is allowed; [Vary] is set
    either way. *)
Definition configureOrigin (req : Request) : list Header :=
  (match header req "origin" with
   | Some o => if isOriginAllowed (Some o)
               then [("Access-Control-Allow-Origin", o)] else []
   | None => []
   end) ++ [("Vary", "Origin")].

Definition configureCredentials : list Header :=
  if credentials then [("Access-Control-Allow-Credentials", "true")] else [].

Definition configureMethods : list Header :=
  [("Access-Control-Allow-Methods", "GET,HEAD,PUT,PATCH,POST,DELETE")].

Definition configureAllowedHeaders (req : Request) : list Header :=
  ("Vary", "Access-Control-Request-Headers") ::
  match header req "access-control-request-headers" with
  | Some h => if String.eqb h EmptyString then [] else [("Access-Control-Allow-Headers", h)]
  | None => []
  end.

Definition optionsSuccessStatus : Z := 204.

(** An OPTIONS request is answered here as a preflight; any other
    request gets its headers and goes on. *)
Definition handle (req : Request) (c : Ctx) : Ctx * Outcome :=
  if String.eqb (method req) "OPTIONS"
  then (set_headers (configureOrigin req ++ configureCredentials
                       ++ configureMethods ++ configureAllowedHeaders req) c,
        Ends (mkResponse optionsSuccessStatus [("Content-Length", "0")] NoContent))
  else (set_headers (configureOrigin req ++ configureCredentials) c, Next).

End cors.

(** [bodyParser.json] and [bodyParser.urlencoded] of body-parser, both
    with [limit: '10mb'] (lines 51-52).  A decoder takes a request that
    has a body of its media type.  It then refuses a character set it
    does not take (415), an unknown Content-Encoding (415), a body whose
    announced length is over the limit (413), a character set without a
    decoder (415), a body that turns out to be over the limit while it is
    read (413), a compressed body that does not inflate (400) and a text
    that does not parse (400, or what the parser says), in the order in
    which the package meets them. *)
Module bodyParser.

Definition limit : Z := 10 * 1024 * 1024.

Inductive Decoder : Type :=
| JsonBodies
| FormBodies.

Definition media (d : Decoder) : string :=
  match d with
  | JsonBodies => "application/json"
  | FormBodies => "application/x-www-form-urlencoded"
  end.

(** [typeis(req, [t])] on a request that has a body. *)
Definition type_is (W : World) (req : Request) (t : string) : bool :=
  match header req "content-type" with
  | Some v =>
      match parse_media_type W v with
      | Some m => String.eqb m t
      | None => false
      end
  | None => false
  end.

(** [getCharset(req) || 'utf-8'] *)
Definition charset (W : World) (req : Request) : string :=
  match header req "content-type" with
  | Some v =>
      match parse_charset W v with
      | Some cs => if String.eqb cs EmptyString then "utf-8" else Text.lower cs
      | None => "utf-8"
      end
  | None => "utf-8"
  end.

(** JSON may come in any character set whose name begins with [utf-];
    forms in [utf-8] only. *)
Definition accepts (d : Decoder) (cs : string) : bool :=
  match d with
  | JsonBodies => Text.starts_with "utf-" cs
  | FormBodies => String.eqb cs "utf-8"
  end.

(** [(req.headers['content-encoding'] || 'identity').toLowerCase()] *)
Definition encoding (req : Request) : string :=
  match header req "content-encoding" with
  | Some v => if String.eqb v EmptyString then "identity" else Text.lower v
  | None => "identity"
  end.

Definition unsupported_charset (cs : string) : Error :=
  mkError ("unsupported charset " +:+ Text.quoted (Text.upper cs)) (Some 415).

Definition unsupported_encoding (enc : string) : Error :=
  mkError ("unsupported content encoding " +:+ Text.quoted enc) (Some 415).

Definition too_large : Error := mkError "request entity too large" (Some 413).

Definition over (bytes : string) : bool := limit <? Z.of_nat (String.length bytes).

(** The request says how long its body is (it is not chunked). *)
Definition announced (req : Request) : bool :=
  match header req "content-length" with
  | Some _ => true
  | None => false
  end.

(** The text a decoder gets out of a request before it parses: nothing
    when the request has no body or another type, otherwise the text or
    the error that stopped the reading. *)
Definition received (W : World) (d : Decoder) (req : Request) : option (string + Error) :=
  match raw_body req with
  | None => None
  | Some raw =>
      if negb (type_is W req (media d)) then None
      else
        let cs := charset W req in
        if negb (accepts d cs) then Some (inr (unsupported_charset cs))
        else if String.eqb (encoding req) "identity" then
          if announced req && over raw then Some (inr too_large)
          else match iconv W cs with
               | None => Some (inr (unsupported_charset cs))
               | Some decode =>
                   if over raw then Some (inr too_large)
                   else Some (inl (decode raw))
               end
        else
          match inflate W (encoding req) raw with
          | Unsupported => Some (inr (unsupported_encoding (encoding req)))
          | Inflated bytes =>
              match iconv W cs with
              | None => Some (inr (unsupported_charset cs))
              | Some decode =>
                  if over bytes then Some (inr too_large)
                  else Some (inl (decode bytes))
              end
          | Corrupt read msg =>
              match iconv W cs with
              | None => Some (inr (unsupported_charset cs))
              | Some _ =>
                  if limit <? read then Some (inr too_large)
                  else Some (inr (mkError msg (Some 400)))
              end
          end
  end.

(** The parse function of a decoder: an empty text is the empty
    object. *)
Definition parse (W : World) (d : Decoder) (text : string) : Json + Error :=
  if String.eqb text EmptyString then inl (JObject [])
  else match d with
       | JsonBodies =>
           match JSON_parse W text with
           | inl j => inl j
           | inr msg => inr (mkError msg (Some 400))
           end
       | FormBodies => form_parse W text
       end.

(** What a decoder makes of a request: nothing, the parsed value, or
    the error. *)
Definition read (W : World) (d : Decoder) (req : Request) : option (Json + Error) :=
  match received W d req with
  | None => None
  | Some (inl text) => Some (parse W d text)
  | Some (inr e) => Some (inr e)
  end.

(** A request that an earlier decoder has filled in is left alone. *)
Definition decode (W : World) (d : Decoder) (req : Request) (c : Ctx) : Ctx * Outcome :=
  match req_body c with
  | Some _ => (c, Next)
  | None =>
      match read W d req with
      | None => (c, Next)
      | Some (inl j) => (set_body j c, Next)
      | Some (inr e) => (c, NextErr e)
      end
  end.

Definition json (W : World) : Request -> Ctx -> Ctx * Outcome := decode W JsonBodies.

Definition urlencoded (W : World) : Request -> Ctx -> Ctx * Outcome := decode W FormBodies.

End bodyParser.

(** [express.static(path.join(__dirname))] with the defaults of
    serve-static.  Only GET and HEAD are looked up.  What send does not
    resolve, does not find, or finds to be a directory named with its
    slash but without an index.html, passes on ([fallthrough]); a file is
    sent as send transfers it; a directory named without its trailing
    slash redirects to the name with it.  Of the redirect's headers the
    Location is kept: the path with the slash added (the query string of
    the request, which [Request] does not hold, would follow it). *)
Definition redirect_to_directory (req : Request) : Response :=
  mkResponse 301 [("Location", Text.collapse_leading_slashes (path req +:+ "/"))]
             (RedirectNotice (Text.collapse_leading_slashes (path req +:+ "/"))).

Definition serveStatic (W : World) (req : Request) : Outcome :=
  if negb (is_get_or_head req) then Next
  else match send.lookup (dirname W) (path req) with
       | None => Next
       | Some file =>
           match fs W file with
           | File content => send.send W req file content
           | Directory =>
               if Text.ends_with_slash (path req) then Next
               else Ends (redirect_to_directory req)
           | Absent => Next
           end
       end.

Definition express_static (W : World) (req : Request) (c : Ctx) : Ctx * Outcome :=
  (c, serveStatic W req).

(** ** The routes of lines 57-114 and the fallbacks of lines 116-131 *)

Definition mount_path (g : ApiGroup) : string :=
  match g with
  | authRoutes => "/api/auth"
  | orderRoutes => "/api/orders"
  | productRoutes => "/api/products"
  | userRoutes => "/api/users"
  | adminRoutes => "/api/admin"
  | apkRoutes => "/api/apk"
  | creditCardRoutes => "/api/creditcards"
  | syncRoutes => "/api/sync"
  end.

(** [app.use(prefix, router)] *)
Definition api (W : World) (g : ApiGroup) (req : Request) (c : Ctx) : Ctx * Outcome :=
  (c, match group W g req with
      | Answers r => Ends r
      | PassesOn => Next
      | Fails e => NextErr e
      end).

(** [(req, res) => res.sendFile(path.join(__dirname, ...parts))] *)
Definition page (W : World) (parts : list string) (req : Request) (c : Ctx)
  : Ctx * Outcome :=
  (c, res_sendFile W req (Posix.join (dirname W :: parts))).

(** [(req, res) => res.redirect('/launcher')] *)
Definition start (req : Request) (c : Ctx) : Ctx * Outcome :=
  (c, Ends (res_redirect "/launcher")).

(** The health check; [now] is what [new Date()] reads. *)
Definition health (W : World) (now : Z) (req : Request) (c : Ctx) : Ctx * Outcome :=
  (c, Ends (res_json W req 200
              (JObject [("status", JString "OK");
                        ("message", JString "ShoppingDmart Backend is running");
                        ("timestamp", JString (JSDate.toISOString now));
                        ("version", JString "1.0.0")]))).

(** [process.env.NODE_ENV === 'development'] *)
Definition is_development (W : World) : bool :=
  match NODE_ENV W with
  | Some v => String.eqb v "development"
  | None => false
  end.

(** [(err, req, res, next) => ...]: prints the error and answers 500; the
    message is the error's own only when NODE_ENV is 'development'. *)
Definition error_handler (W : World) (err : Error) (req : Request) (c : Ctx)
  : Ctx * Outcome :=
  (print (err_message err) c,
   Ends (res_json W req 500
           (JObject [("error", JString "Something went wrong!");
                     ("message",
                      JString (if is_development W then err_message err
                               else "Internal server error"))]))).

(** [(req, res) => res.status(404).json(...)] *)
Definition not_found (W : World) (req : Request) (c : Ctx) : Ctx * Outcome :=
  (c, Ends (res_json W req 404
              (JObject [("error", JString "Route not found");
                        ("message",
                         JString ("Cannot " +:+ method req +:+ " " +:+ path req))]))).
(** ** The application: a stack of layers *)

Inductive Stage : Type :=
| SecurityHeaders
| RateLimiter
| AccessLogger
| CorsPolicy
| JsonDecoder
| FormDecoder
| StaticAssets
| Api (g : ApiGroup)
| Page (pattern : string)
| Health
| ErrorHandler
| NotFound.

(** A handler of three arguments is skipped while an error is pending; a
    handler of four arguments is skipped while none is. *)
Inductive Handler : Type :=
| Middleware (h : Request -> Ctx -> Ctx * Outcome)
| ErrorMiddleware (h : Error -> Request -> Ctx -> Ctx * Outcome).

Record Layer : Type := mkLayer {
  stage : Stage;
  matches : Request -> bool;
  handler : Handler
}.

(** How Express compiles a path with its default options (not case
    sensitive, not strict): a route matches the whole path, give or take
    one trailing slash; a mount point matches a prefix that ends at a
    segment boundary. *)
Definition route_matches (pattern p : string) : bool :=
  String.eqb (Text.chop_slash (Text.lower p)) (Text.chop_slash (Text.lower pattern)).

Definition mount_matches (prefix p : string) : bool :=
  Text.starts_at_boundary (Text.chop_slash (Text.lower prefix)) (Text.lower p).

(** [app.use(fn)] *)
Definition use (s : Stage) (h : Request -> Ctx -> Ctx * Outcome) : Layer :=
  mkLayer s (fun _ => true) (Middleware h).

(** [app.use(prefix, router)] *)
Definition use_at (W : World) (g : ApiGroup) : Layer :=
  mkLayer (Api g) (fun req => mount_matches (mount_path g) (path req))
          (Middleware (api W g)).

(** [app.get(pattern, fn)]: a route with a GET handler also answers HEAD. *)
Definition get (s : Stage) (pattern : string)
           (h : Request -> Ctx -> Ctx * Outcome) : Layer :=
  mkLayer s (fun req => route_matches pattern (path req) && is_get_or_head req)
          (Middleware h).

Definition get_page (W : World) (pattern : string) (parts : list string) : Layer :=
  get (Page pattern) pattern (page W parts).

(** The stack, in the order server.js registers it. *)
Definition app (W : World) (now : Z) : list Layer :=
  [ use SecurityHeaders (helmet W);
    use RateLimiter (limiter.handle W now);
    use AccessLogger morgan;
    use CorsPolicy cors.handle;
    use JsonDecoder (bodyParser.json W);
    use FormDecoder (bodyParser.urlencoded W);
    use StaticAssets (express_static W);
    use_at W authRoutes;
    use_at W orderRoutes;
    use_at W productRoutes;
    use_at W userRoutes;
    use_at W adminRoutes;
    use_at W apkRoutes;
    use_at W creditCardRoutes;
    use_at W syncRoutes;
    get_page W "/" ["index.html"];
    get (Page "/start") "/start" start;
    get_page W "/launcher" ["launcher.html"];
    get_page W "/admin" ["admin"; "login.html"];
    get_page W "/admin/" ["admin"; "login.html"];
    get_page W "/admin/login.html" ["admin"; "login.html"];
    get_page W "/admin/dashboard" ["admin"; "index.html"];
    get_page W "/order-confirmation" ["order-confirmation.html"];
    get Health "/api/health" (health W now);
    mkLayer ErrorHandler (fun _ => true) (ErrorMiddleware (error_handler W));
    use NotFound (not_found W) ].

(** ** The dispatcher *)

(** What Express does when the stack is exhausted: 404 without a pending
    error, otherwise the error's own status when it is an error status,
    500 when not. *)
Definition finalhandler (err : option Error) (req : Request) : Response :=
  match err with
  | None => mkResponse 404 [] (TextBody ("Cannot " +:+ method req +:+ " " +:+ path req))
  | Some e =>
      mkResponse (match err_status e with
                  | Some s => if (400 <=? s) && (s <? 600) then s else 500
                  | None => 500
                  end) [] (TextBody (err_message e))
  end.

(** Where a walk over (part of) the stack stops: at a layer that ended
    the response, or past the last layer with the error then pending. *)
Inductive Stop : Type :=
| Done (r : Response)
| Fell (err : option Error).

(** [walk stack err req c]: the context after the walk, the stages that
    were invoked, in order, and where it stopped. *)
Fixpoint walk (stack : list Layer) (err : option Error) (req : Request) (c : Ctx)
  : Ctx * list Stage * Stop :=
  match stack with
  | [] => (c, [], Fell err)
  | l :: rest =>
      let invoke (r : Ctx * Outcome) :=
        match snd r with
        | Ends res => (fst r, [stage l], Done res)
        | Next =>
            let '(c', tr, res) := walk rest None req (fst r) in (c', stage l :: tr, res)
        | NextErr e =>
            let '(c', tr, res) := walk rest (Some e) req (fst r) in (c', stage l :: tr, res)
        end in
      if matches l req then
        match handler l, err with
        | Middleware h, None => invoke (h req c)
        | ErrorMiddleware h, Some e => invoke (h e req c)
        | _, _ => walk rest err req c
        end
      else walk rest err req c
  end.

Definition finish (req : Request) (s : Stop) : Response :=
  match s with
  | Done r => r
  | Fell err => finalhandler err req
  end.

(** One request against the server: the headers set along the way go out
    with the response, a HEAD request gets no body, and morgan, when it
    was reached, appends its line. *)
Definition on_wire (req : Request) (c : Ctx) (r : Response) : Response :=
  mkResponse (status r) (sent c ++ res_headers r)
             (if String.eqb (method req) "HEAD" then NoContent else body r).

Definition blank (srv : Server) : Ctx := mkCtx (store srv) (console srv) [] None false.

Definition handle (W : World) (now : Z) (srv : Server) (req : Request)
  : Server * Response * list Stage :=
  let '(c, tr, s) := walk (app W now) None req (blank srv) in
  (mkServer (hits c)
            (if watched c
             then access_log srv ++ [(method req, path req, status (finish req s))]
             else access_log srv)
            (printed c),
   on_wire req c (finish req s), tr).

Definition respond (W : World) (now : Z) (srv : Server) (req : Request) : Response :=
  snd (fst (handle W now srv req)).

Definition trace (W : World) (now : Z) (srv : Server) (req : Request) : list Stage :=
  snd (handle W now srv req).

Definition after (W : World) (now : Z) (srv : Server) (req : Request) : Server :=
  fst (fst (handle W now srv req)).

(** A run of the server over a sequence of arrivals, each with the clock
    reading at which it is handled. *)
Fixpoint serve (W : World) (srv : Server) (arrivals : list (Z * Request))
  : list (Response * list Stage) :=
  match arrivals with
  | [] => []
  | (now, req) :: rest =>
      (respond W now srv req, trace W now srv req) :: serve W (after W now srv req) rest
  end.

(** The server after a sequence of arrivals. *)
Fixpoint run (W : World) (srv : Server) (arrivals : list (Z * Request)) : Server :=
  match arrivals with
  | [] => srv
  | (now, req) :: rest => run W (after W now srv req) rest
  end.

(** ** A sample deployment *)

Module Sample.

Definition files (p : string) : FsEntry :=
  if String.eqb p "/srv/backend" then Directory
  else if String.eqb p "/srv/backend/server.js" then File "const express = ..."
  else if String.eqb p "/srv/backend/index.html" then File "<h1>ShoppingDmart</h1>"
  else if String.eqb p "/srv/backend/launcher.html" then File "<h1>Launcher</h1>"
  else if String.eqb p "/srv/backend/order-confirmation.html" then File "<h1>Thanks</h1>"
  else if String.eqb p "/srv/backend/admin" then Directory
  else if String.eqb p "/srv/backend/admin/login.html" then File "<h1>Login</h1>"
  else if String.eqb p "/srv/backend/admin/index.html" then File "<h1>Dashboard</h1>"
  else Absent.

(** Stand-ins for the parsers: they know two bodies. *)
Definition parse (s : string) : Json + string :=
  if String.eqb s "{}" then inl (JObject [])
  else if String.eqb s "[1]" then inl (JArray [JNumber 1])
  else inr "Unexpected token in JSON".

Definition form (s : string) : Json + Error :=
  match parse s with
  | inl j => inl j
  | inr msg => inr (mkError msg (Some 400))
  end.

(** Stand-ins for the readers of a Content-Type value: the media type is
    what stands before the first semicolon, the charset what follows
    [charset=] right after it. *)
Definition media_type (v : string) : option string :=
  Some (Text.lower (Text.trim (Text.before ";" v))).

Definition charset_parameter (v : string) : option string :=
  match Text.after ";" v with
  | Some rest =>
      if Text.starts_with "charset=" (Text.trim rest)
      then Text.after "=" (Text.trim rest)
      else None
  | None => None
  end.

(** A platform without zlib, with UTF-8 only. *)
Definition no_zlib (enc raw : string) : Inflation := Unsupported.

Definition utf8_only (cs : string) : option (string -> string) :=
  if String.eqb cs "utf-8" then Some (fun bytes => bytes) else None.

(** Stand-ins for the validators: a star matches everything, any If-Match
    fails, and the one range known is the first four bytes. *)
Definition validators (req : Request) (file : string) : Transfer :=
  match header req "if-match", header req "if-none-match", header req "range" with
  | Some _, _, _ => PreconditionFailed
  | None, Some v, _ => if String.eqb v "*" then NotModified else Whole
  | None, None, Some v =>
      if String.eqb v "bytes=0-3" then Partial "<h1>" else RangeNotSatisfiable
  | None, None, None => Whole
  end.

Definition star (req : Request) (b : Body) : bool :=
  match header req "if-none-match" with
  | Some v => String.eqb v "*"
  | None => false
  end.

Definition quiet (m : gmap string Window) (req : Request) : list string := [].

Definition routers (g : ApiGroup) (req : Request) : GroupOutcome :=
  match g with
  | authRoutes => Fails (mkError "database is locked" None)
  | productRoutes => Answers (mkResponse 200 [] (JsonBody (JArray [])))
  | _ => PassesOn
  end.

Definition world (env : option string) : World :=
  mkWorld env "/srv/backend" files routers parse form
          [("X-Content-Type-Options", "nosniff")]
          (fun w => [("X-RateLimit-Limit", "100")])
          media_type charset_parameter no_zlib utf8_only validators star quiet.

Definition plain (m p : string) : Request := mkRequest m p [] None "203.0.113.7".

(** The same request with one header. *)
Definition carrying (name value m p : string) : Request :=
  mkRequest m p [(name, value)] None "203.0.113.7".

(** A server on which the sample client has used up its 100 requests
    in a window that ends at time 900000: the state [run] reaches from
    [fresh_server] after 100 requests of that client at time 0. *)
Definition exhausted : Server :=
  mkServer {["203.0.113.7" := mkWindow 100 900000]} [] [].

End Sample.

(** ** The vocabulary of the properties *)

(** The stack in two parts: the six layers of middleware in front, and
    the static files with everything behind them. *)
Definition middleware (W : World) (now : Z) : list Layer := take 6 (app W now).
Definition routing (W : World) (now : Z) : list Layer := drop 6 (app W now).

Definition pipeline_stages : list Stage :=
  [SecurityHeaders; RateLimiter; AccessLogger; CorsPolicy; JsonDecoder; FormDecoder].

(** The limiter lets the request through. *)
Definition admitted (now : Z) (srv : Server) (req : Request) : bool :=
  totalHits (snd (limiter.increment now (ip req) (store srv))) <=? limiter.max.

Definition preflight (req : Request) : bool := String.eqb (method req) "OPTIONS".

(** The error with which the body decoders refuse the request, if they do. *)
Definition refused (W : World) (req : Request) : option Error :=
  match bodyParser.read W bodyParser.JsonBodies req with
  | Some (inr e) => Some e
  | Some (inl _) => None
  | None =>
      match bodyParser.read W bodyParser.FormBodies req with
      | Some (inr e) => Some e
      | _ => None
      end
  end.

(** The value the body decoders leave in [req.body], if they parse one. *)
Definition decoded (W : World) (req : Request) : option Json :=
  match bodyParser.read W bodyParser.JsonBodies req with
  | Some (inl j) => Some j
  | Some (inr _) => None
  | None =>
      match bodyParser.read W bodyParser.FormBodies req with
      | Some (inl j) => Some j
      | _ => None
      end
  end.

(** The headers set by helmet and the limiter. *)
Definition stamped (W : World) (now : Z) (srv : Server) (req : Request) : list Header :=
  helmet_headers W ++ rate_headers W (snd (limiter.increment now (ip req) (store srv))).

(** The console once the limiter has had its say. *)
Definition checked (W : World) (srv : Server) (req : Request) : list string :=
  console srv ++ validations W (store srv) req.

(** The context in which the limiter leaves a request, the one in which
    the CORS stage leaves it, and the one in which the routes receive it. *)
Definition counted (W : World) (now : Z) (srv : Server) (req : Request) : Ctx :=
  mkCtx (fst (limiter.increment now (ip req) (store srv))) (checked W srv req)
        (stamped W now srv req) None false.

Definition labelled (W : World) (now : Z) (srv : Server) (req : Request) : Ctx :=
  mkCtx (fst (limiter.increment now (ip req) (store srv))) (checked W srv req)
        (stamped W now srv req ++ cors.configureOrigin req ++ cors.configureCredentials)
        None true.

Definition cleared (W : World) (now : Z) (srv : Server) (req : Request) : Ctx :=
  mkCtx (fst (limiter.increment now (ip req) (store srv))) (checked W srv req)
        (stamped W now srv req ++ cors.configureOrigin req ++ cors.configureCredentials)
        (decoded W req) true.

(** The layers behind the static files: the mounted groups, the pages and
    the health check ([dynamic]), then the two fallbacks. *)
Definition dynamic (W : World) (now : Z) : list Layer := take 17 (drop 7 (app W now)).
Definition fallbacks (W : World) (now : Z) : list Layer := drop 24 (app W now).

Definition api_groups : list ApiGroup :=
  [authRoutes; orderRoutes; productRoutes; userRoutes;
   adminRoutes; apkRoutes; creditCardRoutes; syncRoutes].

Definition page_patterns : list string :=
  ["/"; "/start"; "/launcher"; "/admin"; "/admin/"; "/admin/login.html";
   "/admin/dashboard"; "/order-confirmation"].

Definition under_api_prefix (p : string) : bool :=
  existsb (fun g => mount_matches (mount_path g) p) api_groups.

Definition is_page_path (p : string) : bool :=
  existsb (fun pattern => route_matches pattern p) page_patterns.

Definition is_health_path (p : string) : bool := route_matches "/api/health" p.

(** What the error handler answers for [e]. *)
Definition error_response (W : World) (e : Error) : Response :=
  mkResponse 500 [json_type]
    (JsonBody (JObject [("error", JString "Something went wrong!");
              ("message",
               JString (if is_development W then err_message e
                        else "Internal server error"))])).

Definition not_found_response (req : Request) : Response :=
  mkResponse 404 [json_type]
    (JsonBody (JObject [("error", JString "Route not found");
                        ("message",
                         JString ("Cannot " +:+ method req +:+ " " +:+ path req))])).

(** A layer that leaves the limiter's store as it found it. *)
Definition keeps_hits (l : Layer) : Prop :=
  match handler l with
  | Middleware h => forall req c, hits (fst (h req c)) = hits c
  | ErrorMiddleware h => forall e req c, hits (fst (h e req c)) = hits c
  end.

(** The request went past the limiter, on to the access logger. *)
Definition forwarded (tr : list Stage) : Prop :=
  exists rest, tr = SecurityHeaders :: RateLimiter :: AccessLogger :: rest.

(** The request was turned away by the limiter: no later stage ran. *)
Definition turned_away (out : Response * list Stage) : Prop :=
  status (fst out) = 429 /\ snd out = [SecurityHeaders; RateLimiter].

(** How many of the arrivals come from client [k]. *)
Definition seen (k : string) (arrivals : list (Z * Request)) : nat :=
  length (List.filter (fun a => String.eqb (ip (snd a)) k) arrivals).

(** The state of client [k]'s counter after [n] of its requests in the
    window that opened at or after [t0]. *)
Definition counted_to (k : string) (t0 : Z) (n : nat) (srv : Server) : Prop :=
  match n with
  | O => forall w, store srv !! k = Some w -> resetTime w <= t0
  | S _ => exists r, store srv !! k = Some (mkWindow (Z.of_nat n) r)
                     /\ t0 + limiter.windowMs <= r
  end.

(** The scenario of the specification: 101 health checks in a row from
    one client. *)
Definition hundred_and_one : list (Z * Request) :=
  repeat (1000, Sample.plain "GET" "/api/health") 101.

(** The stages that match a request against files and routes. *)
Definition is_route (s : Stage) : bool :=
  match s with
  | StaticAssets | Api _ | Page _ | Health | NotFound => true
  | _ => false
  end.

(** The stages in the order server.js registers them. *)
Definition registration_order : list Stage :=
  [SecurityHeaders; RateLimiter; AccessLogger; CorsPolicy; JsonDecoder; FormDecoder;
   StaticAssets;
   Api authRoutes; Api orderRoutes; Api productRoutes; Api userRoutes;
   Api adminRoutes; Api apkRoutes; Api creditCardRoutes; Api syncRoutes;
   Page "/"; Page "/start"; Page "/launcher"; Page "/admin"; Page "/admin/";
   Page "/admin/login.html"; Page "/admin/dashboard"; Page "/order-confirmation";
   Health; ErrorHandler; NotFound].

(** [path.join(__dirname, 'admin', 'index.html')] *)
Definition dashboard_file (W : World) : string :=
  Posix.join [dirname W; "admin"; "index.html"].

Definition not_found_json (req : Request) : Json :=
  JObject [("error", JString "Route not found");
           ("message", JString ("Cannot " +:+ method req +:+ " " +:+ path req))].

(** An order posted with a body that is not JSON. *)
Definition broken_order : Request :=
  mkRequest "POST" "/api/orders" [("content-type", "application/json")]
            (Some "{oops") "203.0.113.7".

(** A layer that sets no header of its own on [res]. *)
Definition keeps_sent (l : Layer) : Prop :=
  match handler l with
  | Middleware h => forall req c, sent (fst (h req c)) = sent c
  | ErrorMiddleware h => forall e req c, sent (fst (h e req c)) = sent c
  end.

(** The headers the CORS stage sets on a request that is not a preflight. *)
Definition cors_headers (req : Request) : list Header :=
  cors.configureOrigin req ++ cors.configureCredentials.

(** A health check sent from a page of origin [o]. *)
Definition from_origin (o : string) : Request :=
  mkRequest "GET" "/api/health" [("origin", o)] None "203.0.113.7".

Definition is_digit (c : ascii) : bool :=
  ((48 <=? N_of_ascii c) && (N_of_ascii c <=? 57))%N.

(** The shape [YYYY-MM-DDTHH:mm:ss.sssZ]. *)
Definition iso_shape (s : string) : bool :=
  match s with
  | String y1 (String y2 (String y3 (String y4 (String "-"
    (String m1 (String m2 (String "-"
    (String d1 (String d2 (String "T"
    (String h1 (String h2 (String ":"
    (String n1 (String n2 (String ":"
    (String s1 (String s2 (String "."
    (String f1 (String f2 (String f3 (String "Z" EmptyString)))))))))))))))))))))))
    => forallb is_digit
         [y1; y2; y3; y4; m1; m2; d1; d2; h1; h2; n1; n2; s1; s2; f1; f2; f3]
  | _ => false
  end.

(** The clock readings whose year has four digits, from the epoch on. *)
Definition four_digit_year (t : Z) : Prop := 0 <= t <= 253402300799999.

Definition health_json (now : Z) : Json :=
  JObject [("status", JString "OK");
           ("message", JString "ShoppingDmart Backend is running");
           ("timestamp", JString (JSDate.toISOString now));
           ("version", JString "1.0.0")].

(** ** The vocabulary of the further properties *)

(** A layer that leaves morgan's hold on the response as it found it. *)
Definition keeps_watched (l : Layer) : Prop :=
  match handler l with
  | Middleware h => forall req c, watched (fst (h req c)) = watched c
  | ErrorMiddleware h => forall e req c, watched (fst (h e req c)) = watched c
  end.

Definition is_logger (s : Stage) : bool :=
  match s with
  | AccessLogger => true
  | _ => false
  end.

(** The line morgan writes for an arrival, given what became of it: one
    line when the access logger was reached, none otherwise. *)
Definition log_line (a : Z * Request) (out : Response * list Stage)
  : list (string * string * Z) :=
  if existsb is_logger (snd out)
  then [(method (snd a), path (snd a), status (fst out))]
  else [].

Fixpoint log_lines (arrivals : list (Z * Request)) (outs : list (Response * list Stage))
  : list (string * string * Z) :=
  match arrivals, outs with
  | a :: arrivals', out :: outs' => log_line a out ++ log_lines arrivals' outs'
  | _, _ => []
  end.

(** The statuses the layers of server.js give on their own account. *)
Definition own_statuses : list Z := [200; 204; 206; 301; 302; 304; 404; 429; 500].

(** The two pages that have no namesake in the static root: the route
    pattern and the document it sends. *)
Definition plain_pages : list (string * string) :=
  [("/launcher", "launcher.html"); ("/order-confirmation", "order-confirmation.html")].

(** [s] repeated [2 ^ k] times. *)
Fixpoint doubled (k : nat) (s : string) : string :=
  match k with
  | O => s
  | S k' => doubled k' (s +:+ s)
  end.

(** A JSON order of 16 MiB. *)
Definition huge_order : Request :=
  mkRequest "POST" "/api/orders" [("content-type", "application/json")]
            (Some (doubled 24 "1")) "203.0.113.7".

(** The place of a route group among the dynamic layers. *)
Definition group_index (g : ApiGroup) : nat :=
  match g with
  | authRoutes => 0
  | orderRoutes => 1
  | productRoutes => 2
  | userRoutes => 3
  | adminRoutes => 4
  | apkRoutes => 5
  | creditCardRoutes => 6
  | syncRoutes => 7
  end.

(** The two pages whose path names their own document in the static
    root: the route pattern and the document the route sends. *)
Definition shadowed_pages : list (string * list string) :=
  [("/", ["index.html"]); ("/admin/login.html", ["admin"; "login.html"])].

(** What a layer of server.js may answer on a request: one of its own
    statuses, or what a route group answered. *)
Definition within (W : World) (req : Request) (r : Response) : Prop :=
  In (status r) own_statuses
  \/ exists g, mount_matches (mount_path g) (path req) = true
               /\ group W g req = Answers r.

(** The time of the first arrival of client [k], if it has one. *)
Definition first_of (k : string) (arrivals : list (Z * Request)) : option Z :=
  match List.filter (fun a => String.eqb (ip (snd a)) k) arrivals with
  | a :: _ => Some (fst a)
  | [] => None
  end.

(** What the health check hands to [res.send]. *)
Definition health_response (now : Z) : Response :=
  mkResponse 200 [json_type] (JsonBody (health_json now)).

(** The name of the header by which the CORS stage grants an origin. *)
Definition allow_origin : string := "Access-Control-Allow-Origin".

(** No header of the list grants an origin. *)
Definition grants_none (hs : list Header) : Prop :=
  forall v, ~ In (allow_origin, v) hs.

(** A layer all of whose answers to a request it matches have a
    property. *)
Definition answers_have (P : Response -> Prop) (req : Request) (l : Layer) : Prop :=
  matches l req = true ->
  match handler l with
  | Middleware h => forall c r, snd (h req c) = Ends r -> P r
  | ErrorMiddleware h => forall e c r, snd (h e req c) = Ends r -> P r
  end.

(** * Properties *)

(** ** Timestamps, by example *)

Example toISOString_epoch :
  JSDate.toISOString 0 = "1970-01-01T00:00:00.000Z".
Proof. reflexivity. Qed.

Example toISOString_leap_day :
  JSDate.toISOString 1709210096789 = "2024-02-29T12:34:56.789Z".
Proof. vm_compute. reflexivity. Qed.

Example toISOString_before_epoch :
  JSDate.toISOString (-1) = "1969-12-31T23:59:59.999Z".
Proof. vm_compute. reflexivity. Qed.

(** ** The dispatcher in general *)

Section Walk.

Context (req : Request).

Lemma walk_app stack1 stack2 err c :
  walk (stack1 ++ stack2) err req c =
  match walk stack1 err req c with
  | (c', tr, Done r) => (c', tr, Done r)
  | (c', tr, Fell err') =>
      let '(c'', tr', s) := walk stack2 err' req c' in (c'', tr ++ tr', s)
  end.
Proof.
  revert err c.
  induction stack1 as [|l stack1 IH]; intros err c; simpl.
  - destruct (walk stack2 err req c) as [[c' tr] s]. reflexivity.
  - assert (Hrest : forall e c0,
      (let '(c', tr, res) := walk (stack1 ++ stack2) e req c0 in
       (c', stage l :: tr, res)) =
      match (let '(c', tr, res) := walk stack1 e req c0 in
             (c', stage l :: tr, res)) with
      | (c', tr, Done r) => (c', tr, Done r)
      | (c', tr, Fell err') =>
          let '(c'', tr', s) := walk stack2 err' req c' in (c'', tr ++ tr', s)
      end).
    { intros e c0. rewrite IH.
      destruct (walk stack1 e req c0) as [[c1 tr1] [r1|e1]]; [reflexivity|].
      destruct (walk stack2 e1 req c1) as [[c2 tr2] s2]. reflexivity. }
    destruct (matches l req); [|apply IH].
    destruct (handler l) as [h|h], err as [e|]; try apply IH.
    + destruct (h req c) as [c0 [res| |e]]; simpl; [reflexivity|apply Hrest..].
    + destruct (h e req c) as [c0 [res| |e']]; simpl; [reflexivity|apply Hrest..].
Qed.

(** While an error is pending, ordinary middleware and routes are
    passed over. *)
Lemma walk_pending l rest e c h :
  handler l = Middleware h ->
  walk (l :: rest) (Some e) req c = walk rest (Some e) req c.
Proof. intros Hh. simpl. rewrite Hh. destruct (matches l req); reflexivity. Qed.

Lemma walk_unmatched l rest err c :
  matches l req = false ->
  walk (l :: rest) err req c = walk rest err req c.
Proof. intros Hm. simpl. rewrite Hm. reflexivity. Qed.

Lemma walk_none_match stack c :
  forallb (fun l => negb (matches l req)) stack = true ->
  walk stack None req c = (c, [], Fell None).
Proof.
  induction stack as [|l stack IH]; simpl; [reflexivity|].
  intros [Hl Hs]%andb_prop. apply negb_true_iff in Hl. rewrite Hl. auto.
Qed.

(** The stages invoked are invoked in the order of the stack, each at
    most once. *)
Lemma walk_in_order stack err c :
  snd (fst (walk stack err req c)) `sublist_of` map stage stack.
Proof.
  revert err c.
  induction stack as [|l stack IH]; intros err c; simpl; [constructor|].
  assert (Hrest : forall e c0,
    snd (fst (let '(c', tr, res) := walk stack e req c0 in
              (c', stage l :: tr, res))) `sublist_of` stage l :: map stage stack).
  { intros e c0. specialize (IH e c0).
    destruct (walk stack e req c0) as [[c1 tr1] s1]. simpl in *.
    by apply sublist_skip. }
  assert (Hskip : snd (fst (walk stack err req c)) `sublist_of`
                    stage l :: map stage stack).
  { by apply sublist_cons. }
  destruct (matches l req); [|exact Hskip].
  destruct (handler l) as [h|h], err as [e|]; try exact Hskip.
  - destruct (h req c) as [c0 [res| |e]]; simpl; [|apply Hrest..].
    apply sublist_skip, sublist_nil_l.
  - destruct (h e req c) as [c0 [res| |e']]; simpl; [|apply Hrest..].
    apply sublist_skip, sublist_nil_l.
Qed.

(** First match wins: once a layer that matches ends the response,
    whatever is registered after it plays no part. *)
Lemma walk_first_match before l later c c' tr h res :
  walk before None req c = (c', tr, Fell None) ->
  matches l req = true ->
  handler l = Middleware h ->
  snd (h req c') = Ends res ->
  walk (before ++ l :: later) None req c
  = (fst (h req c'), tr ++ [stage l], Done res).
Proof.
  intros Hb Hm Hh He. rewrite walk_app, Hb. simpl.
  rewrite Hm, Hh, He. reflexivity.
Qed.

End Walk.

(** ** The middleware in front of the routes *)

Section Middleware.

Context (W : World) (now : Z) (srv : Server) (req : Request).

Lemma app_split : app W now = middleware W now ++ routing W now.
Proof. reflexivity. Qed.

Lemma limiter_handle c :
  limiter.handle W now req c =
  (set_headers (rate_headers W (snd (limiter.increment now (ip req) (hits c))))
     (set_hits (fst (limiter.increment now (ip req) (hits c)))
        (print_all (validations W (hits c) req) c)),
   if limiter.max <? totalHits (snd (limiter.increment now (ip req) (hits c)))
   then Ends limiter.too_many else Next).
Proof.
  unfold limiter.handle.
  reflexivity.
Qed.

Lemma middleware_split :
  middleware W now
  = take 4 (app W now)
      ++ [use JsonDecoder (bodyParser.json W); use FormDecoder (bodyParser.urlencoded W)].
Proof. reflexivity. Qed.

Lemma middleware_rejects :
  admitted now srv req = false ->
  walk (middleware W now) None req (blank srv)
  = (counted W now srv req, [SecurityHeaders; RateLimiter], Done limiter.too_many).
Proof.
  unfold admitted. intros Ha. apply Z.leb_gt, Z.ltb_lt in Ha.
  rewrite middleware_split.
  generalize [use JsonDecoder (bodyParser.json W);
              use FormDecoder (bodyParser.urlencoded W)]. intros later.
  cbn [app take List.app walk use matches handler stage helmet fst snd].
  rewrite limiter_handle. cbn [fst snd hits set_headers blank].
  rewrite Ha. reflexivity.
Qed.

(** The four layers in front of the decoders, for a request the limiter
    admits. *)
Lemma front_layers :
  admitted now srv req = true ->
  walk (take 4 (app W now)) None req (blank srv)
  = if preflight req
    then (mkCtx (fst (limiter.increment now (ip req) (store srv))) (checked W srv req)
                (stamped W now srv req ++ cors.configureOrigin req
                   ++ cors.configureCredentials
                   ++ cors.configureMethods ++ cors.configureAllowedHeaders req)
                None true,
          [SecurityHeaders; RateLimiter; AccessLogger; CorsPolicy],
          Done (mkResponse 204 [("Content-Length", "0")] NoContent))
    else (labelled W now srv req,
          [SecurityHeaders; RateLimiter; AccessLogger; CorsPolicy], Fell None).
Proof.
  unfold admitted, preflight. intros Ha. apply Z.leb_le, Z.ltb_ge in Ha.
  cbn [app take walk use matches handler stage helmet fst snd].
  rewrite limiter_handle. cbn [fst snd hits set_headers blank].
  rewrite Ha. cbn [morgan fst snd]. unfold cors.handle.
  destruct (String.eqb (method req) "OPTIONS"); cbn [fst snd];
    unfold labelled, stamped, checked, set_headers, set_watched, set_hits, print_all;
    cbn [hits printed sent req_body watched]; rewrite <- ?app_assoc; reflexivity.
Qed.

(** The two decoders, for a request that comes with [req.body] unset. *)
Lemma decoders c :
  req_body c = None ->
  walk [use JsonDecoder (bodyParser.json W); use FormDecoder (bodyParser.urlencoded W)]
       None req c
  = match refused W req with
    | Some e =>
        (c,
         match bodyParser.read W bodyParser.JsonBodies req with
         | Some _ => [JsonDecoder]
         | None => [JsonDecoder; FormDecoder]
         end,
         Fell (Some e))
    | None =>
        (mkCtx (hits c) (printed c) (sent c) (decoded W req) (watched c),
         [JsonDecoder; FormDecoder], Fell None)
    end.
Proof.
  intros Hb. destruct c as [h p s b w]. cbn [req_body] in Hb. subst b.
  cbn [walk use matches handler stage].
  unfold bodyParser.json, bodyParser.urlencoded, bodyParser.decode, refused, decoded.
  cbn [req_body].
  destruct (bodyParser.read W bodyParser.JsonBodies req) as [[j|e]|];
    cbn [fst snd set_body req_body hits printed sent watched]; try reflexivity.
  destruct (bodyParser.read W bodyParser.FormBodies req) as [[j'|e']|];
    cbn [fst snd set_body req_body hits printed sent watched]; reflexivity.
Qed.

Lemma middleware_preflight :
  admitted now srv req = true ->
  preflight req = true ->
  walk (middleware W now) None req (blank srv)
  = (mkCtx (fst (limiter.increment now (ip req) (store srv))) (checked W srv req)
           (stamped W now srv req ++ cors.configureOrigin req ++ cors.configureCredentials
              ++ cors.configureMethods ++ cors.configureAllowedHeaders req)
           None true,
     [SecurityHeaders; RateLimiter; AccessLogger; CorsPolicy],
     Done (mkResponse 204 [("Content-Length", "0")] NoContent)).
Proof.
  intros Ha Hp. rewrite middleware_split, walk_app, front_layers, Hp by done.
  reflexivity.
Qed.

Lemma middleware_decodes :
  admitted now srv req = true ->
  preflight req = false ->
  walk (middleware W now) None req (blank srv)
  = match refused W req with
    | Some e =>
        (labelled W now srv req,
         match bodyParser.read W bodyParser.JsonBodies req with
         | Some _ => [SecurityHeaders; RateLimiter; AccessLogger; CorsPolicy; JsonDecoder]
         | None => pipeline_stages
         end,
         Fell (Some e))
    | None => (cleared W now srv req, pipeline_stages, Fell None)
    end.
Proof.
  intros Ha Hp. rewrite middleware_split, walk_app, front_layers, Hp by done.
  rewrite decoders by reflexivity.
  destruct (refused W req) as [e|].
  - destruct (bodyParser.read W bodyParser.JsonBodies req); reflexivity.
  - reflexivity.
Qed.

End Middleware.

(** ** Routing *)

Section Routing.

Context (W : World) (now : Z) (req : Request).

Lemma routing_split :
  routing W now = use StaticAssets (express_static W) :: dynamic W now ++ fallbacks W now.
Proof. reflexivity. Qed.

Lemma walk_pending_all before stack e c :
  Forall (fun l => exists h, handler l = Middleware h) before ->
  walk (before ++ stack) (Some e) req c = walk stack (Some e) req c.
Proof.
  induction 1 as [|l before [h Hh] _ IH]; [reflexivity|].
  rewrite <- app_comm_cons, (walk_pending req l _ e c h Hh). exact IH.
Qed.

Lemma before_fallbacks_middleware :
  Forall (fun l => exists h, handler l = Middleware h) (take 24 (app W now)).
Proof. repeat constructor; eexists; reflexivity. Qed.

Lemma fallbacks_error e c :
  walk (fallbacks W now) (Some e) req c
  = (print (err_message e) c, [ErrorHandler], Done (error_response W e)).
Proof. reflexivity. Qed.

Lemma fallbacks_unmatched c :
  walk (fallbacks W now) None req c = (c, [NotFound], Done (not_found_response req)).
Proof. reflexivity. Qed.

(** Wherever in front of the error handler an error is raised, the
    error handler is the next layer invoked, and it answers. *)
Lemma error_anywhere n e c :
  (n <= 24)%nat ->
  walk (drop n (app W now)) (Some e) req c
  = (print (err_message e) c, [ErrorHandler], Done (error_response W e)).
Proof.
  intros Hn.
  rewrite <- (take_drop 24 (app W now)) at 1.
  rewrite drop_app_le by (rewrite length_take; simpl; lia).
  rewrite walk_pending_all by (apply Forall_drop, before_fallbacks_middleware).
  apply fallbacks_error.
Qed.

(** A request no dynamic layer matches, and for which there is no
    static file, ends at the 404 handler. *)
Lemma routing_unmatched c :
  serveStatic W req = Next ->
  forallb (fun l => negb (matches l req)) (dynamic W now) = true ->
  walk (routing W now) None req c
  = (c, [StaticAssets; NotFound], Done (not_found_response req)).
Proof.
  intros Ha Hd. rewrite routing_split.
  change (use StaticAssets (express_static W) :: dynamic W now ++ fallbacks W now)
    with ([use StaticAssets (express_static W)] ++ dynamic W now ++ fallbacks W now).
  rewrite walk_app. cbn [walk use matches handler stage express_static fst snd].
  rewrite Ha. rewrite walk_app, (walk_none_match req _ c Hd), fallbacks_unmatched.
  reflexivity.
Qed.

Lemma dynamic_matches :
  existsb (fun l => matches l req) (dynamic W now)
  = under_api_prefix (path req)
    || (is_page_path (path req) || is_health_path (path req)) && is_get_or_head req.
Proof.
  unfold dynamic, under_api_prefix, is_page_path, is_health_path.
  cbn [app drop take existsb use_at get_page get matches api_groups page_patterns].
  destruct (is_get_or_head req);
    rewrite ?andb_true_r, ?andb_false_r, ?orb_false_r, ?orb_assoc; reflexivity.
Qed.

Lemma dynamic_unmatched :
  under_api_prefix (path req) = false ->
  (is_page_path (path req) || is_health_path (path req)) && is_get_or_head req = false ->
  forallb (fun l => negb (matches l req)) (dynamic W now) = true.
Proof.
  intros Hu Hp.
  pose proof dynamic_matches as Hm. rewrite Hu, Hp in Hm.
  revert Hm. generalize (dynamic W now). intros stack.
  induction stack as [|l stack IH]; simpl; [reflexivity|].
  intros [Hl Hs]%orb_false_elim. rewrite Hl. auto.
Qed.

End Routing.

(** ** One request, case by case *)

Section Cases.

Context (W : World) (now : Z) (srv : Server) (req : Request).

Let counts : gmap string Window := fst (limiter.increment now (ip req) (store srv)).

Lemma handle_rejected :
  admitted now srv req = false ->
  handle W now srv req
  = (mkServer counts (access_log srv) (checked W srv req),
     on_wire req (counted W now srv req) limiter.too_many,
     [SecurityHeaders; RateLimiter]).
Proof.
  intros Ha. unfold handle. rewrite app_split, walk_app, middleware_rejects by done.
  reflexivity.
Qed.

Lemma handle_preflight :
  admitted now srv req = true ->
  preflight req = true ->
  handle W now srv req
  = (mkServer counts (access_log srv ++ [(method req, path req, 204)])
              (checked W srv req),
     mkResponse 204
       (stamped W now srv req ++ cors.configureOrigin req ++ cors.configureCredentials
          ++ cors.configureMethods ++ cors.configureAllowedHeaders req
          ++ [("Content-Length", "0")])
       NoContent,
     [SecurityHeaders; RateLimiter; AccessLogger; CorsPolicy]).
Proof.
  intros Ha Hp. unfold handle.
  rewrite app_split, walk_app, middleware_preflight by done.
  unfold on_wire. cbn [finish status res_headers body sent hits watched printed].
  rewrite <- !app_assoc. destruct (String.eqb (method req) "HEAD"); reflexivity.
Qed.

Lemma handle_refused e :
  admitted now srv req = true ->
  preflight req = false ->
  refused W req = Some e ->
  handle W now srv req
  = (mkServer counts (access_log srv ++ [(method req, path req, 500)])
              (checked W srv req ++ [err_message e]),
     on_wire req (labelled W now srv req) (error_response W e),
     match bodyParser.read W bodyParser.JsonBodies req with
     | Some _ => [SecurityHeaders; RateLimiter; AccessLogger; CorsPolicy; JsonDecoder]
     | None => pipeline_stages
     end ++ [ErrorHandler]).
Proof.
  intros Ha Hp Hr. unfold handle.
  rewrite app_split, walk_app, middleware_decodes, Hr by done.
  change (routing W now) with (drop 6 (app W now)).
  rewrite error_anywhere by lia. reflexivity.
Qed.

Lemma handle_routed :
  admitted now srv req = true ->
  preflight req = false ->
  refused W req = None ->
  handle W now srv req
  = let '(c, tr, s) := walk (routing W now) None req (cleared W now srv req) in
    (mkServer (hits c)
              (if watched c
               then access_log srv ++ [(method req, path req, status (finish req s))]
               else access_log srv)
              (printed c),
     on_wire req c (finish req s), pipeline_stages ++ tr).
Proof.
  intros Ha Hp Hr. unfold handle.
  rewrite app_split, walk_app, middleware_decodes, Hr by done.
  destruct (walk (routing W now) None req (cleared W now srv req)) as [[c tr] s].
  reflexivity.
Qed.

(** The limiter decides between the two shapes a trace can have. *)
Lemma trace_admitted :
  admitted now srv req = true ->
  exists rest,
    trace W now srv req = SecurityHeaders :: RateLimiter :: AccessLogger :: rest.
Proof.
  intros Ha. unfold trace.
  destruct (preflight req) eqn:Hp.
  { rewrite handle_preflight by done. eexists. reflexivity. }
  destruct (refused W req) as [e|] eqn:Hr.
  { rewrite (handle_refused e) by done.
    destruct (bodyParser.read _ _ req); eexists; reflexivity. }
  rewrite handle_routed by done.
  destruct (walk (routing W now) None req (cleared W now srv req)) as [[c tr] s].
  eexists. reflexivity.
Qed.

Lemma trace_rejected :
  admitted now srv req = false ->
  trace W now srv req = [SecurityHeaders; RateLimiter]
  /\ status (respond W now srv req) = 429.
Proof.
  intros Ha. unfold trace, respond. rewrite handle_rejected by done. done.
Qed.

End Cases.

(** ** The limiter's store *)

Lemma walk_keeps_hits req stack err c :
  Forall keeps_hits stack ->
  hits (fst (fst (walk stack err req c))) = hits c.
Proof.
  intros Hk. revert err c.
  induction Hk as [|l stack Hl _ IH]; intros err c; simpl; [reflexivity|].
  unfold keeps_hits in Hl.
  destruct (matches l req); [|apply IH].
  destruct (handler l) as [h|h], err as [e|]; try apply IH.
  - specialize (Hl req c). destruct (h req c) as [c0 [res| |e]]; simpl in *; [done|..].
    + specialize (IH None c0). destruct (walk stack None req c0) as [[c1 tr1] s1].
      simpl in *. congruence.
    + specialize (IH (Some e) c0). destruct (walk stack (Some e) req c0) as [[c1 tr1] s1].
      simpl in *. congruence.
  - specialize (Hl e req c). destruct (h e req c) as [c0 [res| |e']]; simpl in *; [done|..].
    + specialize (IH None c0). destruct (walk stack None req c0) as [[c1 tr1] s1].
      simpl in *. congruence.
    + specialize (IH (Some e') c0). destruct (walk stack (Some e') req c0) as [[c1 tr1] s1].
      simpl in *. congruence.
Qed.

Lemma routing_keeps_hits W now : Forall keeps_hits (routing W now).
Proof. repeat constructor. Qed.

(** Only the limiter writes to the store: whatever becomes of the
    request, the store afterwards is the one the limiter left. *)
Lemma after_store W now srv req :
  store (after W now srv req) = fst (limiter.increment now (ip req) (store srv)).
Proof.
  unfold after.
  destruct (admitted now srv req) eqn:Ha; [|by rewrite handle_rejected].
  destruct (preflight req) eqn:Hp; [by rewrite handle_preflight|].
  destruct (refused W req) as [e|] eqn:Hr; [by rewrite (handle_refused _ _ _ _ e)|].
  rewrite handle_routed by done.
  pose proof (walk_keeps_hits req (routing W now) None (cleared W now srv req)
                (routing_keeps_hits W now)) as Hk.
  destruct (walk (routing W now) None req (cleared W now srv req)) as [[c tr] s].
  exact Hk.
Qed.

Section Limiter.

Context (now : Z) (key : string) (m : gmap string Window).

Lemma increment_other other :
  other <> key ->
  fst (limiter.increment now other m) !! key = m !! key.
Proof.
  intros Hne. unfold limiter.increment. cbn [fst]. by rewrite lookup_insert_ne.
Qed.

(** A client without a running window starts one with this request. *)
Lemma increment_opens :
  (forall w, m !! key = Some w -> resetTime w <= now) ->
  limiter.increment now key m
  = (<[key := mkWindow 1 (now + limiter.windowMs)]> m,
     mkWindow 1 (now + limiter.windowMs)).
Proof.
  intros Hw. unfold limiter.increment.
  destruct (m !! key) as [w|]; [|reflexivity].
  specialize (Hw w eq_refl). apply Z.leb_le in Hw. by rewrite Hw.
Qed.

(** Inside a running window the request is added to the count. *)
Lemma increment_counts w :
  m !! key = Some w ->
  now < resetTime w ->
  limiter.increment now key m
  = (<[key := mkWindow (totalHits w + 1) (resetTime w)]> m,
     mkWindow (totalHits w + 1) (resetTime w)).
Proof.
  intros Hw Hn. unfold limiter.increment. rewrite Hw.
  apply Z.leb_gt in Hn. by rewrite Hn.
Qed.

End Limiter.

Section Quota.

Context (W : World) (k : string) (w : Window).

Lemma run_counts (arrivals : list (Z * Request)) :
  forall srv n,
    store srv !! k = Some (mkWindow n (resetTime w)) ->
    (forall t req, In (t, req) arrivals -> ip req = k -> t < resetTime w) ->
    store (run W srv arrivals) !! k
    = Some (mkWindow (n + Z.of_nat (seen k arrivals)) (resetTime w)).
Proof.
  induction arrivals as [|[t req] arrivals IH]; intros srv n Hs Hin.
  - simpl. rewrite Hs. do 2 f_equal. unfold seen. simpl. lia.
  - cbn [run].
    assert (Hin' : forall t req, In (t, req) arrivals -> ip req = k -> t < resetTime w).
    { intros t' r' H'. apply Hin. by right. }
    unfold seen. cbn [List.filter snd].
    destruct (String.eqb_spec (ip req) k) as [Heq|Hne].
    + rewrite (IH (after W t srv req) (n + 1)); [| |exact Hin'].
      * do 2 f_equal. unfold seen. cbn [length]. lia.
      * rewrite after_store, Heq.
        rewrite (increment_counts t k (store srv) _ Hs)
          by (cbn [resetTime]; apply (Hin t req); [by left|done]).
        cbn [fst totalHits resetTime]. apply lookup_insert_eq.
    + apply IH; [|exact Hin'].
      by rewrite after_store, increment_other.
Qed.

End Quota.

(** ** C1: the rate-limit window *)

Section Window.

Context (W : World) (k : string) (t0 : Z).

Lemma step_other n srv t req :
  ip req <> k ->
  counted_to k t0 n srv ->
  counted_to k t0 n (after W t srv req).
Proof.
  intros Hne Hc. unfold counted_to in *.
  destruct n; [intros w|destruct Hc as [r Hr]; exists r];
    rewrite after_store, increment_other by done; auto.
Qed.

Lemma step_same n srv t req :
  ip req = k ->
  t0 <= t < t0 + limiter.windowMs ->
  counted_to k t0 n srv ->
  counted_to k t0 (S n) (after W t srv req)
  /\ admitted t srv req = (n <? 100)%nat.
Proof.
  intros Hk Ht Hc. unfold counted_to in *. unfold admitted.
  rewrite after_store, Hk.
  destruct n as [|n].
  - rewrite increment_opens by (intros w Hw; specialize (Hc w Hw); lia).
    simpl. rewrite lookup_insert_eq. split; [|reflexivity].
    eexists. split; [reflexivity|]. lia.
  - destruct Hc as [r [Hr Hle]].
    rewrite (increment_counts t k (store srv) _ Hr) by (simpl; lia).
    cbn [fst snd totalHits resetTime]. rewrite lookup_insert_eq. split.
    + exists r. split; [|exact Hle]. do 2 f_equal. lia.
    + unfold limiter.max.
      destruct (Nat.ltb_spec (S n) 100); [apply Z.leb_le|apply Z.leb_gt]; lia.
Qed.

Lemma window_run (arrivals : list (Z * Request)) :
  forall srv n,
    counted_to k t0 n srv ->
    (forall t req, In (t, req) arrivals -> ip req = k ->
                   t0 <= t < t0 + limiter.windowMs) ->
    forall i t req,
      arrivals !! i = Some (t, req) ->
      ip req = k ->
      exists out,
        serve W srv arrivals !! i = Some out
        /\ ((n + seen k (take i arrivals) < 100)%nat -> forwarded (snd out))
        /\ ((100 <= n + seen k (take i arrivals))%nat -> turned_away out).
Proof.
  induction arrivals as [|[t1 r1] arrivals IH]; intros srv n Hc Hin i t req Hi Hk.
  { destruct i; discriminate. }
  destruct i as [|i].
  - injection Hi as -> ->.
    destruct (step_same n srv t req Hk (Hin t req (or_introl eq_refl) Hk) Hc)
      as [_ Ha].
    eexists. split; [reflexivity|].
    unfold seen. simpl. rewrite Nat.add_0_r. split; intros Hn.
    + apply trace_admitted. rewrite Ha. by apply Nat.ltb_lt.
    + apply and_comm, trace_rejected. rewrite Ha. apply Nat.ltb_ge. lia.
  - cbn [serve]. change ((?x :: ?l) !! S i) with (l !! i) in *.
    assert (Hin' : forall t req, In (t, req) arrivals -> ip req = k ->
                                 t0 <= t < t0 + limiter.windowMs).
    { intros t' r' H'. apply Hin. by right. }
    unfold seen. cbn [take List.filter snd].
    destruct (String.eqb_spec (ip r1) k) as [Heq|Hne].
    + destruct (step_same n srv t1 r1 Heq (Hin t1 r1 (or_introl eq_refl) Heq) Hc)
        as [Hc' _].
      destruct (IH _ _ Hc' Hin' i t req Hi Hk) as [out [Ho [Hf Hr]]].
      exists out. split; [exact Ho|]. unfold seen in Hf, Hr. cbn [length].
      split; intros Hn; [apply Hf|apply Hr]; lia.
    + exact (IH _ _ (step_other n srv t1 r1 Hne Hc) Hin' i t req Hi Hk).
Qed.

(** The window a run leaves behind is the one that opened with the
    client's first request: it ends [windowMs] after that request, and
    it has counted every request of the client. *)
Lemma window_left (arrivals : list (Z * Request)) :
  forall srv,
    (forall w, store srv !! k = Some w -> resetTime w <= t0) ->
    (forall t req, In (t, req) arrivals -> ip req = k ->
                   t0 <= t < t0 + limiter.windowMs) ->
    forall t1,
      first_of k arrivals = Some t1 ->
      store (run W srv arrivals) !! k
      = Some (mkWindow (Z.of_nat (seen k arrivals)) (t1 + limiter.windowMs)).
Proof.
  induction arrivals as [|[t r] arrivals IH]; intros srv Hidle Hin t1 Hfirst.
  { discriminate Hfirst. }
  assert (Hin' : forall t req, In (t, req) arrivals -> ip req = k ->
                               t0 <= t < t0 + limiter.windowMs).
  { intros t' r' H'. apply Hin. by right. }
  unfold first_of, seen in *. cbn [List.filter snd] in *. cbn [run].
  destruct (String.eqb_spec (ip r) k) as [Heq|Hne].
  - injection Hfirst as <-. cbn [fst].
    pose proof (Hin t r (or_introl eq_refl) Heq) as Ht.
    rewrite (run_counts W k (mkWindow 1 (t + limiter.windowMs)) arrivals
               (after W t srv r) 1).
    + cbn [resetTime length]. do 2 f_equal. unfold seen. lia.
    + rewrite after_store, Heq.
      rewrite increment_opens by (intros w Hw; specialize (Hidle w Hw); lia).
      cbn [fst resetTime]. apply lookup_insert_eq.
    + intros t' r' H' Hk'. cbn [resetTime]. specialize (Hin' t' r' H' Hk'). lia.
  - apply IH; [|exact Hin'|exact Hfirst].
    intros w. rewrite after_store, increment_other by done. apply Hidle.
Qed.

End Window.

(** C1.  For every client identity [k]: take any run of the server in
    which [k] has no window running when its first request arrives and all
    its requests fall within one window of 15 minutes, [t0 <= t < t0 +
    windowMs], however many requests of other clients arrive in between.
    A request of [k] that has fewer than 100 requests of [k] before it,
    that is, one of the first 100, is forwarded past the limiter; the
    101st and every later one is answered 429 by the limiter and no later
    stage runs.  The window is the client's own: it opened with the
    client's first request, at [t1], and it ends at [t1 + windowMs], not
    earlier and not later.  Up to that instant every further request
    beyond the 100th is turned away; from that instant on the next
    request is forwarded again and the counter starts over at 1 in a new
    window of 15 minutes.  The same holds in every state of the server
    for a client that has no window running, new clients included. *)
Theorem rate_limit_window (W : World) (k : string) (t0 : Z) (srv : Server)
        (arrivals : list (Z * Request)) :
  (forall w, store srv !! k = Some w -> resetTime w <= t0) ->
  (forall t req, In (t, req) arrivals -> ip req = k ->
                 t0 <= t < t0 + 15 * 60 * 1000) ->
  (forall i t req,
      arrivals !! i = Some (t, req) ->
      ip req = k ->
      exists out,
        serve W srv arrivals !! i = Some out
        /\ ((seen k (take i arrivals) < 100)%nat -> forwarded (snd out))
        /\ ((100 <= seen k (take i arrivals))%nat -> turned_away out))
  /\ (forall t1,
        first_of k arrivals = Some t1 ->
        store (run W srv arrivals) !! k
        = Some (mkWindow (Z.of_nat (seen k arrivals)) (t1 + 15 * 60 * 1000))
        /\ (forall now req,
              ip req = k ->
              now < t1 + 15 * 60 * 1000 ->
              (100 <= seen k arrivals)%nat ->
              turned_away (respond W now (run W srv arrivals) req,
                           trace W now (run W srv arrivals) req))
        /\ (forall now req,
              ip req = k ->
              t1 + 15 * 60 * 1000 <= now ->
              forwarded (trace W now (run W srv arrivals) req)
              /\ store (after W now (run W srv arrivals) req) !! k
                 = Some (mkWindow 1 (now + 15 * 60 * 1000))))
  /\ (forall srv' now req,
         (forall w, store srv' !! ip req = Some w -> resetTime w <= now) ->
         forwarded (trace W now srv' req)
         /\ store (after W now srv' req) !! ip req
            = Some (mkWindow 1 (now + 15 * 60 * 1000))).
Proof.
  intros Hidle Hwithin.
  assert (Hopens : forall srv' now req,
             (forall w, store srv' !! ip req = Some w -> resetTime w <= now) ->
             forwarded (trace W now srv' req)
             /\ store (after W now srv' req) !! ip req
                = Some (mkWindow 1 (now + 15 * 60 * 1000))).
  { intros srv' now req Hexpired.
    pose proof (increment_opens now (ip req) (store srv') Hexpired) as Hopen.
    split.
    - apply trace_admitted. unfold admitted. rewrite Hopen. reflexivity.
    - rewrite after_store, Hopen. apply lookup_insert_eq. }
  split; [|split; [|exact Hopens]].
  - intros i t req Hi Hk.
    exact (window_run W k t0 arrivals srv 0%nat Hidle Hwithin i t req Hi Hk).
  - intros t1 Hfirst.
    pose proof (window_left W k t0 arrivals srv Hidle Hwithin t1 Hfirst) as Hleft.
    split; [exact Hleft|]. split.
    + intros now req Hk Hnow Hfull. subst k.
      apply and_comm, trace_rejected. unfold admitted.
      rewrite (increment_counts now (ip req) _ _ Hleft) by exact Hnow.
      cbn [snd totalHits]. apply Z.leb_gt. unfold limiter.max. lia.
    + intros now req Hk Hnow. subst k. apply Hopens.
      intros w Hw. rewrite Hleft in Hw. injection Hw as <-. exact Hnow.
Qed.

Lemma rate_limit_window_witness :
  (forall i t req,
      hundred_and_one !! i = Some (t, req) ->
      ip req = "203.0.113.7" ->
      exists out,
        serve (Sample.world None) fresh_server hundred_and_one !! i = Some out
        /\ ((seen "203.0.113.7" (take i hundred_and_one) < 100)%nat -> forwarded (snd out))
        /\ ((100 <= seen "203.0.113.7" (take i hundred_and_one))%nat -> turned_away out))
  /\ (forall t1,
        first_of "203.0.113.7" hundred_and_one = Some t1 ->
        store (run (Sample.world None) fresh_server hundred_and_one) !! "203.0.113.7"
        = Some (mkWindow (Z.of_nat (seen "203.0.113.7" hundred_and_one))
                         (t1 + 15 * 60 * 1000))
        /\ (forall now req,
              ip req = "203.0.113.7" ->
              now < t1 + 15 * 60 * 1000 ->
              (100 <= seen "203.0.113.7" hundred_and_one)%nat ->
              turned_away
                (respond (Sample.world None) now
                         (run (Sample.world None) fresh_server hundred_and_one) req,
                 trace (Sample.world None) now
                       (run (Sample.world None) fresh_server hundred_and_one) req))
        /\ (forall now req,
              ip req = "203.0.113.7" ->
              t1 + 15 * 60 * 1000 <= now ->
              forwarded (trace (Sample.world None) now
                               (run (Sample.world None) fresh_server hundred_and_one) req)
              /\ store (after (Sample.world None) now
                              (run (Sample.world None) fresh_server hundred_and_one) req)
                  !! "203.0.113.7"
                 = Some (mkWindow 1 (now + 15 * 60 * 1000))))
  /\ (forall srv' now req,
         (forall w, store srv' !! ip req = Some w -> resetTime w <= now) ->
         forwarded (trace (Sample.world None) now srv' req)
         /\ store (after (Sample.world None) now srv' req) !! ip req
            = Some (mkWindow 1 (now + 15 * 60 * 1000))).
Proof.
  apply (rate_limit_window (Sample.world None) "203.0.113.7" 0 fresh_server
           hundred_and_one).
  - intros w Hw. simpl in Hw. rewrite lookup_empty in Hw. discriminate.
  - intros t req Hin _. apply repeat_spec in Hin.
    injection Hin as -> _. lia.
Defined.

Example hundred_and_one_statuses :
  map (fun out => status (fst out)) (serve (Sample.world None) fresh_server hundred_and_one)
  = repeat 200 100 ++ [429].
Proof. vm_compute. reflexivity. Qed.

(** The window of the scenario: it opened at time 1000 and ends 15
    minutes later; a request one millisecond before that is the 102nd and
    is turned away, a request at that instant opens a new window. *)
Example hundred_and_one_window :
  store (run (Sample.world None) fresh_server hundred_and_one) !! "203.0.113.7"
  = Some (mkWindow 101 901000)
  /\ map (fun out => status (fst out))
         (serve (Sample.world None) fresh_server
                (hundred_and_one ++ [(900999, Sample.plain "GET" "/api/health");
                                     (901000, Sample.plain "GET" "/api/health")]))
     = repeat 200 100 ++ [429; 429; 200].
Proof. vm_compute. done. Qed.

(** ** C5: the order of the stages *)

Section Order.

Context (W : World) (now : Z) (req : Request).

Lemma routing_starts_static c :
  exists c' rest s,
    walk (routing W now) None req c = (c', StaticAssets :: rest, s).
Proof.
  rewrite routing_split. generalize (dynamic W now ++ fallbacks W now).
  intros later. cbn [walk use matches handler stage express_static fst snd].
  destruct (serveStatic W req) as [r| |e]; [by eexists _, _, _|..].
  - destruct (walk later None req c) as [[c' tr] s]. by eexists _, _, _.
  - destruct (walk later (Some e) req c) as [[c' tr] s]. by eexists _, _, _.
Qed.

Lemma routing_closed : routing W now = take 18 (routing W now) ++ fallbacks W now.
Proof. reflexivity. Qed.

(** The two fallbacks close the stack: no walk runs off its end. *)
Lemma routing_answers err c :
  exists c' tr r, walk (routing W now) err req c = (c', tr, Done r).
Proof.
  rewrite routing_closed, walk_app.
  destruct (walk (take 18 (routing W now)) err req c) as [[c1 tr1] [r1|[e1|]]].
  - by eexists _, _, _.
  - rewrite fallbacks_error. by eexists _, _, _.
  - rewrite fallbacks_unmatched. by eexists _, _, _.
Qed.

Lemma app_answers srv :
  exists c r, walk (app W now) None req (blank srv) = (c, trace W now srv req, Done r).
Proof.
  unfold trace, handle.
  destruct (walk (app W now) None req (blank srv)) as [[c tr] s] eqn:Hw.
  cbn [snd]. revert Hw. rewrite app_split, walk_app.
  destruct (walk (middleware W now) None req (blank srv)) as [[c1 tr1] [r1|e1]].
  - intros [= <- <- <-]. by eexists _, _.
  - destruct (routing_answers e1 c1) as (c2 & tr2 & r2 & ->).
    intros [= <- <- <-]. by eexists _, _.
Qed.

Lemma trace_routes_last srv s :
  s ∈ trace W now srv req ->
  is_route s = true ->
  exists rest, trace W now srv req = pipeline_stages ++ StaticAssets :: rest.
Proof.
  unfold trace.
  destruct (admitted now srv req) eqn:Ha.
  2:{ rewrite handle_rejected by done. cbn [snd]. intros Hs Hr.
      repeat (apply elem_of_cons in Hs as [->|Hs]; [discriminate Hr|]).
      by apply elem_of_nil in Hs. }
  destruct (preflight req) eqn:Hp.
  { rewrite handle_preflight by done. cbn [snd]. intros Hs Hr.
    repeat (apply elem_of_cons in Hs as [->|Hs]; [discriminate Hr|]).
    by apply elem_of_nil in Hs. }
  destruct (refused W req) as [e|] eqn:Hf.
  { rewrite (handle_refused _ _ _ _ e) by done. cbn [snd]. intros Hs Hr.
    destruct (bodyParser.read _ _ req); cbn in Hs;
      repeat (apply elem_of_cons in Hs as [->|Hs]; [discriminate Hr|]);
      by apply elem_of_nil in Hs. }
  rewrite handle_routed by done.
  destruct (routing_starts_static (cleared W now srv req)) as (c & rest & st & ->).
  intros _ _. by exists rest.
Qed.

End Order.

(** C5, as the code has it.  The stages a request goes through are always
    visited in the order of registration, each at most once.  A request
    reaches route matching only after the security headers, the rate
    limiter, the access logger, the CORS policy and both body decoders, in
    that order, and the static files are then tried before any dynamic
    route.  First match wins: when a layer that matches ends the response,
    the layers registered after it play no part.  The walk never runs off
    the stack: a registered layer always answers, in the last resort the
    error handler or the 404 handler.  (The limiter and the CORS stage can
    end the exchange before the later stages, so not every request visits
    all of them.) *)
Theorem stage_order (W : World) (now : Z) (srv : Server) (req : Request) :
  trace W now srv req `sublist_of` registration_order
  /\ (forall s, s ∈ trace W now srv req -> is_route s = true ->
        exists rest, trace W now srv req = pipeline_stages ++ StaticAssets :: rest)
  /\ (forall before l later c tr h res,
        app W now = before ++ l :: later ->
        walk before None req (blank srv) = (c, tr, Fell None) ->
        matches l req = true ->
        handler l = Middleware h ->
        snd (h req c) = Ends res ->
        trace W now srv req = tr ++ [stage l]
        /\ respond W now srv req = on_wire req (fst (h req c)) res)
  /\ (exists c r,
        walk (app W now) None req (blank srv) = (c, trace W now srv req, Done r)).
Proof.
  split; [|split; [|split]].
  - unfold trace, handle.
    pose proof (walk_in_order req (app W now) None (blank srv)) as Ho.
    destruct (walk (app W now) None req (blank srv)) as [[c tr] s]. exact Ho.
  - apply trace_routes_last.
  - intros before l later c tr h res Happ Hb Hm Hh He.
    unfold trace, respond, handle.
    rewrite Happ, (walk_first_match req before l later _ c tr h res Hb Hm Hh He).
    done.
  - apply app_answers.
Qed.

Example exhausted_is_reached :
  store (run (Sample.world None) fresh_server
             (repeat (0, Sample.plain "GET" "/start") 100))
  = store Sample.exhausted.
Proof. vm_compute. reflexivity. Qed.

(** C5 as stated fails: a request the limiter turns away never reaches
    the access logger, the CORS policy or the body decoders. *)
Lemma limited_request_skips_stages :
  trace (Sample.world None) 5 Sample.exhausted (Sample.plain "GET" "/start")
  = [SecurityHeaders; RateLimiter]
  /\ ~ (exists rest,
          trace (Sample.world None) 5 Sample.exhausted (Sample.plain "GET" "/start")
          = pipeline_stages ++ rest).
Proof.
  assert (Ht : trace (Sample.world None) 5 Sample.exhausted (Sample.plain "GET" "/start")
               = [SecurityHeaders; RateLimiter]) by (vm_compute; reflexivity).
  split; [exact Ht|]. rewrite Ht. intros [rest Hr]. discriminate Hr.
Qed.

(** ** Requests that reach the routes *)

Section Routed.

Context (W : World) (now : Z) (req : Request).

(** The [n]-th dynamic layer takes the request when there is no static
    file and no dynamic layer before it matches. *)
Lemma routing_reaches n l c :
  serveStatic W req = Next ->
  dynamic W now !! n = Some l ->
  forallb (fun l => negb (matches l req)) (take n (dynamic W now)) = true ->
  walk (routing W now) None req c
  = let '(c', tr, s) :=
      walk (l :: drop (S n) (dynamic W now) ++ fallbacks W now) None req c in
    (c', StaticAssets :: tr, s).
Proof.
  intros Ha Hl Hn. rewrite routing_split.
  rewrite <- (take_drop_middle (dynamic W now) n l Hl) at 1.
  rewrite <- app_assoc, <- app_comm_cons.
  generalize (drop (S n) (dynamic W now) ++ fallbacks W now). intros later.
  destruct (walk (l :: later) None req c) as [[c' tr] s] eqn:Hw.
  change (use StaticAssets (express_static W) :: take n (dynamic W now) ++ l :: later)
    with ([use StaticAssets (express_static W)] ++ take n (dynamic W now) ++ l :: later).
  rewrite walk_app. cbn [walk use matches handler stage express_static fst snd].
  rewrite Ha. rewrite walk_app, (walk_none_match req _ c Hn), Hw. reflexivity.
Qed.

Lemma walk_taken l later c h :
  matches l req = true ->
  handler l = Middleware h ->
  walk (l :: later) None req c
  = match snd (h req c) with
    | Ends res => (fst (h req c), [stage l], Done res)
    | Next =>
        let '(c', tr, s) := walk later None req (fst (h req c)) in
        (c', stage l :: tr, s)
    | NextErr e =>
        let '(c', tr, s) := walk later (Some e) req (fst (h req c)) in
        (c', stage l :: tr, s)
    end.
Proof. intros Hm Hh. cbn [walk]. rewrite Hm, Hh. reflexivity. Qed.

Lemma routed srv c tr r :
  admitted now srv req = true ->
  preflight req = false ->
  refused W req = None ->
  walk (routing W now) None req (cleared W now srv req) = (c, tr, Done r) ->
  respond W now srv req = on_wire req c r
  /\ trace W now srv req = pipeline_stages ++ tr.
Proof.
  intros Ha Hp Hr Hw. unfold respond, trace.
  rewrite handle_routed, Hw by done. done.
Qed.

End Routed.

Lemma get_is_not_preflight req : method req = "GET" -> preflight req = false.
Proof. unfold preflight. by intros ->. Qed.

Lemma get_is_get_or_head req : method req = "GET" -> is_get_or_head req = true.
Proof. unfold is_get_or_head. by intros ->. Qed.

(** Evaluates the [matches] of the dynamic layers for a request whose
    path is known. *)
Ltac route_by Hpath :=
  cbn [dynamic app take drop forallb lookup list_lookup matches use_at get get_page];
  rewrite ?Hpath; reflexivity.

(** ** Files: send, the static layer and [res.sendFile] *)

Lemma send_whole W req file content :
  send.unconditional req = true ->
  send.send W req file content = Ends (mkResponse 200 [] (Document file content)).
Proof. unfold send.send, send.transfer. by intros ->. Qed.

Lemma send_status W req file content r :
  send.send W req file content = Ends r -> In (status r) [200; 206; 304].
Proof.
  unfold send.send. destruct (send.transfer W req file); intros [= <-]; simpl; tauto.
Qed.

Lemma static_skips W req : is_get_or_head req = false -> serveStatic W req = Next.
Proof. unfold serveStatic. by intros ->. Qed.

Lemma static_absent W req file :
  send.lookup (dirname W) (path req) = Some file ->
  fs W file = Absent ->
  serveStatic W req = Next.
Proof. unfold serveStatic. intros -> ->. by destruct (negb _). Qed.

Lemma static_file W req file content :
  is_get_or_head req = true ->
  send.lookup (dirname W) (path req) = Some file ->
  fs W file = File content ->
  serveStatic W req = send.send W req file content.
Proof. unfold serveStatic. by intros -> -> ->. Qed.

Lemma static_status W req r :
  serveStatic W req = Ends r -> In (status r) [200; 206; 301; 304].
Proof.
  unfold serveStatic.
  destruct (negb (is_get_or_head req)); [discriminate|].
  destruct (send.lookup (dirname W) (path req)) as [file|]; [|discriminate].
  destruct (fs W file) as [| |content]; [discriminate| |].
  - destruct (Text.ends_with_slash (path req)); [discriminate|].
    intros [= <-]. simpl. tauto.
  - intros Hs. apply send_status in Hs. simpl in *. tauto.
Qed.

Lemma sendFile_status W req file r :
  res_sendFile W req file = Ends r -> In (status r) [200; 206; 304].
Proof.
  unfold res_sendFile. destruct (fs W file) as [| |content]; [discriminate..|].
  apply send_status.
Qed.

Lemma get_or_head_not_preflight req : is_get_or_head req = true -> preflight req = false.
Proof.
  unfold is_get_or_head, preflight. intros [H|H]%orb_prop; apply String.eqb_eq in H;
    by rewrite H.
Qed.

Section Files.

Context (W : World) (now : Z) (req : Request).

Lemma dynamic_middleware :
  Forall (fun l => exists h, handler l = Middleware h) (dynamic W now).
Proof. repeat constructor; eexists; reflexivity. Qed.

(** What the static layer answers is the answer; an error it raises
    goes past every route to the error handler. *)
Lemma routing_static c :
  walk (routing W now) None req c
  = match serveStatic W req with
    | Ends r => (c, [StaticAssets], Done r)
    | Next =>
        let '(c', tr, s) := walk (dynamic W now ++ fallbacks W now) None req c in
        (c', StaticAssets :: tr, s)
    | NextErr e =>
        (print (err_message e) c, [StaticAssets; ErrorHandler], Done (error_response W e))
    end.
Proof.
  rewrite routing_split.
  destruct (serveStatic W req) as [r| |e] eqn:Hs.
  - generalize (dynamic W now ++ fallbacks W now). intros later.
    cbn [walk use matches handler stage express_static fst snd]. by rewrite Hs.
  - generalize (dynamic W now ++ fallbacks W now). intros later.
    cbn [walk use matches handler stage express_static fst snd]. by rewrite Hs.
  - pose proof (walk_pending_all req (dynamic W now) (fallbacks W now) e c
                  dynamic_middleware) as Hp.
    rewrite fallbacks_error in Hp. revert Hp.
    generalize (dynamic W now ++ fallbacks W now). intros later Hp.
    cbn [walk use matches handler stage express_static fst snd]. rewrite Hs.
    cbn [fst snd]. by rewrite Hp.
Qed.

(** A page route that is reached: what [res.sendFile] makes of its
    document decides. *)
Lemma routing_page_at n pattern parts c :
  dynamic W now !! n = Some (get_page W pattern parts) ->
  forallb (fun l => negb (matches l req)) (take n (dynamic W now)) = true ->
  matches (get_page W pattern parts) req = true ->
  forallb (fun l => negb (matches l req)) (drop (S n) (dynamic W now)) = true ->
  serveStatic W req = Next ->
  walk (routing W now) None req c
  = match res_sendFile W req (Posix.join (dirname W :: parts)) with
    | Ends r => (c, [StaticAssets; Page pattern], Done r)
    | Next => (c, [StaticAssets; Page pattern; NotFound], Done (not_found_response req))
    | NextErr e =>
        (print (err_message e) c, [StaticAssets; Page pattern; ErrorHandler],
         Done (error_response W e))
    end.
Proof.
  intros Hl Hbefore Hm Hafter Ha.
  rewrite (routing_reaches W now req n _ c Ha Hl Hbefore).
  rewrite (walk_taken req _ _ c (page W parts)); [|exact Hm|reflexivity].
  unfold page. cbn [fst snd stage get_page get].
  destruct (res_sendFile W req (Posix.join (dirname W :: parts))) as [r| |e];
    [reflexivity| |].
  - rewrite walk_app, (walk_none_match req _ c Hafter), fallbacks_unmatched.
    reflexivity.
  - rewrite walk_pending_all by (apply Forall_drop, dynamic_middleware).
    rewrite fallbacks_error. reflexivity.
Qed.

End Files.

(** ** What the layers answer *)

Section Answers.

Context (req : Request) (P : Response -> Prop).

(** A property that every answer of every matching layer has is a
    property of the response. *)
Lemma walk_answers stack err c c' tr r :
  Forall (answers_have P req) stack ->
  walk stack err req c = (c', tr, Done r) ->
  P r.
Proof.
  intros Hall. revert err c c' tr.
  induction Hall as [|l stack Hl _ IH]; intros err c c' tr; simpl; [discriminate|].
  unfold answers_have in Hl.
  destruct (matches l req); [specialize (Hl eq_refl)|apply IH].
  destruct (handler l) as [h|h], err as [e|]; try apply IH.
  - specialize (Hl c). destruct (h req c) as [c0 [res| |e]]; cbn [fst snd] in *.
    + intros [= <- <- <-]. by apply Hl.
    + destruct (walk stack None req c0) as [[c1 tr1] s1] eqn:Hw.
      intros [= <- <- ->]. by eapply IH.
    + destruct (walk stack (Some e) req c0) as [[c1 tr1] s1] eqn:Hw.
      intros [= <- <- ->]. by eapply IH.
  - specialize (Hl e c). destruct (h e req c) as [c0 [res| |e']]; cbn [fst snd] in *.
    + intros [= <- <- <-]. by apply Hl.
    + destruct (walk stack None req c0) as [[c1 tr1] s1] eqn:Hw.
      intros [= <- <- ->]. by eapply IH.
    + destruct (walk stack (Some e') req c0) as [[c1 tr1] s1] eqn:Hw.
      intros [= <- <- ->]. by eapply IH.
Qed.

End Answers.

Section Statuses.

Context (W : World) (req : Request).

Lemma page_within parts c r :
  snd (page W parts req c) = Ends r -> within W req r.
Proof.
  unfold page. cbn [snd]. intros Hr%sendFile_status. left. simpl in *. tauto.
Qed.

Lemma api_within g c r :
  mount_matches (mount_path g) (path req) = true ->
  snd (api W g req c) = Ends r -> within W req r.
Proof.
  intros Hm. unfold api. cbn [snd].
  destruct (group W g req) as [r'| |e] eqn:Hg; intros [= <-].
  right. by exists g.
Qed.

Lemma static_within c r :
  snd (express_static W req c) = Ends r -> within W req r.
Proof.
  unfold express_static. cbn [snd]. intros Hs%static_status. left. simpl in *. tauto.
Qed.

Lemma json_within code obj r :
  res_json W req code obj = r -> In code own_statuses -> within W req r.
Proof.
  unfold res_json, res_send. intros <- Hin. left.
  destruct (fresh W req _); [simpl; tauto|exact Hin].
Qed.

Lemma app_answers_within now : Forall (answers_have (within W req) req) (app W now).
Proof.
  unfold app.
  repeat (apply Forall_cons; split; [|]); try (by apply Forall_nil);
    unfold answers_have;
    cbn [handler matches use use_at get get_page]; intros Hm;
    first
      [ apply page_within | intros c r; apply api_within; exact Hm | apply static_within
      | intros c r; cbn; discriminate
      | intros c r; cbn [snd start health not_found error_handler]; intros [= <-];
        first [ left; simpl; tauto | eapply json_within; [reflexivity|simpl; tauto] ]
      | intros e c r; cbn [snd error_handler]; intros [= <-];
        eapply json_within; [reflexivity|simpl; tauto]
      | idtac ].
  - intros c r. rewrite limiter_handle. cbn [snd].
    destruct (limiter.max <? _); intros [= <-]. left. simpl. tauto.
  - intros c r. unfold cors.handle. destruct (String.eqb (method req) "OPTIONS");
      cbn [snd]; intros [= <-]. left. simpl. tauto.
  - intros c r. unfold bodyParser.json, bodyParser.decode.
    destruct (req_body c); [discriminate|].
    destruct (bodyParser.read _ _ req) as [[j|e]|]; discriminate.
  - intros c r. unfold bodyParser.urlencoded, bodyParser.decode.
    destruct (req_body c); [discriminate|].
    destruct (bodyParser.read _ _ req) as [[j|e]|]; discriminate.
Qed.

End Statuses.

(** Every response is the answer of a layer: it has one of the statuses
    of server.js, or it is what a route group answered to a request
    under its prefix. *)
Lemma respond_within W now srv req :
  exists r, within W req r /\ status (respond W now srv req) = status r.
Proof.
  unfold respond, handle.
  destruct (app_answers W now req srv) as (c & r & Hw). rewrite Hw.
  cbn [fst snd finish on_wire status]. exists r. split; [|reflexivity].
  exact (walk_answers req _ _ _ _ _ _ _ (app_answers_within W req now) Hw).
Qed.

(** ** C7: [/start] *)

Section Start.

Context (W : World) (now : Z) (req : Request).
Hypothesis Hpath : path req = "/start".
Hypothesis Hget : is_get_or_head req = true.

Lemma routing_start c :
  serveStatic W req = Next ->
  walk (routing W now) None req c
  = (c, [StaticAssets; Page "/start"], Done (res_redirect "/launcher")).
Proof.
  intros Ha.
  rewrite (routing_reaches W now req 9 (get (Page "/start") "/start" start) c Ha);
    [|reflexivity|route_by Hpath].
  rewrite (walk_taken req _ _ c start); [reflexivity| |reflexivity].
  cbn [matches get]. rewrite Hpath, Hget. reflexivity.
Qed.

End Start.

(** C7, as the code has it.  Every GET request to /start that the rate
    limiter admits, whose body, if it has one, the decoders do not refuse
    (whatever the reason might be: character set, content encoding, size
    or syntax), and for which no file or directory named start lies in
    the static root, is answered by the route: status 302, a Location
    header whose value is exactly /launcher, and the redirect notice for
    a body, never a document. *)
Theorem start_redirects (W : World) (now : Z) (srv : Server) (req : Request) :
  method req = "GET" ->
  path req = "/start" ->
  admitted now srv req = true ->
  refused W req = None ->
  fs W (dirname W +:+ "/start") = Absent ->
  status (respond W now srv req) = 302
  /\ In ("Location", "/launcher") (res_headers (respond W now srv req))
  /\ body (respond W now srv req) = RedirectNotice "/launcher"
  /\ trace W now srv req = pipeline_stages ++ [StaticAssets; Page "/start"].
Proof.
  intros Hm Hp Ha Hr Hfs.
  assert (Hg := get_is_get_or_head req Hm).
  assert (Hs : serveStatic W req = Next).
  { apply (static_absent W req (dirname W +:+ "/start")); [|exact Hfs].
    rewrite Hp. reflexivity. }
  destruct (routed W now req srv _ _ _ Ha (get_is_not_preflight req Hm) Hr
              (routing_start W now req Hp Hg _ Hs)) as [-> ->].
  unfold on_wire. rewrite Hm. cbn [status res_headers body res_redirect].
  repeat split; try reflexivity.
  apply in_or_app. right. by left.
Qed.

Lemma start_redirects_witness :
  status (respond (Sample.world None) 5 fresh_server (Sample.plain "GET" "/start")) = 302
  /\ In ("Location", "/launcher")
        (res_headers (respond (Sample.world None) 5 fresh_server
                              (Sample.plain "GET" "/start")))
  /\ body (respond (Sample.world None) 5 fresh_server (Sample.plain "GET" "/start"))
     = RedirectNotice "/launcher"
  /\ trace (Sample.world None) 5 fresh_server (Sample.plain "GET" "/start")
     = pipeline_stages ++ [StaticAssets; Page "/start"].
Proof.
  apply (start_redirects (Sample.world None) 5 fresh_server (Sample.plain "GET" "/start"));
    reflexivity.
Defined.

(** C7 as stated fails: the 101st request of a client within its window
    is a GET request to /start and is answered 429, not 302. *)
Lemma start_rate_limited :
  method (Sample.plain "GET" "/start") = "GET"
  /\ path (Sample.plain "GET" "/start") = "/start"
  /\ status (respond (Sample.world None) 5 Sample.exhausted (Sample.plain "GET" "/start"))
     = 429
  /\ assoc "Location"
       (res_headers (respond (Sample.world None) 5 Sample.exhausted
                             (Sample.plain "GET" "/start")))
     = None.
Proof. vm_compute. done. Qed.

(** ** C9: the admin dashboard *)

Section Dashboard.

Context (W : World) (now : Z) (req : Request).
Hypothesis Hpath : path req = "/admin/dashboard".

Lemma routing_dashboard c :
  is_get_or_head req = true ->
  serveStatic W req = Next ->
  walk (routing W now) None req c
  = match res_sendFile W req (dashboard_file W) with
    | Ends r => (c, [StaticAssets; Page "/admin/dashboard"], Done r)
    | Next =>
        (c, [StaticAssets; Page "/admin/dashboard"; NotFound],
         Done (not_found_response req))
    | NextErr e =>
        (print (err_message e) c,
         [StaticAssets; Page "/admin/dashboard"; ErrorHandler],
         Done (error_response W e))
    end.
Proof.
  intros Hg Ha.
  apply (routing_page_at W now req 14 "/admin/dashboard" ["admin"; "index.html"] c);
    [reflexivity|route_by Hpath| |route_by Hpath|exact Ha].
  cbn [matches get get_page]. rewrite Hpath, Hg. reflexivity.
Qed.

(** The path lies under no mounted prefix, so whatever the method, the
    headers and the state of the server, the status of the answer is one
    of those the layers of server.js give themselves. *)
Lemma dashboard_statuses srv :
  In (status (respond W now srv req)) own_statuses.
Proof.
  destruct (respond_within W now srv req) as (r & [Hin|(g & Hg & _)] & ->);
    [exact Hin|].
  rewrite Hpath in Hg. destruct g; discriminate Hg.
Qed.

End Dashboard.

(** C9, as the code has it.  A GET request to /admin/dashboard that
    carries no validator and no range (no If-Match, If-Unmodified-Since,
    If-None-Match, If-Modified-Since or Range header), that the rate
    limiter admits and whose body, if it has one, the decoders do not
    refuse, is answered 200 with the admin dashboard document, whatever
    else it carries and so also with no credentials of any kind (provided
    the document admin/index.html exists and nothing named
    admin/dashboard lies in the static root).  And no request for that
    path, whatever its method and headers and in any state of the server,
    is answered 401 or 403. *)
Theorem dashboard_unguarded (W : World) (now : Z) (srv : Server) (req : Request)
        (doc : string) :
  method req = "GET" ->
  path req = "/admin/dashboard" ->
  send.unconditional req = true ->
  admitted now srv req = true ->
  refused W req = None ->
  fs W (dashboard_file W) = File doc ->
  fs W (dirname W +:+ "/admin/dashboard") = Absent ->
  (status (respond W now srv req) = 200
   /\ body (respond W now srv req) = Document (dashboard_file W) doc
   /\ trace W now srv req = pipeline_stages ++ [StaticAssets; Page "/admin/dashboard"])
  /\ (forall now' srv' req',
        path req' = "/admin/dashboard" ->
        status (respond W now' srv' req') <> 401
        /\ status (respond W now' srv' req') <> 403).
Proof.
  intros Hm Hp Hu Ha Hr Hdoc Hfs. split.
  - assert (Hg := get_is_get_or_head req Hm).
    assert (Hs : serveStatic W req = Next).
    { apply (static_absent W req (dirname W +:+ "/admin/dashboard")); [|exact Hfs].
      rewrite Hp. reflexivity. }
    pose proof (routing_dashboard W now req Hp (cleared W now srv req) Hg Hs) as Hw.
    unfold res_sendFile in Hw. rewrite Hdoc, (send_whole W req _ _ Hu) in Hw.
    destruct (routed W now req srv _ _ _ Ha (get_is_not_preflight req Hm) Hr Hw)
      as [-> ->].
    unfold on_wire. rewrite Hm. done.
  - intros now' srv' req' Hp'.
    pose proof (dashboard_statuses W now' req' Hp' srv') as Hin.
    simpl in Hin. lia.
Qed.

Lemma dashboard_unguarded_witness :
  (status (respond (Sample.world None) 5 fresh_server
                   (Sample.plain "GET" "/admin/dashboard")) = 200
   /\ body (respond (Sample.world None) 5 fresh_server
                    (Sample.plain "GET" "/admin/dashboard"))
      = Document (dashboard_file (Sample.world None)) "<h1>Dashboard</h1>"
   /\ trace (Sample.world None) 5 fresh_server (Sample.plain "GET" "/admin/dashboard")
      = pipeline_stages ++ [StaticAssets; Page "/admin/dashboard"])
  /\ (forall now' srv' req',
        path req' = "/admin/dashboard" ->
        status (respond (Sample.world None) now' srv' req') <> 401
        /\ status (respond (Sample.world None) now' srv' req') <> 403).
Proof.
  apply (dashboard_unguarded (Sample.world None) 5 fresh_server
           (Sample.plain "GET" "/admin/dashboard") "<h1>Dashboard</h1>");
    reflexivity.
Defined.

(** C9 as stated fails: a GET request to /admin/dashboard without
    credentials that is the 101st of its client's window is answered 429,
    without the document. *)
Lemma dashboard_rate_limited :
  req_headers (Sample.plain "GET" "/admin/dashboard") = []
  /\ status (respond (Sample.world None) 5 Sample.exhausted
                     (Sample.plain "GET" "/admin/dashboard")) = 429
  /\ body (respond (Sample.world None) 5 Sample.exhausted
                   (Sample.plain "GET" "/admin/dashboard"))
     = TextBody "Too many requests, please try again later.".
Proof. vm_compute. done. Qed.

(** ** C2 and C10: the 404 handler *)

Lemma unmatched_response W now srv req :
  admitted now srv req = true ->
  preflight req = false ->
  refused W req = None ->
  serveStatic W req = Next ->
  forallb (fun l => negb (matches l req)) (dynamic W now) = true ->
  status (respond W now srv req) = 404
  /\ body (respond W now srv req)
     = (if String.eqb (method req) "HEAD" then NoContent
        else JsonBody (not_found_json req))
  /\ trace W now srv req = pipeline_stages ++ [StaticAssets; NotFound].
Proof.
  intros Ha Hp Hr Hs Hd.
  destruct (routed W now req srv _ _ _ Ha Hp Hr
              (routing_unmatched W now req _ Hs Hd)) as [-> ->].
  done.
Qed.

(** C2, as the code has it.  For every HTTP method other than OPTIONS and
    every request for which the static layer has nothing to answer
    (nothing lies under the path as send decodes and normalises it),
    whose path lies under no mounted API prefix, matches no page route
    and, for GET and HEAD, is not the health check either, a request that
    the rate limiter admits and whose body the decoders do not refuse
    (whatever the reason might be: character set, content encoding, size
    or syntax) is answered 404 with the body [{error: "Route not found",
    message: "Cannot <METHOD> <path>"}], built from the request's own
    method and path; a HEAD request gets the status without the body. *)
Theorem unmatched_is_404 (W : World) (now : Z) (srv : Server) (req : Request) :
  serveStatic W req = Next ->
  under_api_prefix (path req) = false ->
  is_page_path (path req) = false ->
  is_health_path (path req) && is_get_or_head req = false ->
  preflight req = false ->
  admitted now srv req = true ->
  refused W req = None ->
  status (respond W now srv req) = 404
  /\ body (respond W now srv req)
     = (if String.eqb (method req) "HEAD" then NoContent
        else JsonBody (JObject
               [("error", JString "Route not found");
                ("message", JString ("Cannot " +:+ method req +:+ " " +:+ path req))]))
  /\ trace W now srv req = pipeline_stages ++ [StaticAssets; NotFound].
Proof.
  intros Hs Hapi Hpage Hhealth Hp Ha Hr.
  apply unmatched_response; try done.
  apply dynamic_unmatched; [done|]. rewrite Hpage. exact Hhealth.
Qed.

Lemma unmatched_is_404_witness :
  status (respond (Sample.world None) 5 fresh_server (Sample.plain "DELETE" "/cart/7")) = 404
  /\ body (respond (Sample.world None) 5 fresh_server (Sample.plain "DELETE" "/cart/7"))
     = (if String.eqb (method (Sample.plain "DELETE" "/cart/7")) "HEAD" then NoContent
        else JsonBody (JObject
               [("error", JString "Route not found");
                ("message",
                 JString ("Cannot " +:+ method (Sample.plain "DELETE" "/cart/7") +:+ " "
                            +:+ path (Sample.plain "DELETE" "/cart/7")))]))
  /\ trace (Sample.world None) 5 fresh_server (Sample.plain "DELETE" "/cart/7")
     = pipeline_stages ++ [StaticAssets; NotFound].
Proof.
  apply (unmatched_is_404 (Sample.world None) 5 fresh_server
           (Sample.plain "DELETE" "/cart/7"));
    reflexivity.
Defined.

Example unmatched_message :
  body (respond (Sample.world None) 5 fresh_server (Sample.plain "DELETE" "/cart/7"))
  = JsonBody (JObject [("error", JString "Route not found");
                       ("message", JString "Cannot DELETE /cart/7")]).
Proof. vm_compute. reflexivity. Qed.

(** C2 as stated fails: /api/health is no static file, lies under no
    mounted prefix and is not one of the page routes, yet a GET of it is
    answered 200 by the health check. *)
Lemma health_is_not_404 :
  serveStatic (Sample.world None) (Sample.plain "GET" "/api/health") = Next
  /\ under_api_prefix "/api/health" = false
  /\ is_page_path "/api/health" = false
  /\ status (respond (Sample.world None) 5 fresh_server (Sample.plain "GET" "/api/health"))
     = 200.
Proof. vm_compute. done. Qed.

(** None of the eight page paths lies under a mounted prefix. *)
Lemma page_paths_not_api p : In p page_patterns -> under_api_prefix p = false.
Proof.
  intros Hin. simpl in Hin.
  repeat (destruct Hin as [<-|Hin]; [reflexivity|]). destruct Hin.
Qed.

Lemma page_paths_are_pages p : In p page_patterns -> is_page_path p = true.
Proof.
  intros Hin. simpl in Hin.
  repeat (destruct Hin as [<-|Hin]; [reflexivity|]). destruct Hin.
Qed.

(** C10, as the code has it.  The eight page routes answer GET and HEAD
    only.  A request to one of their paths with any other method except
    OPTIONS, admitted by the rate limiter and with a body the decoders do
    not refuse (whatever the reason might be: character set, content
    encoding, size or syntax), falls through every route to the 404
    handler and receives the 404 JSON response.  (An OPTIONS request never gets that far: the
    CORS stage answers it 204.) *)
Theorem page_routes_get_only (W : World) (now : Z) (srv : Server) (req : Request) :
  In (path req) page_patterns ->
  is_get_or_head req = false ->
  preflight req = false ->
  admitted now srv req = true ->
  refused W req = None ->
  status (respond W now srv req) = 404
  /\ body (respond W now srv req)
     = JsonBody (JObject
         [("error", JString "Route not found");
          ("message", JString ("Cannot " +:+ method req +:+ " " +:+ path req))])
  /\ trace W now srv req = pipeline_stages ++ [StaticAssets; NotFound].
Proof.
  intros Hin Hg Hp Ha Hr.
  assert (Hs : serveStatic W req = Next) by (by apply static_skips).
  assert (Hd : forallb (fun l => negb (matches l req)) (dynamic W now) = true).
  { apply dynamic_unmatched; [by apply page_paths_not_api|].
    rewrite Hg. apply andb_false_r. }
  destruct (routed W now req srv _ _ _ Ha Hp Hr
              (routing_unmatched W now req _ Hs Hd)) as [-> ->].
  unfold is_get_or_head in Hg. apply orb_false_elim in Hg as [_ Hhead].
  unfold on_wire. rewrite Hhead. done.
Qed.

Lemma page_routes_get_only_witness :
  status (respond (Sample.world None) 5 fresh_server
                  (Sample.plain "POST" "/admin/dashboard")) = 404
  /\ body (respond (Sample.world None) 5 fresh_server
                   (Sample.plain "POST" "/admin/dashboard"))
     = JsonBody (JObject
         [("error", JString "Route not found");
          ("message",
           JString ("Cannot " +:+ method (Sample.plain "POST" "/admin/dashboard") +:+ " "
                      +:+ path (Sample.plain "POST" "/admin/dashboard")))])
  /\ trace (Sample.world None) 5 fresh_server (Sample.plain "POST" "/admin/dashboard")
     = pipeline_stages ++ [StaticAssets; NotFound].
Proof.
  apply (page_routes_get_only (Sample.world None) 5 fresh_server
           (Sample.plain "POST" "/admin/dashboard"));
    [simpl; tauto|reflexivity..].
Defined.

(** C10 as stated fails: OPTIONS is neither GET nor HEAD, and an OPTIONS
    request to /start is answered 204 by the CORS stage; it never reaches
    the 404 handler.  Nor does a POST to /start that is the 101st request
    of its client's window: it is answered 429. *)
Lemma options_is_not_404 :
  In (path (Sample.plain "OPTIONS" "/start")) page_patterns
  /\ is_get_or_head (Sample.plain "OPTIONS" "/start") = false
  /\ serveStatic (Sample.world None) (Sample.plain "OPTIONS" "/start") = Next
  /\ under_api_prefix (path (Sample.plain "OPTIONS" "/start")) = false
  /\ status (respond (Sample.world None) 5 fresh_server (Sample.plain "OPTIONS" "/start"))
     = 204
  /\ trace (Sample.world None) 5 fresh_server (Sample.plain "OPTIONS" "/start")
     = [SecurityHeaders; RateLimiter; AccessLogger; CorsPolicy]
  /\ is_get_or_head (Sample.plain "POST" "/start") = false
  /\ status (respond (Sample.world None) 5 Sample.exhausted (Sample.plain "POST" "/start"))
     = 429.
Proof. split; [simpl; tauto|]. vm_compute. done. Qed.

(** ** C3 and C4: errors *)

Section Errors.

Context (W : World) (now : Z) (req : Request).

(** The error handler is invoked only with an error, and what it
    answers is its answer for that error. *)
Lemma error_handler_answers stack err c c' tr s :
  walk (stack ++ fallbacks W now) err req c = (c', tr, s) ->
  ErrorHandler ∉ map stage stack ->
  ErrorHandler ∈ tr ->
  exists e, s = Done (error_response W e).
Proof.
  intros Hw Hno Hin. rewrite walk_app in Hw.
  pose proof (walk_in_order req stack err c) as Ho.
  destruct (walk stack err req c) as [[c1 tr1] [r1|[e1|]]]; cbn [fst snd] in Ho.
  - injection Hw as <- <- <-. destruct Hno. by eapply elem_of_sublist.
  - rewrite fallbacks_error in Hw. injection Hw as <- <- <-. by exists e1.
  - rewrite fallbacks_unmatched in Hw. injection Hw as <- <- <-.
    apply elem_of_app in Hin as [Hin|Hin].
    + destruct Hno. by eapply elem_of_sublist.
    + apply list_elem_of_singleton in Hin. discriminate Hin.
Qed.

Lemma app_closed : app W now = take 24 (app W now) ++ fallbacks W now.
Proof. reflexivity. Qed.

Lemma error_handler_status srv :
  ErrorHandler ∈ trace W now srv req ->
  exists e, respond W now srv req
            = on_wire req (fst (fst (walk (app W now) None req (blank srv))))
                      (error_response W e).
Proof.
  unfold trace, respond, handle.
  destruct (walk (app W now) None req (blank srv)) as [[c tr] s] eqn:Hw.
  cbn [fst snd]. intros Hin. rewrite app_closed in Hw.
  destruct (error_handler_answers _ _ _ _ _ _ Hw) as [e ->]; [|done|by exists e].
  vm_compute. intros Hin'.
  repeat (apply elem_of_cons in Hin' as [Hin'|Hin']; [discriminate Hin'|]).
  by apply elem_of_nil in Hin'.
Qed.

End Errors.

Lemma is_development_iff W :
  is_development W = true <-> NODE_ENV W = Some "development".
Proof.
  unfold is_development. destruct (NODE_ENV W) as [v|]; [|done].
  destruct (String.eqb_spec v "development"); split; congruence.
Qed.

(** C4, as the code has it.  Whichever layer in front of the error
    handler raises an error [e] (the walk then goes on behind that layer
    with [e] pending), the error handler is the next layer invoked: it
    prints the error and answers with status 500 and the body [{error:
    "Something went wrong!", message}], where [message] is the raw error
    message when NODE_ENV is exactly 'development' and the generic
    "Internal server error" for every other value of NODE_ENV, set or
    unset.  Every response that comes from the error handler has status
    500. *)
Theorem error_message_by_environment (W : World) (now : Z) (req : Request) (e : Error) :
  (forall n c,
      (n <= 24)%nat ->
      walk (drop n (app W now)) (Some e) req c
      = (print (err_message e) c, [ErrorHandler],
         Done (mkResponse 500 [json_type]
                 (JsonBody (JObject
                    [("error", JString "Something went wrong!");
                     ("message",
                      JString (if is_development W then err_message e
                               else "Internal server error"))])))))
  /\ (is_development W = true <-> NODE_ENV W = Some "development")
  /\ (forall srv,
        ErrorHandler ∈ trace W now srv req -> status (respond W now srv req) = 500).
Proof.
  split; [|split].
  - intros n c Hn. exact (error_anywhere W now req n e c Hn).
  - apply is_development_iff.
  - intros srv Hin. destruct (error_handler_status W now req srv Hin) as [e' ->].
    reflexivity.
Qed.

Lemma error_message_by_environment_witness :
  walk (drop 8 (app (Sample.world (Some "development")) 5))
       (Some (mkError "database is locked" None))
       (Sample.plain "GET" "/api/auth/login") (blank fresh_server)
  = (print "database is locked" (blank fresh_server), [ErrorHandler],
     Done (mkResponse 500 [json_type]
             (JsonBody (JObject
                [("error", JString "Something went wrong!");
                 ("message", JString "database is locked")])))).
Proof.
  apply (proj1 (error_message_by_environment (Sample.world (Some "development")) 5
                  (Sample.plain "GET" "/api/auth/login")
                  (mkError "database is locked" None))
               8%nat (blank fresh_server)).
  lia.
Defined.

(** C4 as stated fails: with NODE_ENV unset, or set to 'test', the
    configuration is not production, and yet the message is the generic
    one, not the message of the error the auth routes raised. *)
Lemma non_production_hides_message :
  NODE_ENV (Sample.world None) <> Some "production"
  /\ NODE_ENV (Sample.world (Some "test")) <> Some "production"
  /\ group (Sample.world None) authRoutes (Sample.plain "GET" "/api/auth/login")
     = Fails (mkError "database is locked" None)
  /\ respond (Sample.world None) 5 fresh_server (Sample.plain "GET" "/api/auth/login")
     = respond (Sample.world (Some "test")) 5 fresh_server
               (Sample.plain "GET" "/api/auth/login")
  /\ status (respond (Sample.world None) 5 fresh_server
                     (Sample.plain "GET" "/api/auth/login")) = 500
  /\ body (respond (Sample.world None) 5 fresh_server
                   (Sample.plain "GET" "/api/auth/login"))
     = JsonBody (JObject [("error", JString "Something went wrong!");
                          ("message", JString "Internal server error")]).
Proof. vm_compute. done. Qed.

(** What a decoder gets out of a plain body: one that is not
    compressed, has the decoder's media type and a character set the
    decoder takes and the platform decodes, and lies within the limit. *)
Lemma received_identity W d req raw decode :
  raw_body req = Some raw ->
  bodyParser.type_is W req (bodyParser.media d) = true ->
  bodyParser.accepts d (bodyParser.charset W req) = true ->
  bodyParser.encoding req = "identity" ->
  bodyParser.over raw = false ->
  iconv W (bodyParser.charset W req) = Some decode ->
  bodyParser.received W d req = Some (inl (decode raw)).
Proof.
  unfold bodyParser.received. intros -> -> -> -> -> ->.
  by rewrite andb_false_r.
Qed.

(** C3, as the code has it.  Take a request with a body that the JSON
    decoder reads to the end (the body has the media type
    application/json and a character set of the UTF family, it is not
    compressed or it inflates, and it lies within the size limit) and
    whose text is not empty and does not parse.  Once the rate limiter
    has admitted it, and unless it is an OPTIONS request, the decoder
    fails it with a bad-request (400) error; it reaches neither the
    static files nor any route, only the error handler, which surfaces
    the failure as status 500 (not 4xx) with the structured body [{error:
    "Something went wrong!", message}]. *)
Theorem malformed_json_is_500 (W : World) (now : Z) (srv : Server) (req : Request)
        (text msg : string) :
  bodyParser.received W bodyParser.JsonBodies req = Some (inl text) ->
  text <> EmptyString ->
  JSON_parse W text = inr msg ->
  admitted now srv req = true ->
  preflight req = false ->
  refused W req = Some (mkError msg (Some 400))
  /\ status (respond W now srv req) = 500
  /\ body (respond W now srv req)
     = (if String.eqb (method req) "HEAD" then NoContent
        else JsonBody (JObject
               [("error", JString "Something went wrong!");
                ("message",
                 JString (if is_development W then msg else "Internal server error"))]))
  /\ trace W now srv req
     = [SecurityHeaders; RateLimiter; AccessLogger; CorsPolicy; JsonDecoder; ErrorHandler].
Proof.
  intros Htext Hne Hparse Ha Hp.
  assert (Hread : bodyParser.read W bodyParser.JsonBodies req
                  = Some (inr (mkError msg (Some 400)))).
  { unfold bodyParser.read, bodyParser.parse. rewrite Htext, Hparse.
    destruct (String.eqb_spec text EmptyString); [done|reflexivity]. }
  assert (Hr : refused W req = Some (mkError msg (Some 400))).
  { unfold refused. by rewrite Hread. }
  split; [exact Hr|].
  unfold respond, trace. rewrite (handle_refused _ _ _ _ _ Ha Hp Hr), Hread. done.
Qed.

Lemma malformed_json_is_500_witness :
  refused (Sample.world None) broken_order
  = Some (mkError "Unexpected token in JSON" (Some 400))
  /\ status (respond (Sample.world None) 5 fresh_server broken_order) = 500
  /\ body (respond (Sample.world None) 5 fresh_server broken_order)
     = (if String.eqb (method broken_order) "HEAD" then NoContent
        else JsonBody (JObject
               [("error", JString "Something went wrong!");
                ("message",
                 JString (if is_development (Sample.world None)
                          then "Unexpected token in JSON"
                          else "Internal server error"))]))
  /\ trace (Sample.world None) 5 fresh_server broken_order
     = [SecurityHeaders; RateLimiter; AccessLogger; CorsPolicy; JsonDecoder; ErrorHandler].
Proof.
  apply (malformed_json_is_500 (Sample.world None) 5 fresh_server broken_order
           "{oops" "Unexpected token in JSON");
    [reflexivity|discriminate|reflexivity..].
Defined.

(** The same body announced in a character set outside the UTF family
    is refused before anything is read, with 415; the caller sees 500
    all the same. *)
Example latin1_json_is_refused :
  refused (Sample.world None)
          (mkRequest "POST" "/api/orders"
                     [("content-type", "application/json; charset=latin1")]
                     (Some "{oops") "203.0.113.7")
  = Some (mkError ("unsupported charset " +:+ Text.quoted "LATIN1") (Some 415))
  /\ status (respond (Sample.world None) 5 fresh_server
                     (mkRequest "POST" "/cart"
                                [("content-type", "application/json; charset=latin1")]
                                (Some "{}") "203.0.113.7")) = 500.
Proof. vm_compute. done. Qed.

(** C3 as stated fails: the malformed body is answered with status 500,
    which is not a 4xx status. *)
Lemma malformed_json_not_4xx :
  raw_body broken_order = Some "{oops"
  /\ JSON_parse (Sample.world None) "{oops" = inr "Unexpected token in JSON"
  /\ status (respond (Sample.world None) 5 fresh_server broken_order) = 500
  /\ ~ (400 <= status (respond (Sample.world None) 5 fresh_server broken_order) < 500).
Proof.
  assert (Hs : status (respond (Sample.world None) 5 fresh_server broken_order) = 500)
    by (vm_compute; reflexivity).
  rewrite Hs. repeat split; lia.
Qed.

(** ** C8: the CORS allow-list *)

Lemma walk_keeps_sent req stack err c :
  Forall keeps_sent stack ->
  sent (fst (fst (walk stack err req c))) = sent c.
Proof.
  intros Hk. revert err c.
  induction Hk as [|l stack Hl _ IH]; intros err c; simpl; [reflexivity|].
  unfold keeps_sent in Hl.
  destruct (matches l req); [|apply IH].
  destruct (handler l) as [h|h], err as [e|]; try apply IH.
  - specialize (Hl req c). destruct (h req c) as [c0 [res| |e]]; simpl in *; [done|..].
    + specialize (IH None c0). destruct (walk stack None req c0) as [[c1 tr1] s1].
      simpl in *. congruence.
    + specialize (IH (Some e) c0). destruct (walk stack (Some e) req c0) as [[c1 tr1] s1].
      simpl in *. congruence.
  - specialize (Hl e req c). destruct (h e req c) as [c0 [res| |e']]; simpl in *; [done|..].
    + specialize (IH None c0). destruct (walk stack None req c0) as [[c1 tr1] s1].
      simpl in *. congruence.
    + specialize (IH (Some e') c0). destruct (walk stack (Some e') req c0) as [[c1 tr1] s1].
      simpl in *. congruence.
Qed.

Lemma routing_keeps_sent W now : Forall keeps_sent (routing W now).
Proof. repeat constructor. Qed.

Section Cors.

Context (req : Request) (o : string).
Hypothesis Horigin : header req "origin" = Some o.

Lemma allowed_origin_reflected :
  In ("Access-Control-Allow-Origin", o) (cors_headers req) <-> In o cors.origin.
Proof.
  unfold cors_headers, cors.configureOrigin, cors.isOriginAllowed. rewrite Horigin.
  destruct (existsb (String.eqb o) cors.origin) eqn:He.
  - split; [intros _|intros _; by left].
    apply existsb_exists in He as [x [Hx Heq]].
    apply String.eqb_eq in Heq. by subst.
  - split.
    + simpl. intros [H|[H|[]]]; discriminate H.
    + intros Hin. assert (existsb (String.eqb o) cors.origin = true); [|congruence].
      apply existsb_exists. exists o. split; [done|apply String.eqb_refl].
Qed.

(** The only origin the stage ever grants is the request's own, and only
    when it is on the list. *)
Lemma granted_origin v :
  In ("Access-Control-Allow-Origin", v) (cors_headers req) ->
  v = o /\ In o cors.origin.
Proof.
  intros Hin.
  assert (Hv : v = o).
  { revert Hin. unfold cors_headers, cors.configureOrigin. rewrite Horigin.
    destruct (cors.isOriginAllowed (Some o)); simpl;
      intros H; repeat (destruct H as [H|H]; [congruence|]); destruct H. }
  subst v. split; [reflexivity|]. by apply allowed_origin_reflected.
Qed.

Lemma credentials_allowed :
  In ("Access-Control-Allow-Credentials", "true") (cors_headers req).
Proof. unfold cors_headers. apply in_or_app. right. by left. Qed.

End Cors.

Section Grants.

Context (W : World) (now : Z) (req : Request).
Hypothesis Hgroups :
  forall g r, mount_matches (mount_path g) (path req) = true ->
              group W g req = Answers r -> grants_none (res_headers r).

Lemma send_grants file content r :
  send.send W req file content = Ends r -> grants_none (res_headers r).
Proof.
  unfold send.send. destruct (send.transfer W req file); intros [= <-] v [].
Qed.

Lemma json_grants code obj : grants_none (res_headers (res_json W req code obj)).
Proof.
  unfold res_json, res_send. destruct (fresh W req _); intros v H; [destruct H|].
  destruct H as [H|[]]. discriminate H.
Qed.

Lemma routing_grants :
  Forall (answers_have (fun r => grants_none (res_headers r)) req) (routing W now).
Proof.
  unfold routing, app. cbn [drop].
  repeat (apply Forall_cons; split; [|]); try (by apply Forall_nil);
    unfold answers_have;
    cbn [handler matches use use_at get get_page]; intros Hm;
    first
      [ intros c r; unfold page, res_sendFile; cbn [snd];
        destruct (fs W _); try discriminate; apply send_grants
      | intros c r; unfold api; cbn [snd];
        destruct (group W _ req) as [r'| |e] eqn:Hg; intros [= <-];
        by apply (Hgroups _ r' Hm)
      | intros c r; cbn [snd start health not_found]; intros [= <-];
        first [ apply json_grants | intros v [H|[]]; discriminate H ]
      | intros e c r; cbn [snd error_handler]; intros [= <-]; apply json_grants
      | idtac ].
  intros c r. unfold express_static, serveStatic. cbn [snd].
  destruct (negb (is_get_or_head req)); [discriminate|].
  destruct (send.lookup (dirname W) (path req)) as [file|]; [|discriminate].
  destruct (fs W file) as [| |content]; [discriminate| |apply send_grants].
  destruct (Text.ends_with_slash (path req)); [discriminate|].
  intros [= <-] v [H|[]]. discriminate H.
Qed.

(** The headers of a response to a request the limiter admits: those of
    helmet and the limiter, those of the CORS stage for the request's
    origin, and then headers that grant no origin. *)
Lemma admitted_headers srv :
  admitted now srv req = true ->
  exists rest,
    res_headers (respond W now srv req) = stamped W now srv req ++ cors_headers req ++ rest
    /\ grants_none rest.
Proof.
  intros Ha. unfold respond, cors_headers.
  destruct (preflight req) eqn:Hp.
  { rewrite handle_preflight by done. cbn [fst snd res_headers].
    eexists. rewrite <- !app_assoc. split; [reflexivity|].
    intros v. unfold cors.configureMethods, cors.configureAllowedHeaders.
    destruct (header req "access-control-request-headers") as [h|];
      [destruct (String.eqb h EmptyString)|]; simpl;
      intros H; repeat (destruct H as [H|H]; [discriminate H|]); destruct H. }
  destruct (refused W req) as [e|] eqn:Hr.
  { rewrite (handle_refused _ _ _ _ e) by done.
    cbn [fst snd on_wire res_headers labelled sent error_response].
    eexists. rewrite <- !app_assoc. split; [reflexivity|].
    intros v [H|[]]. discriminate H. }
  rewrite handle_routed by done.
  pose proof (walk_keeps_sent req (routing W now) None (cleared W now srv req)
                (routing_keeps_sent W now)) as Hk.
  destruct (routing_answers W now req None (cleared W now srv req)) as (c & tr & r & Hw).
  pose proof (walk_answers req _ _ _ _ _ _ _ routing_grants Hw) as Hg.
  rewrite Hw in *. cbn [fst snd on_wire res_headers finish] in *. rewrite Hk.
  cbn [cleared sent]. exists (res_headers r). rewrite <- !app_assoc. by split.
Qed.

End Grants.

(** C8, as the code has it.  Take a request that carries an Origin
    header and that the rate limiter admits (the limiter runs before the
    CORS stage), in a deployment where helmet and the limiter set no
    [Access-Control-Allow-Origin] of their own and no route group sets
    one on its answer to this request.  The response then carries
    [Access-Control-Allow-Origin] if and only if the origin is, character
    for character, one of the four entries of the allow-list, and the
    value it carries is that origin and no other; for any other origin
    the response has no [Access-Control-Allow-Origin] header at all.
    [Access-Control-Allow-Credentials: true] is on the response for every
    origin.  And the request is processed all the same: unless it is a
    preflight, it goes on to the body decoders. *)
Theorem cors_allow_list (W : World) (now : Z) (srv : Server) (req : Request) (o : string) :
  header req "origin" = Some o ->
  admitted now srv req = true ->
  (forall v, ~ In ("Access-Control-Allow-Origin", v) (stamped W now srv req)) ->
  (forall g r,
      mount_matches (mount_path g) (path req) = true ->
      group W g req = Answers r ->
      forall v, ~ In ("Access-Control-Allow-Origin", v) (res_headers r)) ->
  (In o cors.origin
   <-> o = "http://localhost:3000" \/ o = "http://127.0.0.1:3000"
       \/ o = "http://localhost:8000" \/ o = "http://127.0.0.1:8000")
  /\ (In ("Access-Control-Allow-Origin", o) (res_headers (respond W now srv req))
      <-> In o cors.origin)
  /\ (forall v,
        In ("Access-Control-Allow-Origin", v) (res_headers (respond W now srv req)) ->
        v = o)
  /\ (~ In o cors.origin ->
      forall v,
        ~ In ("Access-Control-Allow-Origin", v) (res_headers (respond W now srv req)))
  /\ In ("Access-Control-Allow-Credentials", "true") (res_headers (respond W now srv req))
  /\ (preflight req = false ->
      exists rest,
        trace W now srv req
        = [SecurityHeaders; RateLimiter; AccessLogger; CorsPolicy; JsonDecoder] ++ rest).
Proof.
  intros Ho Ha Hstamped Hgroups.
  destruct (admitted_headers W now req Hgroups srv Ha) as (rest & Hh & Hrest).
  assert (Hgranted : forall v,
             In ("Access-Control-Allow-Origin", v) (res_headers (respond W now srv req)) ->
             v = o /\ In o cors.origin).
  { intros v Hin. rewrite Hh in Hin.
    apply in_app_or in Hin as [Hin|Hin]; [by apply Hstamped in Hin|].
    apply in_app_or in Hin as [Hin|Hin]; [|by apply Hrest in Hin].
    by apply (granted_origin req o Ho). }
  split; [simpl; intuition congruence|].
  split; [|split; [|split; [|split]]].
  - split; [intros Hin; apply Hgranted in Hin; tauto|].
    intros Hin. rewrite Hh. apply in_or_app. right. apply in_or_app. left.
    by apply (allowed_origin_reflected req o Ho).
  - intros v Hin. apply Hgranted in Hin. tauto.
  - intros Hno v Hin. apply Hgranted in Hin. tauto.
  - rewrite Hh. apply in_or_app. right. apply in_or_app. left.
    apply credentials_allowed.
  - intros Hp. unfold trace.
    destruct (refused W req) as [e|] eqn:Hr.
    + rewrite (handle_refused _ _ _ _ e) by done.
      destruct (bodyParser.read _ _ req); eexists; reflexivity.
    + rewrite handle_routed by done.
      destruct (walk (routing W now) None req (cleared W now srv req)) as [[c tr] s].
      eexists. reflexivity.
Qed.

Lemma cors_allow_list_witness :
  (In "http://localhost:3000" cors.origin
   <-> "http://localhost:3000" = "http://localhost:3000"
       \/ "http://localhost:3000" = "http://127.0.0.1:3000"
       \/ "http://localhost:3000" = "http://localhost:8000"
       \/ "http://localhost:3000" = "http://127.0.0.1:8000")
  /\ (In ("Access-Control-Allow-Origin", "http://localhost:3000")
         (res_headers (respond (Sample.world None) 5 fresh_server
                               (from_origin "http://localhost:3000")))
      <-> In "http://localhost:3000" cors.origin)
  /\ (forall v,
        In ("Access-Control-Allow-Origin", v)
           (res_headers (respond (Sample.world None) 5 fresh_server
                                 (from_origin "http://localhost:3000"))) ->
        v = "http://localhost:3000")
  /\ (~ In "http://localhost:3000" cors.origin ->
      forall v,
        ~ In ("Access-Control-Allow-Origin", v)
             (res_headers (respond (Sample.world None) 5 fresh_server
                                   (from_origin "http://localhost:3000"))))
  /\ In ("Access-Control-Allow-Credentials", "true")
        (res_headers (respond (Sample.world None) 5 fresh_server
                              (from_origin "http://localhost:3000")))
  /\ (preflight (from_origin "http://localhost:3000") = false ->
      exists rest,
        trace (Sample.world None) 5 fresh_server (from_origin "http://localhost:3000")
        = [SecurityHeaders; RateLimiter; AccessLogger; CorsPolicy; JsonDecoder] ++ rest).
Proof.
  apply (cors_allow_list (Sample.world None) 5 fresh_server
           (from_origin "http://localhost:3000") "http://localhost:3000").
  - reflexivity.
  - reflexivity.
  - intros v Hin. vm_compute in Hin.
    repeat (destruct Hin as [Hin|Hin]; [discriminate Hin|]). destruct Hin.
  - intros g r _ Hg v Hin. destruct g; vm_compute in Hg; try discriminate Hg.
    injection Hg as <-. destruct Hin.
Defined.

(** The headers of a health check from a listed origin and from another
    one. *)
Example response_headers_by_origin :
  map (fun o => res_headers (respond (Sample.world None) 5 fresh_server (from_origin o)))
      ["http://localhost:3000"; "http://evil.example"]
  = [[("X-Content-Type-Options", "nosniff"); ("X-RateLimit-Limit", "100");
      ("Access-Control-Allow-Origin", "http://localhost:3000"); ("Vary", "Origin");
      ("Access-Control-Allow-Credentials", "true"); json_type];
     [("X-Content-Type-Options", "nosniff"); ("X-RateLimit-Limit", "100");
      ("Vary", "Origin"); ("Access-Control-Allow-Credentials", "true"); json_type]].
Proof. vm_compute. reflexivity. Qed.

Example cors_headers_allowed :
  cors_headers (from_origin "http://localhost:3000")
  = [("Access-Control-Allow-Origin", "http://localhost:3000"); ("Vary", "Origin");
     ("Access-Control-Allow-Credentials", "true")].
Proof. reflexivity. Qed.

Example cors_headers_other :
  cors_headers (from_origin "http://evil.example")
  = [("Vary", "Origin"); ("Access-Control-Allow-Credentials", "true")].
Proof. reflexivity. Qed.

(** C8 as stated fails: a request from an allow-listed origin that the
    limiter turns away is answered without any CORS header. *)
Lemma allowed_origin_rate_limited :
  header (from_origin "http://localhost:3000") "origin" = Some "http://localhost:3000"
  /\ In "http://localhost:3000" cors.origin
  /\ res_headers (respond (Sample.world None) 5 Sample.exhausted
                          (from_origin "http://localhost:3000"))
     = [("X-Content-Type-Options", "nosniff"); ("X-RateLimit-Limit", "100")]
  /\ assoc "Access-Control-Allow-Origin"
       (res_headers (respond (Sample.world None) 5 Sample.exhausted
                             (from_origin "http://localhost:3000")))
     = None.
Proof. split; [reflexivity|]. split; [simpl; tauto|]. vm_compute. done. Qed.

(** ** The text of a timestamp *)

Section Digits.

Lemma digit_code n : N_of_ascii (JSDate.digit n) = (48 + Z.to_N (n mod 10))%N.
Proof.
  unfold JSDate.digit. apply N_ascii_embedding.
  assert (0 <= n mod 10 < 10) by (apply Z.mod_pos_bound; lia). lia.
Qed.

Lemma is_digit_digit n : is_digit (JSDate.digit n) = true.
Proof.
  unfold is_digit. rewrite digit_code.
  assert (0 <= n mod 10 < 10) by (apply Z.mod_pos_bound; lia).
  apply andb_true_intro. split; apply N.leb_le; lia.
Qed.

Lemma digit_compare a b :
  Ascii.compare (JSDate.digit a) (JSDate.digit b) = (a mod 10 ?= b mod 10).
Proof.
  unfold Ascii.compare. rewrite !digit_code.
  assert (0 <= a mod 10 < 10) by (apply Z.mod_pos_bound; lia).
  assert (0 <= b mod 10 < 10) by (apply Z.mod_pos_bound; lia).
  rewrite <- N2Z.inj_compare, !N2Z.inj_add, !Z2N.id by lia.
  apply Z.add_compare_mono_l.
Qed.

Lemma length_append x y :
  String.length (x +:+ y) = (String.length x + String.length y)%nat.
Proof. induction x as [|a x IH]; simpl; [reflexivity|by rewrite IH]. Qed.

Lemma pad_length k n : String.length (JSDate.pad k n) = k.
Proof.
  revert n. induction k as [|k IH]; intros n; [reflexivity|].
  cbn [JSDate.pad]. rewrite length_append, IH. simpl. lia.
Qed.

Lemma compare_append x y u v :
  String.length x = String.length y ->
  String.compare (x +:+ u) (y +:+ v)
  = match String.compare x y with
    | Eq => String.compare u v
    | r => r
    end.
Proof.
  revert y. induction x as [|a x IH]; intros [|b y] Hlen; try discriminate Hlen.
  - reflexivity.
  - simpl. destruct (Ascii.compare a b); [|reflexivity..].
    apply IH. simpl in Hlen. lia.
Qed.

Lemma compare_same_prefix x u v :
  String.compare (x +:+ u) (x +:+ v) = String.compare u v.
Proof.
  induction x as [|a x IH]; [reflexivity|].
  simpl. assert (Ha : Ascii.compare a a = Eq); [|by rewrite Ha].
  unfold Ascii.compare. apply N.compare_refl.
Qed.

(** Numbers padded to the same width compare as texts the way they
    compare as numbers. *)
Lemma pad_compare k a b :
  0 <= a < 10 ^ Z.of_nat k ->
  0 <= b < 10 ^ Z.of_nat k ->
  String.compare (JSDate.pad k a) (JSDate.pad k b) = (a ?= b).
Proof.
  revert a b. induction k as [|k IH]; intros a b Ha Hb.
  - simpl in *. assert (a = 0) by lia. assert (b = 0) by lia. by subst.
  - cbn [JSDate.pad].
    rewrite Nat2Z.inj_succ, Z.pow_succ_r in Ha, Hb by lia.
    rewrite compare_append by (by rewrite !pad_length).
    rewrite IH by (Z.div_mod_to_equations; lia).
    simpl String.compare. rewrite digit_compare.
    destruct (Z.compare_spec (a / 10) (b / 10)) as [He|Hl|Hg].
    + destruct (Z.compare_spec (a mod 10) (b mod 10));
        symmetry; [apply Z.compare_eq_iff|apply Z.compare_lt_iff|apply Z.compare_gt_iff];
        Z.div_mod_to_equations; lia.
    + symmetry. apply Z.compare_lt_iff. Z.div_mod_to_equations; lia.
    + symmetry. apply Z.compare_gt_iff. Z.div_mod_to_equations; lia.
Qed.

End Digits.

Section Calendar.

Import JSDate.

Lemma year_of_era_spec doe :
  0 <= doe <= 146096 ->
  0 <= year_of_era doe <= 399
  /\ days_before_year (year_of_era doe) <= doe
  /\ doe - days_before_year (year_of_era doe) <= 365
  /\ (doe < days_before_year (year_of_era doe + 1) \/ year_of_era doe = 399).
Proof.
  intros H. unfold year_of_era, days_before_year. Z.div_mod_to_equations. lia.
Qed.

Lemma month_index_spec doy :
  0 <= doy <= 365 ->
  0 <= month_index doy <= 11
  /\ days_before_month (month_index doy) <= doy
  /\ doy < days_before_month (month_index doy + 1)
  /\ doy - days_before_month (month_index doy) <= 30.
Proof.
  intros H. unfold month_index, days_before_month. Z.div_mod_to_equations. lia.
Qed.

Lemma days_before_year_mono a b :
  a < b -> days_before_year (a + 1) <= days_before_year b.
Proof. unfold days_before_year. intros. Z.div_mod_to_equations. lia. Qed.

Lemma days_before_month_mono a b :
  a < b -> days_before_month (a + 1) <= days_before_month b.
Proof. unfold days_before_month. intros. Z.div_mod_to_equations. lia. Qed.

(** A later day has a later date. *)
Lemma civil_lt z1 z2 :
  z1 < z2 ->
  let '(y1, m1, d1) := civil z1 in
  let '(y2, m2, d2) := civil z2 in
  y1 < y2 \/ (y1 = y2 /\ (m1 < m2 \/ (m1 = m2 /\ d1 < d2))).
Proof.
  intros Hlt. unfold civil. cbv zeta.
  assert (He : (z1 + 719468) / 146097 < (z2 + 719468) / 146097
               \/ ((z1 + 719468) / 146097 = (z2 + 719468) / 146097
                   /\ (z1 + 719468) mod 146097 < (z2 + 719468) mod 146097))
    by (Z.div_mod_to_equations; lia).
  assert (Hd1 : 0 <= (z1 + 719468) mod 146097 <= 146096)
    by (Z.div_mod_to_equations; lia).
  assert (Hd2 : 0 <= (z2 + 719468) mod 146097 <= 146096)
    by (Z.div_mod_to_equations; lia).
  revert He Hd1 Hd2.
  generalize ((z1 + 719468) / 146097) ((z2 + 719468) / 146097)
             ((z1 + 719468) mod 146097) ((z2 + 719468) mod 146097).
  intros e1 e2 doe1 doe2 He Hd1 Hd2.
  destruct (year_of_era_spec doe1 Hd1) as (Hy1 & Hf1 & Hdoy1 & Hn1).
  destruct (year_of_era_spec doe2 Hd2) as (Hy2 & Hf2 & Hdoy2 & Hn2).
  pose proof (days_before_year_mono (year_of_era doe1) (year_of_era doe2)) as Hm12.
  pose proof (days_before_year_mono (year_of_era doe2) (year_of_era doe1)) as Hm21.
  assert (Hfe : year_of_era doe1 = year_of_era doe2 ->
                days_before_year (year_of_era doe1) = days_before_year (year_of_era doe2))
    by (by intros ->).
  revert Hy1 Hf1 Hdoy1 Hn1 Hy2 Hf2 Hdoy2 Hn2 Hm12 Hm21 Hfe.
  generalize (days_before_year (year_of_era doe1 + 1))
             (days_before_year (year_of_era doe2 + 1)).
  generalize (days_before_year (year_of_era doe1))
             (days_before_year (year_of_era doe2)).
  generalize (year_of_era doe1) (year_of_era doe2).
  intros yoe1 yoe2 f1 f2 n1 n2 Hy1 Hf1 Hdoy1 Hn1 Hy2 Hf2 Hdoy2 Hn2 Hm12 Hm21 Hfe.
  assert (Hdy1 : 0 <= doe1 - f1 <= 365) by lia.
  assert (Hdy2 : 0 <= doe2 - f2 <= 365) by lia.
  destruct (month_index_spec _ Hdy1) as (Hp1 & Hg1 & Hh1 & Hdd1).
  destruct (month_index_spec _ Hdy2) as (Hp2 & Hg2 & Hh2 & Hdd2).
  pose proof (days_before_month_mono (month_index (doe1 - f1)) (month_index (doe2 - f2)))
    as Hg12.
  pose proof (days_before_month_mono (month_index (doe2 - f2)) (month_index (doe1 - f1)))
    as Hg21.
  assert (Hge : month_index (doe1 - f1) = month_index (doe2 - f2) ->
                days_before_month (month_index (doe1 - f1))
                = days_before_month (month_index (doe2 - f2)))
    by (by intros ->).
  revert Hp1 Hg1 Hh1 Hdd1 Hp2 Hg2 Hh2 Hdd2 Hg12 Hg21 Hge.
  generalize (days_before_month (month_index (doe1 - f1) + 1))
             (days_before_month (month_index (doe2 - f2) + 1)).
  generalize (days_before_month (month_index (doe1 - f1)))
             (days_before_month (month_index (doe2 - f2))).
  generalize (month_index (doe1 - f1)) (month_index (doe2 - f2)).
  intros mp1 mp2 g1 g2 h1 h2 Hp1 Hg1 Hh1 Hdd1 Hp2 Hg2 Hh2 Hdd2 Hg12 Hg21 Hge.
  destruct (mp1 <? 10) eqn:E1; [apply Z.ltb_lt in E1|apply Z.ltb_ge in E1];
  destruct (mp2 <? 10) eqn:E2; [apply Z.ltb_lt in E2|apply Z.ltb_ge in E2| | ];
  try apply Z.ltb_lt in E2; try apply Z.ltb_ge in E2;
  repeat match goal with
         | |- context [?a <=? ?b] =>
             let E := fresh "E" in
             destruct (a <=? b) eqn:E;
             [apply Z.leb_le in E|apply Z.leb_gt in E]
         end;
  lia.
Qed.

Lemma civil_range day :
  0 <= day <= 2932896 ->
  let '(y, m, d) := civil day in
  1970 <= y <= 9999 /\ 1 <= m <= 12 /\ 1 <= d <= 31.
Proof.
  intros H. unfold civil, year_of_era, days_before_year, month_index, days_before_month.
  cbv zeta.
  repeat match goal with
         | |- context [if ?b then _ else _] =>
             let E := fresh "E" in
             destruct b eqn:E;
             [try apply Z.ltb_lt in E; try apply Z.leb_le in E
             |try apply Z.ltb_ge in E; try apply Z.leb_gt in E]
         end;
  Z.div_mod_to_equations; lia.
Qed.

End Calendar.

Section Timestamps.

Import JSDate.

Lemma time_fields w :
  0 <= w < msPerDay ->
  0 <= w / 3600000 < 100
  /\ 0 <= (w / 60000) mod 60 < 100
  /\ 0 <= (w / 1000) mod 60 < 100
  /\ 0 <= w mod 1000 < 1000.
Proof. unfold msPerDay. intros. Z.div_mod_to_equations. lia. Qed.

Lemma time_fields_lt a b :
  0 <= a < b -> b < msPerDay ->
  a / 3600000 < b / 3600000
  \/ (a / 3600000 = b / 3600000
      /\ ((a / 60000) mod 60 < (b / 60000) mod 60
          \/ ((a / 60000) mod 60 = (b / 60000) mod 60
              /\ ((a / 1000) mod 60 < (b / 1000) mod 60
                  \/ ((a / 1000) mod 60 = (b / 1000) mod 60
                      /\ a mod 1000 < b mod 1000))))).
Proof. unfold msPerDay. intros. Z.div_mod_to_equations. lia. Qed.

Lemma day_and_time t :
  four_digit_year t ->
  0 <= Day t <= 2932896 /\ 0 <= TimeWithinDay t < msPerDay
  /\ t = Day t * msPerDay + TimeWithinDay t.
Proof.
  unfold four_digit_year, Day, TimeWithinDay, msPerDay. intros.
  Z.div_mod_to_equations. lia.
Qed.

(** With a four-digit year the text has 24 characters, laid out as
    [YYYY-MM-DDTHH:mm:ss.sssZ]. *)
Lemma toISOString_text t :
  four_digit_year t ->
  toISOString t
  = pad 4 (fst (fst (civil (Day t)))) +:+ "-"
      +:+ pad 2 (snd (fst (civil (Day t)))) +:+ "-"
      +:+ pad 2 (snd (civil (Day t))) +:+ "T"
      +:+ pad 2 (HourFromTime t) +:+ ":" +:+ pad 2 (MinFromTime t) +:+ ":"
      +:+ pad 2 (SecFromTime t) +:+ "." +:+ pad 3 (msFromTime t) +:+ "Z".
Proof.
  intros Ht. destruct (day_and_time t Ht) as (Hd & _ & _).
  pose proof (civil_range (Day t) Hd) as Hr.
  unfold toISOString. destruct (civil (Day t)) as [[y m] d]. cbn [fst snd].
  unfold year_text.
  destruct Hr as (Hy & _ & _).
  assert (Hin : (0 <=? y) && (y <=? 9999) = true).
  { apply andb_true_intro. split; apply Z.leb_le; lia. }
  by rewrite Hin.
Qed.

Lemma toISOString_shape t : four_digit_year t -> iso_shape (toISOString t) = true.
Proof.
  intros Ht. rewrite (toISOString_text t Ht).
  cbv [pad String.append iso_shape forallb].
  rewrite !is_digit_digit. reflexivity.
Qed.

(** A later reading of the clock gives a text that is later in the
    order of strings. *)
Lemma toISOString_lt t1 t2 :
  four_digit_year t1 ->
  four_digit_year t2 ->
  t1 < t2 ->
  String.compare (toISOString t1) (toISOString t2) = Lt.
Proof.
  intros H1 H2 Hlt.
  rewrite (toISOString_text t1 H1), (toISOString_text t2 H2).
  destruct (day_and_time t1 H1) as (Hd1 & Hw1 & Ht1).
  destruct (day_and_time t2 H2) as (Hd2 & Hw2 & Ht2).
  pose proof (civil_range (Day t1) Hd1) as Hr1.
  pose proof (civil_range (Day t2) Hd2) as Hr2.
  assert (Hdays : Day t1 < Day t2
                  \/ (Day t1 = Day t2 /\ TimeWithinDay t1 < TimeWithinDay t2))
    by (unfold msPerDay in *; lia).
  assert (Hdate : Day t1 < Day t2 ->
                  let '(y1, m1, d1) := civil (Day t1) in
                  let '(y2, m2, d2) := civil (Day t2) in
                  y1 < y2 \/ (y1 = y2 /\ (m1 < m2 \/ (m1 = m2 /\ d1 < d2))))
    by apply civil_lt.
  assert (Hsame : Day t1 = Day t2 -> civil (Day t1) = civil (Day t2))
    by (by intros ->).
  pose proof (time_fields _ Hw1) as Hf1.
  pose proof (time_fields _ Hw2) as Hf2.
  assert (Htime : TimeWithinDay t1 < TimeWithinDay t2 -> _)
    by (intros Hw; exact (time_fields_lt _ _ (conj (proj1 Hw1) Hw) (proj2 Hw2))).
  unfold HourFromTime, MinFromTime, SecFromTime, msFromTime.
  revert Hdays Hf1 Hf2 Htime.
  generalize (TimeWithinDay t1) (TimeWithinDay t2). intros w1 w2.
  destruct (civil (Day t1)) as [[y1 m1] d1], (civil (Day t2)) as [[y2 m2] d2].
  cbn [fst snd]. intros Hdays Hf1 Hf2 Htime.
  repeat first
    [ rewrite compare_same_prefix
    | rewrite compare_append by (by rewrite !pad_length) ].
  rewrite !pad_compare by (simpl; lia).
  assert (Heq : y1 = y2 /\ m1 = m2 /\ d1 = d2 \/ Day t1 < Day t2).
  { destruct Hdays as [Hd|[Hd _]]; [by right|left].
    specialize (Hsame Hd). by injection Hsame. }
  repeat match goal with
         | |- context [?a ?= ?b] => destruct (Z.compare_spec a b)
         end;
    try reflexivity; exfalso; lia.
Qed.

End Timestamps.

(** ** C6: the health check *)

Section HealthRoute.

Context (W : World) (now : Z) (req : Request).
Hypothesis Hpath : path req = "/api/health".
Hypothesis Hget : is_get_or_head req = true.

Lemma routing_health c :
  serveStatic W req = Next ->
  walk (routing W now) None req c
  = (c, [StaticAssets; Health], Done (res_send W req (health_response now))).
Proof.
  intros Ha.
  rewrite (routing_reaches W now req 16 (get Health "/api/health" (health W now)) c Ha);
    [|reflexivity|route_by Hpath].
  rewrite (walk_taken req _ _ c (health W now)); [reflexivity| |reflexivity].
  cbn [matches get]. rewrite Hpath, Hget. reflexivity.
Qed.

End HealthRoute.



(** The two answers of the route, by example: the plain request gets
    the body, the one that presents [If-None-Match: *] gets 304. *)
Example health_plain_and_fresh :
  map (fun req => (status (respond (Sample.world None) 1000 fresh_server req),
                   body (respond (Sample.world None) 1000 fresh_server req)))
      [Sample.plain "GET" "/api/health";
       Sample.carrying "if-none-match" "*" "GET" "/api/health"]
  = [(200, JsonBody (health_json 1000)); (304, NoContent)].
Proof. vm_compute. reflexivity. Qed.


(** * Further properties of the pipeline *)

(** ** The access log *)

Lemma walk_keeps_watched req stack err c :
  Forall keeps_watched stack ->
  watched (fst (fst (walk stack err req c))) = watched c.
Proof.
  intros Hk. revert err c.
  induction Hk as [|l stack Hl _ IH]; intros err c; simpl; [reflexivity|].
  unfold keeps_watched in Hl.
  destruct (matches l req); [|apply IH].
  destruct (handler l) as [h|h], err as [e|]; try apply IH.
  - specialize (Hl req c). destruct (h req c) as [c0 [res| |e]]; simpl in *; [done|..].
    + specialize (IH None c0). destruct (walk stack None req c0) as [[c1 tr1] s1].
      simpl in *. congruence.
    + specialize (IH (Some e) c0). destruct (walk stack (Some e) req c0) as [[c1 tr1] s1].
      simpl in *. congruence.
  - specialize (Hl e req c). destruct (h e req c) as [c0 [res| |e']]; simpl in *; [done|..].
    + specialize (IH None c0). destruct (walk stack None req c0) as [[c1 tr1] s1].
      simpl in *. congruence.
    + specialize (IH (Some e') c0). destruct (walk stack (Some e') req c0) as [[c1 tr1] s1].
      simpl in *. congruence.
Qed.

Lemma routing_keeps_watched W now : Forall keeps_watched (routing W now).
Proof. repeat constructor. Qed.

(** One request: a line is appended exactly when the limiter admits the
    request, and it carries the status that was sent. *)
Lemma access_log_step W now srv req :
  access_log (after W now srv req)
  = access_log srv
      ++ (if admitted now srv req
          then [(method req, path req, status (respond W now srv req))]
          else []).
Proof.
  unfold after, respond.
  destruct (admitted now srv req) eqn:Ha.
  2:{ rewrite handle_rejected by done. cbn [fst access_log]. by rewrite app_nil_r. }
  destruct (preflight req) eqn:Hp; [by rewrite handle_preflight|].
  destruct (refused W req) as [e|] eqn:Hr; [by rewrite (handle_refused _ _ _ _ e)|].
  rewrite handle_routed by done.
  pose proof (walk_keeps_watched req (routing W now) None (cleared W now srv req)
                (routing_keeps_watched W now)) as Hk.
  destruct (walk (routing W now) None req (cleared W now srv req)) as [[c tr] s].
  cbn [fst snd] in *. rewrite Hk. reflexivity.
Qed.

Lemma logger_reached W now srv req :
  existsb is_logger (trace W now srv req) = admitted now srv req.
Proof.
  destruct (admitted now srv req) eqn:Ha.
  - destruct (trace_admitted W now srv req Ha) as [rest ->]. reflexivity.
  - destruct (trace_rejected W now srv req Ha) as [-> _]. reflexivity.
Qed.

(** X1. Over any run of the server, the access log grows by exactly one
    line, with method, path and the status sent, for each request that
    reached the access logger, in order of arrival; a request the limiter
    turned away leaves no line, and no earlier line is ever changed. *)
Theorem access_log_of_run (W : World) (arrivals : list (Z * Request)) (srv : Server) :
  access_log (run W srv arrivals)
  = access_log srv ++ log_lines arrivals (serve W srv arrivals).
Proof.
  revert srv. induction arrivals as [|[now req] arrivals IH]; intros srv.
  - simpl. by rewrite app_nil_r.
  - cbn [run serve log_lines]. rewrite IH, access_log_step, <- app_assoc.
    unfold log_line. cbn [fst snd]. by rewrite logger_reached.
Qed.

(** ** Headers, quota, preflight *)

(** X2. Helmet is the first layer, so its headers lead the headers of
    every response, whatever becomes of the request: a 429 of the
    limiter, a preflight answer, an error, a 404, a document. *)
Theorem security_headers_always (W : World) (now : Z) (srv : Server) (req : Request) :
  exists rest, res_headers (respond W now srv req) = helmet_headers W ++ rest.
Proof.
  unfold respond.
  destruct (admitted now srv req) eqn:Ha.
  2:{ rewrite handle_rejected by done. cbn [fst snd on_wire res_headers counted sent].
      unfold stamped. eexists. rewrite <- !app_assoc. reflexivity. }
  destruct (preflight req) eqn:Hp.
  { rewrite handle_preflight by done. cbn [fst snd res_headers]. unfold stamped.
    eexists. rewrite <- !app_assoc. reflexivity. }
  destruct (refused W req) as [e|] eqn:Hr.
  { rewrite (handle_refused _ _ _ _ e) by done.
    cbn [fst snd on_wire res_headers labelled sent]. unfold stamped.
    eexists. rewrite <- !app_assoc. reflexivity. }
  rewrite handle_routed by done.
  pose proof (walk_keeps_sent req (routing W now) None (cleared W now srv req)
                (routing_keeps_sent W now)) as Hk.
  destruct (walk (routing W now) None req (cleared W now srv req)) as [[c tr] s].
  cbn [fst snd on_wire res_headers] in *. rewrite Hk. cbn [cleared sent]. unfold stamped.
  eexists. rewrite <- !app_assoc. reflexivity.
Qed.

(** X3. Inside a client's running window every one of its requests adds
    one to its count, whatever the request is and whatever becomes of it
    (served, not found, failed, preflight, or turned away: the count goes
    on past the maximum); the end of the window stays where it was; and
    the entries of all other clients are left as they were. *)
Theorem every_request_counts (W : World) (k : string) (w : Window) (srv : Server)
        (arrivals : list (Z * Request)) :
  store srv !! k = Some w ->
  (forall t req, In (t, req) arrivals -> ip req = k -> t < resetTime w) ->
  store (run W srv arrivals) !! k
  = Some (mkWindow (totalHits w + Z.of_nat (seen k arrivals)) (resetTime w))
  /\ (forall k',
        (forall t req, In (t, req) arrivals -> ip req <> k') ->
        store (run W srv arrivals) !! k' = store srv !! k').
Proof.
  intros Hs Hin. split.
  - apply run_counts; [by destruct w|exact Hin].
  - intros k' Hnone. clear Hs Hin. revert srv Hnone.
    induction arrivals as [|[t req] arrivals IH]; intros srv Hnone; [reflexivity|].
    cbn [run]. rewrite IH by (intros t' r' H'; apply (Hnone t' r'); by right).
    rewrite after_store, increment_other; [reflexivity|].
    apply (Hnone t req). by left.
Qed.

Lemma every_request_counts_witness :
  store (run (Sample.world None) Sample.exhausted
             [(10, Sample.plain "GET" "/nowhere"); (20, Sample.plain "OPTIONS" "/start")])
    !! "203.0.113.7"
  = Some (mkWindow (totalHits (mkWindow 100 900000)
                    + Z.of_nat (seen "203.0.113.7"
                                  [(10, Sample.plain "GET" "/nowhere");
                                   (20, Sample.plain "OPTIONS" "/start")]))
                   (resetTime (mkWindow 100 900000)))
  /\ (forall k',
        (forall t req,
            In (t, req) [(10, Sample.plain "GET" "/nowhere");
                         (20, Sample.plain "OPTIONS" "/start")] -> ip req <> k') ->
        store (run (Sample.world None) Sample.exhausted
                   [(10, Sample.plain "GET" "/nowhere");
                    (20, Sample.plain "OPTIONS" "/start")]) !! k'
        = store Sample.exhausted !! k').
Proof.
  apply (every_request_counts (Sample.world None) "203.0.113.7" (mkWindow 100 900000)
           Sample.exhausted).
  - reflexivity.
  - intros t req [H|[H|[]]] _; injection H as <- _; simpl; lia.
Defined.

(** X4. Every OPTIONS request the limiter admits is answered by the CORS
    stage, whatever its path: status 204, no body, the list of allowed
    methods among the headers; neither a body decoder, nor the static
    files, nor any route or route group, nor the 404 handler runs. *)
Theorem preflight_answered_by_cors (W : World) (now : Z) (srv : Server) (req : Request) :
  method req = "OPTIONS" ->
  admitted now srv req = true ->
  status (respond W now srv req) = 204
  /\ body (respond W now srv req) = NoContent
  /\ In ("Access-Control-Allow-Methods", "GET,HEAD,PUT,PATCH,POST,DELETE")
        (res_headers (respond W now srv req))
  /\ trace W now srv req = [SecurityHeaders; RateLimiter; AccessLogger; CorsPolicy].
Proof.
  intros Hm Ha.
  assert (Hp : preflight req = true) by (unfold preflight; by rewrite Hm).
  unfold respond, trace. rewrite handle_preflight by done. cbn [fst snd status body res_headers].
  repeat split; try reflexivity.
  apply in_or_app. right. apply in_or_app. right. apply in_or_app. right.
  apply in_or_app. left. by left.
Qed.

Lemma preflight_answered_by_cors_witness :
  status (respond (Sample.world None) 5 fresh_server
                  (Sample.plain "OPTIONS" "/api/products/7")) = 204
  /\ body (respond (Sample.world None) 5 fresh_server
                   (Sample.plain "OPTIONS" "/api/products/7")) = NoContent
  /\ In ("Access-Control-Allow-Methods", "GET,HEAD,PUT,PATCH,POST,DELETE")
        (res_headers (respond (Sample.world None) 5 fresh_server
                              (Sample.plain "OPTIONS" "/api/products/7")))
  /\ trace (Sample.world None) 5 fresh_server (Sample.plain "OPTIONS" "/api/products/7")
     = [SecurityHeaders; RateLimiter; AccessLogger; CorsPolicy].
Proof.
  apply (preflight_answered_by_cors (Sample.world None) 5 fresh_server
           (Sample.plain "OPTIONS" "/api/products/7"));
    reflexivity.
Defined.

(** ** Static files in front of the routes *)

Lemma routing_file W now req c file content :
  is_get_or_head req = true ->
  send.lookup (dirname W) (path req) = Some file ->
  fs W file = File content ->
  walk (routing W now) None req c
  = match send.transfer W req file with
    | Whole => (c, [StaticAssets], Done (mkResponse 200 [] (Document file content)))
    | Partial part => (c, [StaticAssets], Done (mkResponse 206 [] (Document file part)))
    | NotModified => (c, [StaticAssets], Done (mkResponse 304 [] NoContent))
    | PreconditionFailed =>
        (print (err_message send.precondition_failed) c, [StaticAssets; ErrorHandler],
         Done (error_response W send.precondition_failed))
    | RangeNotSatisfiable =>
        (print (err_message send.range_not_satisfiable) c, [StaticAssets; ErrorHandler],
         Done (error_response W send.range_not_satisfiable))
    end.
Proof.
  intros Hg Hl Hf. rewrite routing_static, (static_file W req file content Hg Hl Hf).
  unfold send.send. destruct (send.transfer W req file); reflexivity.
Qed.

(** What the static layer looks up for a request path: the path is
    decoded and normalised first, a path that climbs out of the root or
    ends in a dotfile names nothing, and a dot directory on the way is no
    obstacle. *)
Example static_lookups :
  map (send.lookup "/srv/backend")
      ["/server.js"; "/launcher%2Ehtml"; "/admin/../server.js"; "/admin/"; "/";
       "/.env"; "/.git/config"; "/../secret"; "/a%2F..%2F..%2Fsecret"; "/100%"]
  = [Some "/srv/backend/server.js"; Some "/srv/backend/launcher.html";
     Some "/srv/backend/server.js"; Some "/srv/backend/admin/index.html";
     Some "/srv/backend/index.html";
     None; Some "/srv/backend/.git/config"; None; None; None].
Proof. vm_compute. reflexivity. Qed.

(** X5. The static root is the directory of server.js itself.  When the
    path of a GET or HEAD request, decoded and normalised as send does
    it, names a file in that directory, and the rate limiter admits the
    request and the decoders do not refuse its body, the static layer
    takes the request and nothing registered behind it is consulted: no
    route group, even for a path under an API prefix, no page route, no
    health check; the only stage that can follow is the error handler.
    The status is 200, 206 or 304, or 500 when send rejects a
    precondition or a range; for a request without validators and
    without a range it is 200 with the file. *)
Theorem static_file_wins (W : World) (now : Z) (srv : Server) (req : Request)
        (file content : string) :
  is_get_or_head req = true ->
  send.lookup (dirname W) (path req) = Some file ->
  fs W file = File content ->
  admitted now srv req = true ->
  refused W req = None ->
  (send.unconditional req = true ->
   status (respond W now srv req) = 200
   /\ body (respond W now srv req)
      = (if String.eqb (method req) "HEAD" then NoContent else Document file content)
   /\ trace W now srv req = pipeline_stages ++ [StaticAssets])
  /\ (forall s, s ∈ trace W now srv req -> is_route s = true -> s = StaticAssets)
  /\ In (status (respond W now srv req)) [200; 206; 304; 500].
Proof.
  intros Hg Hl Hf Ha Hr.
  pose proof (routing_file W now req (cleared W now srv req) file content Hg Hl Hf) as Hw.
  assert (Hstages : forall tr s,
             s ∈ pipeline_stages ++ tr ->
             tr = [StaticAssets] \/ tr = [StaticAssets; ErrorHandler] ->
             is_route s = true -> s = StaticAssets).
  { intros tr s Hin Htr Hroute.
    apply elem_of_app in Hin as [Hin|Hin].
    - unfold pipeline_stages in Hin.
      repeat (apply elem_of_cons in Hin as [->|Hin]; [discriminate Hroute|]).
      by apply elem_of_nil in Hin.
    - destruct Htr as [-> | ->];
        repeat (apply elem_of_cons in Hin as [->|Hin]; [done || discriminate Hroute|]);
        by apply elem_of_nil in Hin. }
  split.
  - intros Hu. unfold send.transfer in Hw. rewrite Hu in Hw.
    destruct (routed W now req srv _ _ _ Ha (get_or_head_not_preflight req Hg) Hr Hw)
      as [-> ->].
    done.
  - destruct (send.transfer W req file);
      destruct (routed W now req srv _ _ _ Ha (get_or_head_not_preflight req Hg) Hr Hw)
        as [-> ->];
      (split; [intros s Hin; apply (Hstages _ s Hin); tauto|simpl; tauto]).
Qed.

Lemma static_file_wins_witness :
  (send.unconditional (Sample.plain "GET" "/launcher%2Ehtml") = true ->
   status (respond (Sample.world None) 5 fresh_server
                   (Sample.plain "GET" "/launcher%2Ehtml")) = 200
   /\ body (respond (Sample.world None) 5 fresh_server
                    (Sample.plain "GET" "/launcher%2Ehtml"))
      = (if String.eqb (method (Sample.plain "GET" "/launcher%2Ehtml")) "HEAD"
         then NoContent
         else Document "/srv/backend/launcher.html" "<h1>Launcher</h1>")
   /\ trace (Sample.world None) 5 fresh_server (Sample.plain "GET" "/launcher%2Ehtml")
      = pipeline_stages ++ [StaticAssets])
  /\ (forall s,
        s ∈ trace (Sample.world None) 5 fresh_server
                  (Sample.plain "GET" "/launcher%2Ehtml") ->
        is_route s = true -> s = StaticAssets)
  /\ In (status (respond (Sample.world None) 5 fresh_server
                         (Sample.plain "GET" "/launcher%2Ehtml")))
        [200; 206; 304; 500].
Proof.
  apply (static_file_wins (Sample.world None) 5 fresh_server
           (Sample.plain "GET" "/launcher%2Ehtml")
           "/srv/backend/launcher.html" "<h1>Launcher</h1>");
    reflexivity.
Defined.

(** The statuses of one file, by the validators the request carries. *)
Example static_file_statuses :
  map (fun req => status (respond (Sample.world None) 5 fresh_server req))
      [Sample.plain "GET" "/server.js";
       Sample.carrying "if-none-match" "*" "GET" "/server.js";
       Sample.carrying "range" "bytes=0-3" "GET" "/server.js";
       Sample.carrying "range" "bytes=900-" "GET" "/server.js";
       Sample.carrying "if-match" "x" "GET" "/server.js"]
  = [200; 304; 206; 500; 500].
Proof. vm_compute. reflexivity. Qed.

(** X6. /admin/ names a directory of the static root.  A GET of /admin/
    without validators and without a range, admitted by the rate limiter
    and with no body the decoders refuse, is answered by the static
    layer with that directory's index.html, the dashboard document,
    whenever it exists; the route of lines 87-89, which would send the
    login page, is not reached. *)
Theorem admin_slash_serves_dashboard (W : World) (now : Z) (srv : Server) (req : Request)
        (doc : string) :
  method req = "GET" ->
  path req = "/admin/" ->
  send.unconditional req = true ->
  fs W (dashboard_file W) = File doc ->
  admitted now srv req = true ->
  refused W req = None ->
  status (respond W now srv req) = 200
  /\ body (respond W now srv req) = Document (dashboard_file W) doc
  /\ trace W now srv req = pipeline_stages ++ [StaticAssets].
Proof.
  intros Hm Hp Hu Hf Ha Hr.
  assert (Hl : send.lookup (dirname W) (path req) = Some (dashboard_file W)).
  { rewrite Hp. reflexivity. }
  pose proof (routing_file W now req (cleared W now srv req) _ doc
                (get_is_get_or_head req Hm) Hl Hf) as Hw.
  unfold send.transfer in Hw. rewrite Hu in Hw.
  destruct (routed W now req srv _ _ _ Ha (get_is_not_preflight req Hm) Hr Hw)
    as [-> ->].
  unfold on_wire. by rewrite Hm.
Qed.

Lemma admin_slash_serves_dashboard_witness :
  status (respond (Sample.world None) 5 fresh_server (Sample.plain "GET" "/admin/")) = 200
  /\ body (respond (Sample.world None) 5 fresh_server (Sample.plain "GET" "/admin/"))
     = Document (dashboard_file (Sample.world None)) "<h1>Dashboard</h1>"
  /\ trace (Sample.world None) 5 fresh_server (Sample.plain "GET" "/admin/")
     = pipeline_stages ++ [StaticAssets].
Proof.
  apply (admin_slash_serves_dashboard (Sample.world None) 5 fresh_server
           (Sample.plain "GET" "/admin/") "<h1>Dashboard</h1>");
    reflexivity.
Defined.



(** ** Bodies over the limit *)

Lemma type_is_one W req a b :
  bodyParser.type_is W req a = true -> a <> b -> bodyParser.type_is W req b = false.
Proof.
  unfold bodyParser.type_is. destruct (header req "content-type") as [v|]; [|done].
  destruct (parse_media_type W v) as [m|]; [|done].
  intros Ha%String.eqb_eq Hne. subst. by apply String.eqb_neq.
Qed.

Lemma doubled_length k s :
  Z.of_nat (String.length (doubled k s)) = 2 ^ Z.of_nat k * Z.of_nat (String.length s).
Proof.
  revert s. induction k as [|k IH]; intros s.
  - simpl. lia.
  - cbn [doubled]. rewrite IH, length_append, Nat2Z.inj_add, Nat2Z.inj_succ.
    rewrite Z.pow_succ_r by lia. lia.
Qed.

(** X8. An uncompressed body of more than 10 MiB that one of the two
    decoders would take (media type application/json with a character
    set of the UTF family that the platform decodes, or
    application/x-www-form-urlencoded in UTF-8) is refused by that
    decoder with a 413 error before anything is parsed.  When the rate limiter has admitted the request and it is not
    an OPTIONS request, it reaches neither the static files nor any route
    or route group, and the error handler answers it with status 500,
    not 413. *)
Theorem oversized_body_is_500 (W : World) (now : Z) (srv : Server) (req : Request)
        (d : bodyParser.Decoder) (raw : string) (decode : string -> string) :
  raw_body req = Some raw ->
  bodyParser.type_is W req (bodyParser.media d) = true ->
  bodyParser.accepts d (bodyParser.charset W req) = true ->
  iconv W (bodyParser.charset W req) = Some decode ->
  bodyParser.encoding req = "identity" ->
  10 * 1024 * 1024 < Z.of_nat (String.length raw) ->
  admitted now srv req = true ->
  preflight req = false ->
  refused W req = Some (mkError "request entity too large" (Some 413))
  /\ status (respond W now srv req) = 500
  /\ body (respond W now srv req)
     = (if String.eqb (method req) "HEAD" then NoContent
        else JsonBody (JObject
               [("error", JString "Something went wrong!");
                ("message",
                 JString (if is_development W then "request entity too large"
                          else "Internal server error"))]))
  /\ (forall s, s ∈ trace W now srv req -> is_route s = false)
  /\ last (trace W now srv req) = Some ErrorHandler.
Proof.
  intros Hraw Htype Hcs Hdec Henc Hsize Ha Hp.
  apply Z.ltb_lt in Hsize.
  assert (Hrec : bodyParser.read W d req = Some (inr bodyParser.too_large)).
  { unfold bodyParser.read, bodyParser.received, bodyParser.over, bodyParser.limit.
    rewrite Hraw, Htype, Hcs, Henc, Hdec, Hsize. cbn [negb String.eqb].
    by destruct (bodyParser.announced req). }
  assert (Hr : refused W req = Some bodyParser.too_large).
  { unfold refused. destruct d; [by rewrite Hrec|].
    assert (Hj : bodyParser.read W bodyParser.JsonBodies req = None).
    { unfold bodyParser.read, bodyParser.received. rewrite Hraw.
      by rewrite (type_is_one W req _ (bodyParser.media bodyParser.JsonBodies) Htype). }
    by rewrite Hj, Hrec. }
  split; [exact Hr|].
  unfold respond, trace. rewrite (handle_refused _ _ _ _ _ Ha Hp Hr).
  cbn [fst snd]. split; [reflexivity|]. split; [reflexivity|].
  destruct (bodyParser.read W bodyParser.JsonBodies req); split;
    try reflexivity; intros st Hs; cbn in Hs;
    repeat (apply elem_of_cons in Hs as [->|Hs]; [reflexivity|]);
    by apply elem_of_nil in Hs.
Qed.

Lemma oversized_body_is_500_witness :
  refused (Sample.world None) huge_order
  = Some (mkError "request entity too large" (Some 413))
  /\ status (respond (Sample.world None) 5 fresh_server huge_order) = 500
  /\ body (respond (Sample.world None) 5 fresh_server huge_order)
     = (if String.eqb (method huge_order) "HEAD" then NoContent
        else JsonBody (JObject
               [("error", JString "Something went wrong!");
                ("message",
                 JString (if is_development (Sample.world None)
                          then "request entity too large"
                          else "Internal server error"))]))
  /\ (forall s, s ∈ trace (Sample.world None) 5 fresh_server huge_order ->
                is_route s = false)
  /\ last (trace (Sample.world None) 5 fresh_server huge_order) = Some ErrorHandler.
Proof.
  apply (oversized_body_is_500 (Sample.world None) 5 fresh_server huge_order
           bodyParser.JsonBodies (doubled 24 "1") (fun bytes => bytes)).
  - reflexivity.
  - reflexivity.
  - reflexivity.
  - reflexivity.
  - reflexivity.
  - rewrite doubled_length. reflexivity.
  - reflexivity.
  - reflexivity.
Defined.

(** ** The mounted route groups *)

Lemma starts_at_boundary_split p s :
  Text.starts_at_boundary p s = true -> exists rest, s = p +:+ rest.
Proof.
  revert s. induction p as [|a p IH]; intros s Hs.
  - exists s. reflexivity.
  - destruct s as [|b s]; [discriminate Hs|].
    cbn [Text.starts_at_boundary] in Hs. apply andb_prop in Hs as [Hab Hs].
    apply Ascii.eqb_eq in Hab. subst b.
    destruct (IH s Hs) as [rest ->]. exists rest. reflexivity.
Qed.

Lemma under_prefix g p :
  mount_matches (mount_path g) p = true ->
  exists rest, Text.lower p = mount_path g +:+ rest.
Proof.
  unfold mount_matches. intros H.
  apply starts_at_boundary_split in H as [rest Hrest].
  exists rest. rewrite Hrest. by destruct g.
Qed.

(** X9. The eight mounted prefixes do not overlap, and none of them covers
    a page route or the health check: a path under one prefix is under no
    other, so the order in which the groups are mounted decides nothing. *)
Theorem api_prefixes_disjoint (g g' : ApiGroup) (p : string) :
  mount_matches (mount_path g) p = true ->
  (mount_matches (mount_path g') p = true -> g = g')
  /\ is_page_path p = false
  /\ is_health_path p = false.
Proof.
  intros Hg. destruct (under_prefix g p Hg) as [rest Hlow].
  unfold mount_matches, is_page_path, is_health_path, route_matches.
  cbn [existsb page_patterns]. unfold route_matches. rewrite Hlow.
  destruct g; (split; [destruct g'; try reflexivity; vm_compute; discriminate|]);
    vm_compute; done.
Qed.

Lemma api_prefixes_disjoint_witness :
  (mount_matches (mount_path authRoutes) "/API/Orders/17/items" = true ->
   orderRoutes = authRoutes)
  /\ is_page_path "/API/Orders/17/items" = false
  /\ is_health_path "/API/Orders/17/items" = false.
Proof.
  apply (api_prefixes_disjoint orderRoutes authRoutes "/API/Orders/17/items").
  reflexivity.
Defined.

Section Groups.

Context (W : World) (now : Z) (req : Request) (g : ApiGroup).
Hypothesis Hunder : mount_matches (mount_path g) (path req) = true.

Lemma group_layer : dynamic W now !! group_index g = Some (use_at W g).
Proof. by destruct g. Qed.

Lemma only_this_group :
  forallb (fun l => negb (matches l req)) (take (group_index g) (dynamic W now)) = true
  /\ forallb (fun l => negb (matches l req)) (drop (S (group_index g)) (dynamic W now))
     = true.
Proof.
  destruct (under_prefix g (path req) Hunder) as [rest Hlow].
  destruct g;
    cbn [group_index dynamic app take drop forallb matches use_at get get_page];
    unfold mount_matches, route_matches; rewrite Hlow; vm_compute; done.
Qed.

Lemma routing_group c :
  serveStatic W req = Next ->
  walk (routing W now) None req c
  = match group W g req with
    | Answers r => (c, [StaticAssets; Api g], Done r)
    | PassesOn => (c, [StaticAssets; Api g; NotFound], Done (not_found_response req))
    | Fails e =>
        (print (err_message e) c, [StaticAssets; Api g; ErrorHandler],
         Done (error_response W e))
    end.
Proof.
  intros Ha. destruct only_this_group as [Hbefore Hafter].
  rewrite (routing_reaches W now req (group_index g) (use_at W g) c Ha group_layer Hbefore).
  rewrite (walk_taken req _ _ c (api W g)); [|exact Hunder|reflexivity].
  unfold api. cbn [fst snd stage use_at].
  destruct (group W g req) as [r| |e]; [reflexivity| |].
  - rewrite walk_app, (walk_none_match req _ c Hafter), fallbacks_unmatched.
    reflexivity.
  - rewrite walk_pending_all by (apply Forall_drop, (dynamic_middleware W now)).
    rewrite fallbacks_error. reflexivity.
Qed.

End Groups.

(** X10. A request whose path lies under a mounted prefix, once past the
    limiter (admitted), the CORS stage (not OPTIONS), the decoders (body
    not refused) and the static files (nothing to answer under the path
    as send decodes and normalises it), is handed to that prefix's route
    group and to no other.  What the group answers
    is sent as it is; when the group fails, the error handler answers 500;
    when the group passes the request on, nothing behind it matches and
    the 404 handler answers. *)
Theorem api_delegation (W : World) (now : Z) (srv : Server) (req : Request)
        (g : ApiGroup) :
  mount_matches (mount_path g) (path req) = true ->
  serveStatic W req = Next ->
  admitted now srv req = true ->
  preflight req = false ->
  refused W req = None ->
  match group W g req with
  | Answers r =>
      status (respond W now srv req) = status r
      /\ body (respond W now srv req)
         = (if String.eqb (method req) "HEAD" then NoContent else body r)
      /\ trace W now srv req = pipeline_stages ++ [StaticAssets; Api g]
  | PassesOn =>
      status (respond W now srv req) = 404
      /\ trace W now srv req = pipeline_stages ++ [StaticAssets; Api g; NotFound]
  | Fails e =>
      status (respond W now srv req) = 500
      /\ trace W now srv req = pipeline_stages ++ [StaticAssets; Api g; ErrorHandler]
  end.
Proof.
  intros Hg Hs Ha Hp Hr.
  pose proof (routing_group W now req g Hg (cleared W now srv req) Hs) as Hw.
  destruct (group W g req) as [r| |e];
    destruct (routed W now req srv _ _ _ Ha Hp Hr Hw) as [-> ->]; done.
Qed.

Lemma api_delegation_witness :
  match group (Sample.world None) productRoutes (Sample.plain "GET" "/api/products/7") with
  | Answers r =>
      status (respond (Sample.world None) 5 fresh_server
                      (Sample.plain "GET" "/api/products/7")) = status r
      /\ body (respond (Sample.world None) 5 fresh_server
                       (Sample.plain "GET" "/api/products/7"))
         = (if String.eqb (method (Sample.plain "GET" "/api/products/7")) "HEAD"
            then NoContent else body r)
      /\ trace (Sample.world None) 5 fresh_server (Sample.plain "GET" "/api/products/7")
         = pipeline_stages ++ [StaticAssets; Api productRoutes]
  | PassesOn =>
      status (respond (Sample.world None) 5 fresh_server
                      (Sample.plain "GET" "/api/products/7")) = 404
      /\ trace (Sample.world None) 5 fresh_server (Sample.plain "GET" "/api/products/7")
         = pipeline_stages ++ [StaticAssets; Api productRoutes; NotFound]
  | Fails e =>
      status (respond (Sample.world None) 5 fresh_server
                      (Sample.plain "GET" "/api/products/7")) = 500
      /\ trace (Sample.world None) 5 fresh_server (Sample.plain "GET" "/api/products/7")
         = pipeline_stages ++ [StaticAssets; Api productRoutes; ErrorHandler]
  end.
Proof.
  apply (api_delegation (Sample.world None) 5 fresh_server
           (Sample.plain "GET" "/api/products/7") productRoutes);
    reflexivity.
Defined.

(** ** The page routes *)

(** X11. Take a GET of /launcher or /order-confirmation without
    validators and without a range, admitted by the rate limiter, with no
    body the decoders refuse, and with nothing of that name in the static
    root.  Its route sends the document when it exists (status 200).
    When the document is missing the answer is 500, not 404: sendFile's
    error goes to the error handler, which answers 500 for every error.
    When a directory stands in the document's place the route passes the
    request on and the 404 handler answers. *)
Theorem plain_pages_serve (W : World) (now : Z) (srv : Server) (req : Request)
        (p file : string) :
  In (p, file) plain_pages ->
  method req = "GET" ->
  path req = p ->
  send.unconditional req = true ->
  fs W (dirname W +:+ p) = Absent ->
  admitted now srv req = true ->
  refused W req = None ->
  match fs W (Posix.join [dirname W; file]) with
  | File doc =>
      status (respond W now srv req) = 200
      /\ body (respond W now srv req) = Document (Posix.join [dirname W; file]) doc
      /\ trace W now srv req = pipeline_stages ++ [StaticAssets; Page p]
  | Absent =>
      status (respond W now srv req) = 500
      /\ trace W now srv req = pipeline_stages ++ [StaticAssets; Page p; ErrorHandler]
  | Directory =>
      status (respond W now srv req) = 404
      /\ trace W now srv req = pipeline_stages ++ [StaticAssets; Page p; NotFound]
  end.
Proof.
  intros Hin Hm Hp Hu Hfs Ha Hr.
  assert (Hg := get_is_get_or_head req Hm).
  assert (Hnp := get_is_not_preflight req Hm).
  assert (Hw : walk (routing W now) None req (cleared W now srv req)
               = match res_sendFile W req (Posix.join [dirname W; file]) with
                 | Ends r => (cleared W now srv req, [StaticAssets; Page p], Done r)
                 | Next =>
                     (cleared W now srv req, [StaticAssets; Page p; NotFound],
                      Done (not_found_response req))
                 | NextErr e =>
                     (print (err_message e) (cleared W now srv req),
                      [StaticAssets; Page p; ErrorHandler], Done (error_response W e))
                 end).
  { simpl in Hin. destruct Hin as [Heq|[Heq|[]]]; injection Heq as <- <-.
    - apply (routing_page_at W now req 10 "/launcher" ["launcher.html"]);
        [reflexivity|route_by Hp| |route_by Hp|].
      + cbn [matches get get_page]. rewrite Hp, Hg. reflexivity.
      + apply (static_absent W req (dirname W +:+ "/launcher")); [|exact Hfs].
        rewrite Hp. reflexivity.
    - apply (routing_page_at W now req 15 "/order-confirmation"
               ["order-confirmation.html"]);
        [reflexivity|route_by Hp| |route_by Hp|].
      + cbn [matches get get_page]. rewrite Hp, Hg. reflexivity.
      + apply (static_absent W req (dirname W +:+ "/order-confirmation")); [|exact Hfs].
        rewrite Hp. reflexivity. }
  unfold res_sendFile in Hw.
  destruct (fs W (Posix.join [dirname W; file])) as [| |doc];
    rewrite ?(send_whole W req _ _ Hu) in Hw;
    destruct (routed W now req srv _ _ _ Ha Hnp Hr Hw) as [-> ->];
    unfold on_wire; rewrite ?Hm; done.
Qed.

Lemma plain_pages_serve_witness :
  match fs (Sample.world None) (Posix.join [dirname (Sample.world None); "launcher.html"]) with
  | File doc =>
      status (respond (Sample.world None) 5 fresh_server (Sample.plain "GET" "/launcher"))
      = 200
      /\ body (respond (Sample.world None) 5 fresh_server (Sample.plain "GET" "/launcher"))
         = Document (Posix.join [dirname (Sample.world None); "launcher.html"]) doc
      /\ trace (Sample.world None) 5 fresh_server (Sample.plain "GET" "/launcher")
         = pipeline_stages ++ [StaticAssets; Page "/launcher"]
  | Absent =>
      status (respond (Sample.world None) 5 fresh_server (Sample.plain "GET" "/launcher"))
      = 500
      /\ trace (Sample.world None) 5 fresh_server (Sample.plain "GET" "/launcher")
         = pipeline_stages ++ [StaticAssets; Page "/launcher"; ErrorHandler]
  | Directory =>
      status (respond (Sample.world None) 5 fresh_server (Sample.plain "GET" "/launcher"))
      = 404
      /\ trace (Sample.world None) 5 fresh_server (Sample.plain "GET" "/launcher")
         = pipeline_stages ++ [StaticAssets; Page "/launcher"; NotFound]
  end.
Proof.
  apply (plain_pages_serve (Sample.world None) 5 fresh_server
           (Sample.plain "GET" "/launcher") "/launcher" "launcher.html");
    [simpl; tauto|reflexivity..].
Defined.

(** ** Spellings of a route *)

Lemma chop_slash_cases s :
  s = Text.chop_slash s \/ s = Text.chop_slash s +:+ "/".
Proof.
  induction s as [|c r IH]; [by left|].
  destruct r as [|c' r'].
  - cbn [Text.chop_slash]. destruct (Ascii.eqb_spec c "/") as [->|]; [by right|by left].
  - change (Text.chop_slash (String c (String c' r')))
      with (String c (Text.chop_slash (String c' r'))).
    destruct IH as [IH|IH]; [left; by rewrite <- IH|right].
    change (String c (String c' r')
            = String c (Text.chop_slash (String c' r') +:+ "/")).
    by rewrite <- IH.
Qed.

(** X12. The redirect of /start answers every spelling Express accepts for
    the route, upper or lower case and with or without one trailing
    slash (/START, /Start/, ...): a GET so spelled that the rate limiter
    admits, whose body, if any, the decoders do not refuse and for which
    the static layer has nothing to answer under the path as spelled is
    answered 302 with Location /launcher. *)
Theorem start_any_spelling (W : World) (now : Z) (srv : Server) (req : Request) :
  route_matches "/start" (path req) = true ->
  method req = "GET" ->
  serveStatic W req = Next ->
  admitted now srv req = true ->
  refused W req = None ->
  status (respond W now srv req) = 302
  /\ In ("Location", "/launcher") (res_headers (respond W now srv req))
  /\ body (respond W now srv req) = RedirectNotice "/launcher"
  /\ trace W now srv req = pipeline_stages ++ [StaticAssets; Page "/start"].
Proof.
  intros Hroute Hm Hs Ha Hr.
  assert (Hg := get_is_get_or_head req Hm).
  assert (Hlow : Text.lower (path req) = "/start" \/ Text.lower (path req) = "/start/").
  { unfold route_matches in Hroute. apply String.eqb_eq in Hroute.
    change (Text.chop_slash (Text.lower "/start")) with "/start" in Hroute.
    destruct (chop_slash_cases (Text.lower (path req))) as [H|H];
      rewrite Hroute in H; [by left|by right]. }
  assert (Hw : walk (routing W now) None req (cleared W now srv req)
               = (cleared W now srv req, [StaticAssets; Page "/start"],
                  Done (res_redirect "/launcher"))).
  { rewrite (routing_reaches W now req 9 (get (Page "/start") "/start" start) _ Hs);
      [|reflexivity|].
    - rewrite (walk_taken req _ _ _ start); [reflexivity| |reflexivity].
      cbn [matches get]. by rewrite Hroute, Hg.
    - cbn [dynamic app take drop forallb matches use_at get get_page].
      unfold mount_matches, route_matches.
      destruct Hlow as [-> | ->]; vm_compute; reflexivity. }
  destruct (routed W now req srv _ _ _ Ha (get_is_not_preflight req Hm) Hr Hw) as [-> ->].
  unfold on_wire. rewrite Hm. cbn [status res_headers body res_redirect].
  repeat split; try reflexivity.
  apply in_or_app. right. by left.
Qed.

Lemma start_any_spelling_witness :
  status (respond (Sample.world None) 5 fresh_server (Sample.plain "GET" "/START/")) = 302
  /\ In ("Location", "/launcher")
        (res_headers (respond (Sample.world None) 5 fresh_server
                              (Sample.plain "GET" "/START/")))
  /\ body (respond (Sample.world None) 5 fresh_server (Sample.plain "GET" "/START/"))
     = RedirectNotice "/launcher"
  /\ trace (Sample.world None) 5 fresh_server (Sample.plain "GET" "/START/")
     = pipeline_stages ++ [StaticAssets; Page "/start"].
Proof.
  apply (start_any_spelling (Sample.world None) 5 fresh_server
           (Sample.plain "GET" "/START/"));
    reflexivity.
Defined.
(** ** Page routes behind their own documents *)

Lemma route_spellings pattern p :
  route_matches pattern p = true ->
  Text.lower p = Text.chop_slash (Text.lower pattern)
  \/ Text.lower p = Text.chop_slash (Text.lower pattern) +:+ "/".
Proof.
  unfold route_matches. intros H%String.eqb_eq.
  destruct (chop_slash_cases (Text.lower p)) as [Hc|Hc]; rewrite H in Hc; tauto.
Qed.

Section Shadowed.

Context (W : World) (now : Z) (req : Request).

(** A request in some spelling of a shadowed page's path that the static
    layer lets through reaches the page's route. *)
Lemma routing_spelled p parts c :
  In (p, parts) shadowed_pages ->
  route_matches p (path req) = true ->
  is_get_or_head req = true ->
  serveStatic W req = Next ->
  walk (routing W now) None req c
  = let '(c', tr, s) :=
      walk (get_page W p parts
              :: drop (S (if String.eqb p "/" then 8 else 13)) (dynamic W now)
              ++ fallbacks W now) None req c in
    (c', StaticAssets :: tr, s).
Proof.
  intros Hin Hroute Hg Hs.
  destruct (route_spellings p (path req) Hroute) as [Hlow|Hlow];
    simpl in Hin; destruct Hin as [Heq|[Heq|[]]]; injection Heq as <- <-;
    cbn [String.eqb Ascii.eqb Bool.eqb];
    (apply (routing_reaches W now req _ _ c Hs); [reflexivity|]);
    cbn [dynamic app take drop forallb matches use_at get get_page];
    unfold mount_matches, route_matches; rewrite Hlow; vm_compute; reflexivity.
Qed.

End Shadowed.

(** X13. The routes of lines 68-70 and 92-94 never send their document
    for a GET of their own path, spelled as it is registered ([/] and
    [/admin/login.html]): that path names the very same document in the
    static root.  For a request the rate limiter admits and whose body
    the decoders do not refuse: when the document exists the static
    layer takes the request (200 with the document for a request without
    validators and range) and the route is not consulted; when it does
    not exist the route is reached, sendFile fails and the error handler
    answers 500.  The route does send the document for the other
    spellings Express accepts for it (another letter case, a trailing
    slash), as far as the static layer finds nothing under them. *)
Theorem shadowed_page_routes (W : World) (now : Z) (srv : Server) (req : Request)
        (p : string) (parts : list string) :
  In (p, parts) shadowed_pages ->
  method req = "GET" ->
  admitted now srv req = true ->
  refused W req = None ->
  send.lookup (dirname W) p = Some (Posix.join (dirname W :: parts))
  /\ (path req = p ->
      forall doc,
        fs W (Posix.join (dirname W :: parts)) = File doc ->
        (Page p ∉ trace W now srv req)
        /\ (send.unconditional req = true ->
            status (respond W now srv req) = 200
            /\ body (respond W now srv req)
               = Document (Posix.join (dirname W :: parts)) doc
            /\ trace W now srv req = pipeline_stages ++ [StaticAssets]))
  /\ (path req = p ->
      fs W (Posix.join (dirname W :: parts)) = Absent ->
      status (respond W now srv req) = 500
      /\ trace W now srv req = pipeline_stages ++ [StaticAssets; Page p; ErrorHandler])
  /\ (route_matches p (path req) = true ->
      serveStatic W req = Next ->
      send.unconditional req = true ->
      forall doc,
        fs W (Posix.join (dirname W :: parts)) = File doc ->
        status (respond W now srv req) = 200
        /\ body (respond W now srv req) = Document (Posix.join (dirname W :: parts)) doc
        /\ trace W now srv req = pipeline_stages ++ [StaticAssets; Page p]).
Proof.
  intros Hin Hm Ha Hr.
  assert (Hg := get_is_get_or_head req Hm).
  assert (Hnp := get_is_not_preflight req Hm).
  assert (Hl : send.lookup (dirname W) p = Some (Posix.join (dirname W :: parts))).
  { simpl in Hin. destruct Hin as [Heq|[Heq|[]]]; injection Heq as <- <-; reflexivity. }
  assert (Hroute : path req = p -> route_matches p (path req) = true).
  { intros ->. simpl in Hin.
    destruct Hin as [Heq|[Heq|[]]]; injection Heq as <- <-; reflexivity. }
  assert (Hreach : forall c,
             route_matches p (path req) = true ->
             serveStatic W req = Next ->
             walk (routing W now) None req c
             = match res_sendFile W req (Posix.join (dirname W :: parts)) with
               | Ends r => (c, [StaticAssets; Page p], Done r)
               | Next =>
                   let '(c', tr, s) :=
                     walk (drop (S (if String.eqb p "/" then 8 else 13)) (dynamic W now)
                             ++ fallbacks W now) None req c in
                   (c', StaticAssets :: Page p :: tr, s)
               | NextErr e =>
                   (print (err_message e) c, [StaticAssets; Page p; ErrorHandler],
                    Done (error_response W e))
               end).
  { intros c Hrm Hs. rewrite (routing_spelled W now req p parts c Hin Hrm Hg Hs).
    rewrite (walk_taken req _ _ c (page W parts));
      [|cbn [matches get get_page]; by rewrite Hrm, Hg|reflexivity].
    unfold page. cbn [fst snd stage get_page get].
    destruct (res_sendFile W req (Posix.join (dirname W :: parts))) as [r| |e];
      [reflexivity| |].
    - destruct (walk _ None req c) as [[c' tr] s]. reflexivity.
    - rewrite walk_pending_all by (apply Forall_drop, dynamic_middleware).
      rewrite fallbacks_error. reflexivity. }
  split; [exact Hl|]. split; [|split].
  - intros Hp doc Hf. rewrite <- Hp in Hl.
    pose proof (routing_file W now req (cleared W now srv req) _ doc Hg Hl Hf) as Hw.
    split.
    + destruct (send.transfer W req _);
        destruct (routed W now req srv _ _ _ Ha Hnp Hr Hw) as [_ ->];
        intros Hin'; apply elem_of_app in Hin' as [Hin'|Hin'];
        unfold pipeline_stages in Hin';
        repeat (apply elem_of_cons in Hin' as [Hin'|Hin']; [discriminate Hin'|]);
        by apply elem_of_nil in Hin'.
    + intros Hu. unfold send.transfer in Hw. rewrite Hu in Hw.
      destruct (routed W now req srv _ _ _ Ha Hnp Hr Hw) as [-> ->].
      unfold on_wire. by rewrite Hm.
  - intros Hp Hf. rewrite <- Hp in Hl.
    pose proof (Hreach (cleared W now srv req) (Hroute Hp)
                  (static_absent W req _ Hl Hf)) as Hw.
    unfold res_sendFile in Hw. rewrite Hf in Hw.
    destruct (routed W now req srv _ _ _ Ha Hnp Hr Hw) as [-> ->]. done.
  - intros Hrm Hs Hu doc Hf.
    pose proof (Hreach (cleared W now srv req) Hrm Hs) as Hw.
    unfold res_sendFile in Hw. rewrite Hf, (send_whole W req _ _ Hu) in Hw.
    destruct (routed W now req srv _ _ _ Ha Hnp Hr Hw) as [-> ->].
    unfold on_wire. by rewrite Hm.
Qed.

Lemma shadowed_page_routes_witness :
  send.lookup (dirname (Sample.world None)) "/admin/login.html"
  = Some (Posix.join (dirname (Sample.world None) :: ["admin"; "login.html"]))
  /\ (path (Sample.plain "GET" "/admin/login.html") = "/admin/login.html" ->
      forall doc,
        fs (Sample.world None)
           (Posix.join (dirname (Sample.world None) :: ["admin"; "login.html"]))
        = File doc ->
        (Page "/admin/login.html"
           ∉ trace (Sample.world None) 5 fresh_server
                   (Sample.plain "GET" "/admin/login.html"))
        /\ (send.unconditional (Sample.plain "GET" "/admin/login.html") = true ->
            status (respond (Sample.world None) 5 fresh_server
                            (Sample.plain "GET" "/admin/login.html")) = 200
            /\ body (respond (Sample.world None) 5 fresh_server
                             (Sample.plain "GET" "/admin/login.html"))
               = Document
                   (Posix.join (dirname (Sample.world None) :: ["admin"; "login.html"]))
                   doc
            /\ trace (Sample.world None) 5 fresh_server
                     (Sample.plain "GET" "/admin/login.html")
               = pipeline_stages ++ [StaticAssets]))
  /\ (path (Sample.plain "GET" "/admin/login.html") = "/admin/login.html" ->
      fs (Sample.world None)
         (Posix.join (dirname (Sample.world None) :: ["admin"; "login.html"]))
      = Absent ->
      status (respond (Sample.world None) 5 fresh_server
                      (Sample.plain "GET" "/admin/login.html")) = 500
      /\ trace (Sample.world None) 5 fresh_server (Sample.plain "GET" "/admin/login.html")
         = pipeline_stages ++ [StaticAssets; Page "/admin/login.html"; ErrorHandler])
  /\ (route_matches "/admin/login.html" (path (Sample.plain "GET" "/admin/login.html"))
      = true ->
      serveStatic (Sample.world None) (Sample.plain "GET" "/admin/login.html") = Next ->
      send.unconditional (Sample.plain "GET" "/admin/login.html") = true ->
      forall doc,
        fs (Sample.world None)
           (Posix.join (dirname (Sample.world None) :: ["admin"; "login.html"]))
        = File doc ->
        status (respond (Sample.world None) 5 fresh_server
                        (Sample.plain "GET" "/admin/login.html")) = 200
        /\ body (respond (Sample.world None) 5 fresh_server
                         (Sample.plain "GET" "/admin/login.html"))
           = Document
               (Posix.join (dirname (Sample.world None) :: ["admin"; "login.html"])) doc
        /\ trace (Sample.world None) 5 fresh_server
                 (Sample.plain "GET" "/admin/login.html")
           = pipeline_stages ++ [StaticAssets; Page "/admin/login.html"]).
Proof.
  apply (shadowed_page_routes (Sample.world None) 5 fresh_server
           (Sample.plain "GET" "/admin/login.html") "/admin/login.html"
           ["admin"; "login.html"]);
    [simpl; tauto|reflexivity..].
Defined.

(** The same page in three spellings: as registered the static layer
    answers; in capitals and with a trailing slash it is the route. *)
Example login_page_spellings :
  map (fun p => (status (respond (Sample.world None) 5 fresh_server (Sample.plain "GET" p)),
                 trace (Sample.world None) 5 fresh_server (Sample.plain "GET" p)))
      ["/admin/login.html"; "/ADMIN/LOGIN.HTML"; "/admin/login.html/"]
  = [(200, pipeline_stages ++ [StaticAssets]);
     (200, pipeline_stages ++ [StaticAssets; Page "/admin/login.html"]);
     (200, pipeline_stages ++ [StaticAssets; Page "/admin/login.html"])].
Proof. vm_compute. reflexivity. Qed.

(** ** The fallbacks *)

Section Fallbacks.

Context (W : World) (now : Z) (req : Request).

Lemma not_found_answers stack err c c' tr s :
  walk (stack ++ fallbacks W now) err req c = (c', tr, s) ->
  NotFound ∉ map stage stack ->
  ErrorHandler ∉ map stage stack ->
  NotFound ∈ tr ->
  s = Done (not_found_response req) /\ (ErrorHandler ∉ tr) /\ last tr = Some NotFound.
Proof.
  intros Hw Hnf Heh Hin. rewrite walk_app in Hw.
  pose proof (walk_in_order req stack err c) as Ho.
  destruct (walk stack err req c) as [[c1 tr1] [r1|[e1|]]]; cbn [fst snd] in Ho.
  - injection Hw as <- <- <-. destruct Hnf. by eapply elem_of_sublist.
  - rewrite fallbacks_error in Hw. injection Hw as <- <- <-.
    apply elem_of_app in Hin as [Hin|Hin].
    + destruct Hnf. by eapply elem_of_sublist.
    + apply list_elem_of_singleton in Hin. discriminate Hin.
  - rewrite fallbacks_unmatched in Hw. injection Hw as <- <- <-.
    split; [reflexivity|]. split; [|by rewrite last_snoc].
    intros He. apply elem_of_app in He as [He|He].
    + destruct Heh. by eapply elem_of_sublist.
    + apply list_elem_of_singleton in He. discriminate He.
Qed.

Lemma before_fallbacks_stages :
  (NotFound ∉ map stage (take 24 (app W now)))
  /\ (ErrorHandler ∉ map stage (take 24 (app W now))).
Proof.
  split; vm_compute; intros Hin;
    repeat (apply elem_of_cons in Hin as [Hin|Hin]; [discriminate Hin|]);
    by apply elem_of_nil in Hin.
Qed.

End Fallbacks.

(** X14. Whenever the 404 handler runs, it is the last layer to run and the
    response is its own: status 404 and the body [{error: "Route not
    found", message: "Cannot <METHOD> <path>"}] (no body for HEAD); and
    the two fallbacks exclude each other: no request is seen by both the
    error handler and the 404 handler. *)
Theorem not_found_handler_contract (W : World) (now : Z) (srv : Server) (req : Request) :
  NotFound ∈ trace W now srv req ->
  status (respond W now srv req) = 404
  /\ body (respond W now srv req)
     = (if String.eqb (method req) "HEAD" then NoContent
        else JsonBody (JObject
               [("error", JString "Route not found");
                ("message", JString ("Cannot " +:+ method req +:+ " " +:+ path req))]))
  /\ (ErrorHandler ∉ trace W now srv req)
  /\ last (trace W now srv req) = Some NotFound.
Proof.
  unfold trace, respond, handle.
  destruct (walk (app W now) None req (blank srv)) as [[c tr] s] eqn:Hw.
  cbn [fst snd]. intros Hin. rewrite app_closed in Hw.
  destruct (before_fallbacks_stages W now) as [Hnf Heh].
  destruct (not_found_answers W now req _ _ _ _ _ _ Hw Hnf Heh Hin) as (-> & Hno & Hlast).
  done.
Qed.

Lemma not_found_handler_contract_witness :
  status (respond (Sample.world None) 5 fresh_server (Sample.plain "PUT" "/api/users/3")) = 404
  /\ body (respond (Sample.world None) 5 fresh_server (Sample.plain "PUT" "/api/users/3"))
     = (if String.eqb (method (Sample.plain "PUT" "/api/users/3")) "HEAD" then NoContent
        else JsonBody (JObject
               [("error", JString "Route not found");
                ("message",
                 JString ("Cannot " +:+ method (Sample.plain "PUT" "/api/users/3") +:+ " "
                            +:+ path (Sample.plain "PUT" "/api/users/3")))]))
  /\ (ErrorHandler ∉ trace (Sample.world None) 5 fresh_server
                           (Sample.plain "PUT" "/api/users/3"))
  /\ last (trace (Sample.world None) 5 fresh_server (Sample.plain "PUT" "/api/users/3"))
     = Some NotFound.
Proof.
  apply (not_found_handler_contract (Sample.world None) 5 fresh_server
           (Sample.plain "PUT" "/api/users/3")).
  vm_compute. repeat constructor.
Defined.

(** ** The statuses of server.js *)

(** X15. On their own account the layers of server.js answer with no other
    status than 200, 204, 206, 301, 302, 304, 404, 429 and 500.  Any
    other status a client sees (400, 401, 403, 413, ...) is the status of
    a response that the route group mounted over the request's path gave
    to this very request. *)
Theorem statuses_of_the_pipeline (W : World) (now : Z) (srv : Server) (req : Request) :
  In (status (respond W now srv req)) [200; 204; 206; 301; 302; 304; 404; 429; 500]
  \/ exists g r,
       mount_matches (mount_path g) (path req) = true
       /\ group W g req = Answers r
       /\ status (respond W now srv req) = status r.
Proof.
  destruct (respond_within W now srv req) as (r & [Hin|(g & Hm & Hg)] & ->);
    [by left|right; by exists g, r].
Qed.

(** Each of the nine statuses occurs. *)
Example statuses_occur :
  map (fun req => status (respond (Sample.world None) 5 fresh_server req))
      [Sample.plain "GET" "/launcher"; Sample.plain "OPTIONS" "/launcher";
       Sample.carrying "range" "bytes=0-3" "GET" "/launcher"; Sample.plain "GET" "/admin";
       Sample.plain "GET" "/start"; Sample.carrying "if-none-match" "*" "GET" "/api/health";
       Sample.plain "GET" "/nowhere"; Sample.plain "GET" "/api/auth/login"]
  = [200; 204; 206; 301; 302; 304; 404; 500]
  /\ status (respond (Sample.world None) 5 Sample.exhausted (Sample.plain "GET" "/")) = 429.
Proof. vm_compute. done. Qed.
